(** * Data quality and drift engines: a shallow embedding

    This development embeds the two analysis engines of the backend,
    [DataQualityChecker] (quality_checker.py) and [DriftDetector]
    (drift_detector.py), and the operations of [SparkDataProcessor]
    (spark_processor.py), and proves properties of them.

    Modelling conventions.
    - A Python float is a value of [num]: an exact rational, or one of
      the IEEE special values (+inf, -inf, nan).  Arithmetic follows the
      IEEE rules for the special values (x/0, inf-inf, nan absorbing,
      comparisons with nan false); rounding error and overflow of
      finite values are not modelled.
    - The cells of a dataset are finite numbers, strings or the missing
      marker; a numeric column (dtype int64 or float64) holds numbers,
      an object column strings.  Columns of other dtypes (bool,
      unsigned, datetime, ...) are outside the model, and no statement
      is about them.  Where [df[column]] has to denote one column, the
      names of the columns of a frame are taken to be distinct, as
      pandas.read_csv makes them.
    - A Python block that may raise is a value of [outcome]; a
      [try ... except Exception as e] block is a match on it.
    - [logger.error] appends a line to a log that is returned next to
      the value.
    - pandas, numpy and scipy are not part of the repository.  Their
      calls are modelled in the modules [Pandas], [Numpy] and [Scipy],
      following the documented behaviour of the libraries; the
      transcendental functions (logarithm, square root, the functions
      that turn a statistic into a p-value) are section variables. *)

From Stdlib Require Import ZArith QArith Qround Qabs Qminmax Lqa Lia.
From Stdlib Require Import List String Ascii Bool.
From Stdlib Require Import Sorted SetoidList SetoidPermutation Morphisms.
Import ListNotations.

Local Open Scope string_scope.
Local Open Scope list_scope.
Local Open Scope Z_scope.
Local Open Scope Q_scope.

(* ================================================================= *)
(** * Python values *)

Module Py.

(** ** Floats *)

Inductive num : Type :=
| Fin (q : Q)
| PInf
| NInf
| NaN.

Definition Qlt_bool (a b : Q) : bool := negb (Qle_bool b a).

Definition of_nat (n : nat) : num := Fin (inject_Z (Z.of_nat n)).

Definition add (x y : num) : num :=
  match x, y with
  | NaN, _ | _, NaN => NaN
  | Fin a, Fin b => Fin (a + b)
  | PInf, NInf | NInf, PInf => NaN
  | PInf, _ | _, PInf => PInf
  | NInf, _ | _, NInf => NInf
  end.

(** An infinity of the sign of [q], nan when [q] is zero. *)
Definition signed_inf (q : Q) : num :=
  match (q ?= 0)%Q with
  | Gt => PInf
  | Lt => NInf
  | Eq => NaN
  end.

Definition mul (x y : num) : num :=
  match x, y with
  | NaN, _ | _, NaN => NaN
  | Fin a, Fin b => Fin (a * b)
  | Fin a, PInf | PInf, Fin a => signed_inf a
  | Fin a, NInf | NInf, Fin a => signed_inf (- a)%Q
  | PInf, PInf | NInf, NInf => PInf
  | PInf, NInf | NInf, PInf => NInf
  end.

(** numpy division: a division by zero does not raise, it yields an
    infinity (nan for 0/0). *)
Definition div (x y : num) : num :=
  match x, y with
  | NaN, _ | _, NaN => NaN
  | Fin a, Fin b => if Qeq_bool b 0 then signed_inf a else Fin (a / b)
  | Fin _, (PInf | NInf) => Fin 0
  | PInf, Fin b => if Qle_bool 0 b then PInf else NInf
  | NInf, Fin b => if Qle_bool 0 b then NInf else PInf
  | (PInf | NInf), (PInf | NInf) => NaN
  end.

(** [x < y]; false as soon as one side is nan. *)
Definition ltb (x y : num) : bool :=
  match x, y with
  | NaN, _ | _, NaN => false
  | Fin a, Fin b => Qlt_bool a b
  | NInf, NInf | PInf, _ | _, NInf => false
  | NInf, _ | _, PInf => true
  end.

(** [x <= y]. *)
Definition leb (x y : num) : bool :=
  match x, y with
  | NaN, _ | _, NaN => false
  | Fin a, Fin b => Qle_bool a b
  | NInf, _ | _, PInf => true
  | PInf, _ | _, NInf => false
  end.

(** [x > y]. *)
Definition gtb (x y : num) : bool := ltb y x.

(** Equality of floats as values: rationals up to [Qeq]. *)
Definition num_eq (x y : num) : Prop :=
  match x, y with
  | Fin a, Fin b => a == b
  | PInf, PInf | NInf, NInf | NaN, NaN => True
  | _, _ => False
  end.

(** ** Exceptions and logging *)

Inductive outcome (A : Type) : Type :=
| Returned (a : A)
| Raised (e : string).
Arguments Returned {A} a.
Arguments Raised {A} e.

Definition bind {A B : Type} (m : outcome A) (k : A -> outcome B) : outcome B :=
  match m with
  | Returned a => k a
  | Raised e => Raised e
  end.

(** A value together with the lines written by [logger.error]. *)
Definition Logged (A : Type) : Type := (A * list string)%type.

(** A loop whose body may raise: the first exception ends it. *)
Fixpoint for_each {A S : Type} (l : list A) (st : S) (body : S -> A -> outcome S)
  : outcome S :=
  match l with
  | [] => Returned st
  | a :: l' => bind (body st a) (fun st' => for_each l' st' body)
  end.

(** ** Dictionaries

    A Python dict keeps its keys in insertion order; [d[k] = v]
    overwrites in place when [k] is present and appends otherwise. *)

Definition dict (V : Type) : Type := list (string * V).

Fixpoint dict_get {V : Type} (d : dict V) (k : string) : option V :=
  match d with
  | [] => None
  | (k', v) :: d' => if String.eqb k' k then Some v else dict_get d' k
  end.

Fixpoint dict_set {V : Type} (d : dict V) (k : string) (v : V) : dict V :=
  match d with
  | [] => [(k, v)]
  | (k', v') :: d' =>
      if String.eqb k' k then (k', v) :: d' else (k', v') :: dict_set d' k v
  end.

Definition dict_keys {V : Type} (d : dict V) : list string := map fst d.
Definition dict_values {V : Type} (d : dict V) : list V := map snd d.

(** ** Rounding

    [round(x, 2)]: the nearest multiple of 1/100, a tie going to the
    even one. *)

Definition round_half_even (q : Q) : Z :=
  let f := Qfloor q in
  match ((q - inject_Z f) ?= (1 # 2))%Q with
  | Lt => f
  | Gt => (f + 1)%Z
  | Eq => if Z.even f then f else (f + 1)%Z
  end.

Definition round2 (q : Q) : Q := inject_Z (round_half_even (q * 100)) / 100.

End Py.

(* ================================================================= *)
(** * The dataset abstraction (pandas) *)

Module Pandas.
Import Py.

Inductive numeric_dtype : Type := Int64 | Float64.

(** A column: numbers (dtype int64 or float64) or strings (dtype
    object); [None] is the missing marker. *)
Inductive Series : Type :=
| Numeric (dt : numeric_dtype) (vs : list (option Q))
| Object (vs : list (option string)).

(** An ordered sequence of named columns. *)
Definition DataFrame : Type := list (string * Series).

(** What a caller may pass where a DataFrame is expected: Python does
    not check the annotation [df: pd.DataFrame]. *)
Inductive pyobj : Type :=
| PyNone
| PyFrame (df : DataFrame).

Definition columns (df : DataFrame) : list string := map fst df.

(** [df[column]]; KeyError when the frame has no such column. *)
Fixpoint getitem (df : DataFrame) (column : string) : outcome Series :=
  match df with
  | [] => Raised ("'" ++ column ++ "'")%string
  | (name, s) :: df' => if String.eqb name column then Returned s else getitem df' column
  end.

(** [str(dtype)] *)
Definition dtype_name (s : Series) : string :=
  match s with
  | Numeric Int64 _ => "int64"
  | Numeric Float64 _ => "float64"
  | Object _ => "object"
  end.

(** [pd.api.types.is_numeric_dtype] and membership in
    [select_dtypes(include=[np.number])]. *)
Definition is_numeric_dtype (s : Series) : bool :=
  match s with Numeric _ _ => true | Object _ => false end.

(** Membership in [select_dtypes(include=['object'])], a filter of its
    own. *)
Definition is_object_dtype (s : Series) : bool :=
  match s with Object _ => true | Numeric _ _ => false end.

(** ** Cells and rows *)

Inductive cell : Type :=
| NA
| Num (x : Q)
| Str (s : string).

Definition cells (s : Series) : list cell :=
  match s with
  | Numeric _ vs => map (fun v => match v with Some x => Num x | None => NA end) vs
  | Object vs => map (fun v => match v with Some x => Str x | None => NA end) vs
  end.

Definition len_series (s : Series) : nat := length (cells s).

(** [len(df)]: the number of rows. *)
Definition len (df : DataFrame) : nat :=
  match df with
  | [] => O
  | (_, s) :: _ => len_series s
  end.

Definition iloc (df : DataFrame) (i : nat) : list cell :=
  map (fun c => nth i (cells (snd c)) NA) df.

Definition rows (df : DataFrame) : list (list cell) :=
  map (iloc df) (seq 0 (len df)).

(** Equality of cells as pandas compares them when it looks for
    duplicates: two missing markers are equal. *)
Definition cell_eqb (a b : cell) : bool :=
  match a, b with
  | NA, NA => true
  | Num x, Num y => Qeq_bool x y
  | Str s, Str t => String.eqb s t
  | _, _ => false
  end.

(** Row equality: all column values equal. *)
Fixpoint row_eqb (r1 r2 : list cell) : bool :=
  match r1, r2 with
  | [], [] => true
  | a :: r1', b :: r2' => cell_eqb a b && row_eqb r1' r2'
  | _, _ => false
  end.

(** [drop_duplicates()]: a row equal to an earlier one is dropped. *)
Fixpoint drop_duplicates_from (seen rs : list (list cell)) : list (list cell) :=
  match rs with
  | [] => []
  | r :: rs' =>
      if existsb (row_eqb r) seen then drop_duplicates_from seen rs'
      else r :: drop_duplicates_from (r :: seen) rs'
  end.

Definition drop_duplicates (rs : list (list cell)) : list (list cell) :=
  drop_duplicates_from [] rs.

(** [isna().sum()] *)
Definition isna_sum (s : Series) : nat :=
  List.length (filter (fun c => match c with NA => true | _ => false end) (cells s)).

(** [dropna()] *)
Definition dropna (s : Series) : Series :=
  let keep {A : Type} (vs : list (option A)) :=
    filter (fun v => match v with Some _ => true | None => false end) vs in
  match s with
  | Numeric dt vs => Numeric dt (keep vs)
  | Object vs => Object (keep vs)
  end.

(** The values of a numeric column that are not missing. *)
Definition numbers (vs : list (option Q)) : list Q :=
  flat_map (fun v => match v with Some x => [x] | None => [] end) vs.

(** The numbers of a column handed to a numeric routine: strings make
    numpy raise a TypeError. *)
Definition to_floats (s : Series) : outcome (list Q) :=
  match s with
  | Numeric _ vs => Returned (numbers vs)
  | Object vs =>
      if existsb (fun v => match v with Some _ => true | None => false end) vs
      then Raised "'<' not supported between instances of 'float' and 'str'"
      else Returned []
  end.

(** ** Order statistics *)

Fixpoint insert_sorted (x : Q) (l : list Q) : list Q :=
  match l with
  | [] => [x]
  | y :: l' => if Qle_bool x y then x :: l else y :: insert_sorted x l'
  end.

Fixpoint sort_values (l : list Q) : list Q :=
  match l with
  | [] => []
  | x :: l' => insert_sorted x (sort_values l')
  end.

(** Linear interpolation between the order statistics around the
    fractional position [pos] of a sorted list. *)
Definition interpolate (sorted : list Q) (pos : Q) : Q :=
  let lo := Z.to_nat (Qfloor pos) in
  let hi := Nat.min (S lo) (List.length sorted - 1)%nat in
  let a := nth lo sorted 0 in
  let b := nth hi sorted 0 in
  a + (b - a) * (pos - inject_Z (Qfloor pos)).

(** [quantile(q)] of a non-empty column without missing values
    (pandas' default, linear interpolation). *)
Definition quantile (data : list Q) (q : Q) : Q :=
  interpolate (sort_values data) (q * inject_Z (Z.of_nat (List.length data - 1)%nat)).

Definition Qsum (l : list Q) : Q := fold_left Qplus l 0.

Definition Qmax_list (x : Q) (l : list Q) : Q := fold_left Qmax l x.
Definition Qmin_list (x : Q) (l : list Q) : Q := fold_left Qmin l x.

(** [mean()], [min()], [max()] of a column without missing values; nan
    when it is empty. *)
Definition series_mean (data : list Q) : num :=
  match data with
  | [] => NaN
  | _ => Fin (Qsum data / inject_Z (Z.of_nat (List.length data)))
  end.

Definition series_min (data : list Q) : num :=
  match data with
  | [] => NaN
  | x :: l => Fin (Qmin_list x l)
  end.

Definition series_max (data : list Q) : num :=
  match data with
  | [] => NaN
  | x :: l => Fin (Qmax_list x l)
  end.

(** [std()]: the sample standard deviation, nan below two values;
    [sqrt] stands for [np.sqrt]. *)
Definition series_std (sqrt : Q -> Q) (data : list Q) : num :=
  match data with
  | [] | [_] => NaN
  | _ =>
      let n := inject_Z (Z.of_nat (List.length data)) in
      let m := Qsum data / n in
      Fin (sqrt (Qsum (map (fun v => (v - m) * (v - m)) data) / (n - 1)))
  end.

Definition series_quantile (data : list Q) (q : Q) : num :=
  match data with
  | [] => NaN
  | _ => Fin (quantile data q)
  end.

(** ** Value counts *)

(** Tally in order of first occurrence. *)
Fixpoint tally (c : cell) (t : list (cell * Z)) : list (cell * Z) :=
  match t with
  | [] => [(c, 1%Z)]
  | (k, n) :: t' => if cell_eqb k c then (k, (n + 1)%Z) :: t' else (k, n) :: tally c t'
  end.

Fixpoint insert_by_count (e : cell * Z) (t : list (cell * Z)) : list (cell * Z) :=
  match t with
  | [] => [e]
  | e' :: t' => if (snd e' <=? snd e)%Z then e :: t else e' :: insert_by_count e t'
  end.

(** [value_counts().reset_index()]: the distinct non-missing values with
    their counts, most frequent first, ties in order of first
    occurrence. *)
Definition value_counts (s : Series) : list (cell * Z) :=
  let present := filter (fun c => match c with NA => false | _ => true end) (cells s) in
  fold_right insert_by_count [] (fold_left (fun t c => tally c t) present []).

(** The count recorded for a value in a table of counts. *)
Fixpoint count_of (k : cell) (t : list (cell * Z)) : option Z :=
  match t with
  | [] => None
  | (k', n) :: t' => if cell_eqb k' k then Some n else count_of k t'
  end.

(** One row of the merged table: the value, [count_ref] and
    [count_target]. *)
Record merged_row : Type := {
  key : cell;
  count_ref : Q;
  count_target : Q
}.

(** [pd.merge(left, right, on=column, how='outer').fillna(0)] on two
    tables of counts whose value columns have the given dtypes: every
    value of either table, a count missing on one side filled with 0.
    pandas refuses to join a column of dtype object with a numeric one
    when both tables have rows.  (pandas orders the rows by value; the
    order of the rows is that of the tables here.) *)
Definition merge_outer (on left_dtype right_dtype : string)
  (left right : list (cell * Z)) : outcome (list merged_row) :=
  if negb (Bool.eqb (String.eqb left_dtype "object") (String.eqb right_dtype "object"))
     && negb (Nat.eqb (List.length left) 0) && negb (Nat.eqb (List.length right) 0)
  then
    Raised ("You are trying to merge on " ++ left_dtype ++ " and " ++ right_dtype
            ++ " columns for key '" ++ on
            ++ "'. If you wish to proceed you should use pd.concat")%string
  else
    Returned
      (map (fun e =>
              {| key := fst e;
                 count_ref := inject_Z (snd e);
                 count_target :=
                   match count_of (fst e) right with
                   | Some m => inject_Z m
                   | None => 0
                   end |}) left
       ++ flat_map (fun e =>
              match count_of (fst e) left with
              | Some _ => []
              | None => [{| key := fst e; count_ref := 0; count_target := inject_Z (snd e) |}]
              end) right).

End Pandas.

(* ================================================================= *)
(** * numpy and scipy.stats *)

Module Numpy.
Import Py.

Definition np_sum (l : list num) : num := fold_left add l (Fin 0).

(** [np.mean]; nan on an empty list (0/0). *)
Definition np_mean (l : list num) : num := div (np_sum l) (of_nat (List.length l)).

(** [np.linspace(start, stop, num)], [num] at least 2. *)
Definition np_linspace (start stop : Q) (num : nat) : list Q :=
  map (fun i => start + inject_Z (Z.of_nat i) * ((stop - start) / inject_Z (Z.of_nat (num - 1)%nat)))
      (seq 0 num).

(** [a[0] = v] and [a[-1] = v] on an array. *)
Definition set_first {A : Type} (a : list A) (v : A) : list A :=
  match a with
  | [] => []
  | _ :: a' => v :: a'
  end.

Definition set_last {A : Type} (a : list A) (v : A) : list A :=
  match a with
  | [] => []
  | _ => removelast a ++ [v]
  end.

(** [np.searchsorted(sorted(data), e, side)]: the number of values
    below [e] (side left), at most [e] (side right). *)
Definition searchsorted_left (data : list Q) (e : num) : Z :=
  Z.of_nat (List.length (filter (fun x => ltb (Fin x) e) data)).

Definition searchsorted_right (data : list Q) (e : num) : Z :=
  Z.of_nat (List.length (filter (fun x => leb (Fin x) e) data)).

(** [np.diff] *)
Fixpoint np_diff (a : list Z) : list Z :=
  match a with
  | x :: ((y :: _) as a') => (y - x)%Z :: np_diff a'
  | _ => []
  end.

(** [np.histogram(data, bins=edges)[0]] for explicit edges: numpy
    locates every edge in the sorted data (the last edge inclusive) and
    takes the differences of these cumulative counts. *)
Definition np_histogram (data : list Q) (edges : list num) : list Z :=
  match edges with
  | [] => []
  | _ =>
      np_diff (map (searchsorted_left data) (removelast edges)
               ++ [searchsorted_right data (last edges NaN)])
  end.

End Numpy.

Module Scipy.
Import Py Pandas Numpy.

(** The empirical distribution function of a sample at [x]. *)
Definition cdf (data : list Q) (x : Q) : Q :=
  inject_Z (searchsorted_right data (Fin x)) / inject_Z (Z.of_nat (List.length data)).

(** [np.clip(x, 0, 1)] *)
Definition clip01 (x : Q) : Q := Qmin (Qmax x 0) 1.

(** The two-sided two-sample Kolmogorov-Smirnov statistic: the largest
    distance between the two empirical distribution functions, looked
    for at the points of both samples. *)
Definition ks_statistic (data1 data2 : list Q) : Q :=
  let cddiffs := map (fun x => cdf data1 x - cdf data2 x) (data1 ++ data2) in
  match cddiffs with
  | [] => 0
  | d :: ds =>
      let minS := clip01 (- Qmin_list d ds) in
      let maxS := Qmax_list d ds in
      Qmax minS maxS
  end.

(** The chi-square statistic of Pearson: the sum of
    [(f_obs - f_exp)^2 / f_exp], in numpy arithmetic. *)
Definition chisquare_terms (f_obs f_exp : list Q) : list num :=
  map (fun oe => div (mul (Fin (fst oe - snd oe)) (Fin (fst oe - snd oe))) (Fin (snd oe)))
      (combine f_obs f_exp).

Definition chisquare_statistic (f_obs f_exp : list Q) : num :=
  np_sum (chisquare_terms f_obs f_exp).

Section PValues.

(** The p-value of the two-sample Kolmogorov-Smirnov statistic for
    samples of the given sizes. *)
Variable ks_pvalue : Q -> nat -> nat -> num.

(** The survival function of the chi-squared distribution with [df]
    degrees of freedom. *)
Variable chi2_sf : num -> Z -> num.

(** [stats.ks_2samp(data1, data2)]: statistic and p-value.  On an
    empty sample scipy (1.14 and later) warns that the sample is too
    small and returns nan for both, before it looks at the values;
    nothing is raised. *)
Definition ks_2samp (data1 data2 : Series) : outcome (num * num) :=
  if Nat.eqb (len_series data1) 0 || Nat.eqb (len_series data2) 0
  then Returned (NaN, NaN)
  else
    bind (to_floats data1) (fun x =>
    bind (to_floats data2) (fun y =>
    let d := ks_statistic x y in
    Returned (Fin d, ks_pvalue d (List.length x) (List.length y)))).

(** [stats.chisquare(f_obs, f_exp)]: statistic and p-value.  The totals
    of the two arguments must agree to a relative tolerance of 1e-8
    (ValueError otherwise).  The p-value is that of a chi-squared
    distribution with [k - 1] degrees of freedom, [k] the number of
    frequencies; the distribution needs a positive number of degrees
    of freedom, and scipy returns nan without one. *)
Definition chisquare (f_obs f_exp : list Q) : outcome (num * num) :=
  let f_obs_sum := Qsum f_obs in
  let f_exp_sum := Qsum f_exp in
  if Qlt_bool ((1 # 100000000) * Qmin f_obs_sum f_exp_sum) (Qabs (f_obs_sum - f_exp_sum))
  then Raised "For each axis slice, the sum of the observed frequencies must agree with the sum of the expected frequencies to a relative tolerance of 1e-08"
  else
    let stat := chisquare_statistic f_obs f_exp in
    let df := (Z.of_nat (List.length f_obs) - 1)%Z in
    Returned (stat, if (df <=? 0)%Z then NaN else chi2_sf stat df).

End PValues.

End Scipy.

(* ================================================================= *)
(** * quality_checker.py *)

Module DataQualityChecker.
Import Py Pandas.

Record MissingInfo : Type := {
  missing_count : Z;
  missing_percentage : Q
}.

Record MissingValueReport : Type := {
  missing_total_rows : Z;
  missing_columns : dict MissingInfo
}.

Record DuplicateReport : Type := {
  total_rows : Z;
  unique_rows : Z;
  duplicate_count : Z;
  duplicate_percentage : Q
}.

Record OutlierInfo : Type := {
  outlier_count : Z;
  outlier_percentage : Q;
  lower_bound : Q;
  upper_bound : Q
}.

Record Statistics : Type := {
  numeric_summary : option (list (dict num));
  categorical_columns : list string;
  numeric_columns : list string;
  categorical_summary : dict (list (cell * Z))
}.

(** A returned dict with fixed keys: the report, or the empty dict
    [{}] of the handlers. *)
Inductive result (R : Type) : Type :=
| Report (r : R)
| EmptyDict.
Arguments Report {R} r.
Arguments EmptyDict {R}.

(** [try: body  except Exception as e: logger.error(f"{what}: {e}");
    return {}] *)
Definition guarded {R : Type} (what : string) (body : outcome R) : Logged (result R) :=
  match body with
  | Returned r => (Report r, [])
  | Raised e => (EmptyDict, [(what ++ ": " ++ e)%string])
  end.

(** The same for an operation whose report is itself a dict keyed by
    column. *)
Definition guarded_dict {V : Type} (what : string) (body : outcome (dict V))
  : Logged (dict V) :=
  match body with
  | Returned d => (d, [])
  | Raised e => ([], [(what ++ ": " ++ e)%string])
  end.

(** ** check_missing_values *)

Definition check_missing_values_body (x : pyobj) : outcome MissingValueReport :=
  match x with
  | PyNone => Raised "object of type 'NoneType' has no len()"
  | PyFrame df =>
      let total_rows := Z.of_nat (len df) in
      bind
        (for_each (columns df) []
           (fun missing_info column =>
              bind (getitem df column) (fun s =>
              let missing_count := Z.of_nat (isna_sum s) in
              let missing_percentage :=
                if (0 <? total_rows)%Z
                then (inject_Z missing_count / inject_Z total_rows) * 100
                else 0 in
              Returned
                (dict_set missing_info column
                   {| missing_count := missing_count;
                      missing_percentage := round2 missing_percentage |}))))
        (fun missing_info =>
           Returned {| missing_total_rows := total_rows;
                       missing_columns := missing_info |})
  end.

Definition check_missing_values (x : pyobj) : Logged (result MissingValueReport) :=
  guarded "Error checking missing values" (check_missing_values_body x).

(** ** check_duplicates *)

Definition check_duplicates_body (x : pyobj) : outcome DuplicateReport :=
  match x with
  | PyNone => Raised "object of type 'NoneType' has no len()"
  | PyFrame df =>
      let total_rows := Z.of_nat (len df) in
      let unique_rows := Z.of_nat (List.length (drop_duplicates (rows df))) in
      let duplicate_count := (total_rows - unique_rows)%Z in
      Returned
        {| total_rows := total_rows;
           unique_rows := unique_rows;
           duplicate_count := duplicate_count;
           duplicate_percentage :=
             if (0 <? total_rows)%Z
             then round2 ((inject_Z duplicate_count / inject_Z total_rows) * 100)
             else 0 |}
  end.

Definition check_duplicates (x : pyobj) : Logged (result DuplicateReport) :=
  guarded "Error checking duplicates" (check_duplicates_body x).

(** ** detect_outliers *)

(** [df.select_dtypes(include=[np.number]).columns.tolist()] *)
Definition numeric_cols (df : DataFrame) : list string :=
  map fst (filter (fun c => is_numeric_dtype (snd c)) df).

(** The values selected by
    [col_data[(col_data < lower_bound) | (col_data > upper_bound)]]. *)
Definition outliers (col_data : list Q) (lower_bound upper_bound : Q) : list Q :=
  filter (fun v => Qlt_bool v lower_bound || Qlt_bool upper_bound v) col_data.

(** The entry recorded for a column with at least one value. *)
Definition outlier_info (col_data : list Q) : OutlierInfo :=
  let Q1 := quantile col_data (25 # 100) in
  let Q3 := quantile col_data (75 # 100) in
  let IQR := Q3 - Q1 in
  let lower_bound := Q1 - (15 # 10) * IQR in
  let upper_bound := Q3 + (15 # 10) * IQR in
  let outlier_count := List.length (outliers col_data lower_bound upper_bound) in
  {| outlier_count := Z.of_nat outlier_count;
     outlier_percentage :=
       round2 ((inject_Z (Z.of_nat outlier_count)
                / inject_Z (Z.of_nat (List.length col_data))) * 100);
     lower_bound := lower_bound;
     upper_bound := upper_bound |}.

Definition detect_outliers_body (x : pyobj) : outcome (dict OutlierInfo) :=
  match x with
  | PyNone => Raised "'NoneType' object has no attribute 'select_dtypes'"
  | PyFrame df =>
      for_each (numeric_cols df) []
        (fun outliers_info column =>
           bind (getitem df column) (fun s =>
           bind (to_floats (dropna s)) (fun col_data =>
           if (0 <? List.length col_data)%nat
           then Returned (dict_set outliers_info column (outlier_info col_data))
           else Returned outliers_info)))
  end.

Definition detect_outliers (x : pyobj) : Logged (dict OutlierInfo) :=
  guarded_dict "Error detecting outliers" (detect_outliers_body x).

(** ** check_data_types *)

Definition check_data_types_body (x : pyobj) : outcome (dict string) :=
  match x with
  | PyNone => Raised "'NoneType' object has no attribute 'dtypes'"
  | PyFrame df =>
      Returned (fold_left (fun d c => dict_set d (fst c) (dtype_name (snd c))) df [])
  end.

Definition check_data_types (x : pyobj) : Logged (dict string) :=
  guarded_dict "Error checking data types" (check_data_types_body x).

(** ** get_statistics *)

Section Statistics.

(** [np.sqrt], used by the standard deviation. *)
Variable np_sqrt : Q -> Q.

(** The rows of [describe()] for one column: count, mean, std, min,
    25%, 50%, 75%, max. *)
Definition describe_column (data : list Q) : list num :=
  [ of_nat (List.length data); series_mean data; series_std np_sqrt data; series_min data;
    series_quantile data (25 # 100); series_quantile data (50 # 100);
    series_quantile data (75 # 100); series_max data ].

(** [df[numeric_cols].describe().to_dict('records')]: one dict per row
    of the summary, keyed by column. *)
Definition describe_records (df : DataFrame) (cols : list string)
  : outcome (list (dict num)) :=
  for_each (seq 0 8) []
    (fun records i =>
       bind
         (for_each cols []
            (fun record column =>
               bind (getitem df column) (fun s =>
               bind (to_floats (dropna s)) (fun data =>
               Returned (dict_set record column (nth i (describe_column data) NaN))))))
         (fun record => Returned (records ++ [record]))).

Definition get_statistics_body (x : pyobj) : outcome Statistics :=
  match x with
  | PyNone => Raised "'NoneType' object has no attribute 'select_dtypes'"
  | PyFrame df =>
      let numeric_cols := numeric_cols df in
      bind
        (match numeric_cols with
         | [] => Returned None
         | _ => bind (describe_records df numeric_cols) (fun r => Returned (Some r))
         end)
        (fun numeric_summary =>
      let categorical_cols := map fst (filter (fun c => is_object_dtype (snd c)) df) in
      bind
        (for_each (firstn 5 categorical_cols) []
           (fun summary col_name =>
              bind (getitem df col_name) (fun s =>
              Returned (dict_set summary col_name (firstn 10 (value_counts s))))))
        (fun categorical_summary =>
           Returned {| numeric_summary := numeric_summary;
                       categorical_columns := categorical_cols;
                       numeric_columns := numeric_cols;
                       categorical_summary := categorical_summary |}))
  end.

Definition get_statistics (x : pyobj) : Logged (result Statistics) :=
  guarded "Error getting statistics" (get_statistics_body x).

End Statistics.

End DataQualityChecker.

(* ================================================================= *)
(** * drift_detector.py *)

Module DriftDetector.
Import Py Pandas Numpy Scipy.

(** The keys of a column's result besides the four common ones. *)
Inductive test_detail : Type :=
| KSDetail (p_value psi_score reference_mean target_mean reference_std target_std : num)
| ChiSquareDetail (p_value : num) (reference_unique_values target_unique_values : Z)
| ErrorNote (error : string).

Record column_result : Type := {
  column_name : string;
  test_type : string;
  has_drift : bool;
  drift_score : num;
  detail : test_detail
}.

Definition p_value (r : column_result) : option num :=
  match detail r with
  | KSDetail p _ _ _ _ _ => Some p
  | ChiSquareDetail p _ _ => Some p
  | ErrorNote _ => None
  end.

Definition psi_score (r : column_result) : option num :=
  match detail r with
  | KSDetail _ psi _ _ _ _ => Some psi
  | _ => None
  end.

Definition error_note (r : column_result) : option string :=
  match detail r with
  | ErrorNote e => Some e
  | _ => None
  end.

(** The value under ['test_results']. *)
Inductive test_summary : Type :=
| Summary (total_columns_tested columns_with_drift : Z) (threshold : num)
| SummaryError (error : string).

Record drift_report : Type := {
  drift_detected : bool;
  overall_drift_score : num;
  column_drift : dict column_result;
  test_results : test_summary
}.

Section Detector.

(** [np.log], [np.sqrt], and the p-values of the two tests. *)
Variable np_log : Q -> Q.
Variable np_sqrt : Q -> Q.
Variable ks_pvalue : Q -> nat -> nat -> num.
Variable chi2_sf : num -> Z -> num.

(** [self.threshold] *)
Variable threshold : num.

(** ** _calculate_psi *)

(** The fraction of [data] in every bin, plus the small constant. *)
Definition psi_dist (data : list Q) (breakpoints : list num) : list Q :=
  map (fun n => inject_Z n / inject_Z (Z.of_nat (List.length data)) + (1 # 10000))
      (np_histogram data breakpoints).

Definition psi_breakpoints (ref : list Q) (bins : nat) : list num :=
  match ref with
  | [] => []
  | x :: l =>
      set_last
        (set_first (map Fin (np_linspace (Qmin_list x l) (Qmax_list x l) (bins + 1))) NInf)
        PInf
  end.

Definition psi_sum (ref_dist target_dist : list Q) : Q :=
  Qsum (map (fun tr => (fst tr - snd tr) * np_log (fst tr / snd tr))
            (combine target_dist ref_dist)).

(** The body of the [try] block.  On an empty sample the fractions
    are 0/0, and the index is nan. *)
Definition calculate_psi_body (ref_data target_data : Series) (bins : nat) : outcome num :=
  bind (to_floats ref_data) (fun ref =>
  bind (to_floats target_data) (fun target =>
  match ref, target with
  | [], _ | _, [] => Returned NaN
  | _, _ =>
      let breakpoints := psi_breakpoints ref bins in
      let ref_dist := psi_dist ref breakpoints in
      let target_dist := psi_dist target breakpoints in
      Returned (Fin (psi_sum ref_dist target_dist))
  end)).

Definition _calculate_psi (ref_data target_data : Series) : Logged num :=
  match calculate_psi_body ref_data target_data 10 with
  | Returned psi => (psi, [])
  | Raised e => (Fin 0, [("Error calculating PSI: " ++ e)%string])
  end.

(** ** _ks_test *)

(** The body of the [try] block: what it returns or raises, with the
    lines that [_calculate_psi] has logged by then. *)
Definition ks_test_body (ref_df target_df : DataFrame) (column : string)
  : Logged (outcome column_result) :=
  match getitem ref_df column with
  | Raised e => (Raised e, [])
  | Returned ref_col =>
      match getitem target_df column with
      | Raised e => (Raised e, [])
      | Returned target_col =>
          let ref_data := dropna ref_col in
          let target_data := dropna target_col in
          match ks_2samp ks_pvalue ref_data target_data with
          | Raised e => (Raised e, [])
          | Returned ks =>
              let ks_statistic := fst ks in
              let p_value := snd ks in
              let has_drift := ltb p_value threshold in
              let psi := _calculate_psi ref_data target_data in
              (bind (to_floats ref_data) (fun ref =>
               bind (to_floats target_data) (fun target =>
               Returned
                 {| column_name := column;
                    test_type := "KS Test";
                    has_drift := has_drift;
                    drift_score := ks_statistic;
                    detail := KSDetail p_value (fst psi) (series_mean ref) (series_mean target)
                                (series_std np_sqrt ref) (series_std np_sqrt target) |})),
               snd psi)
          end
      end
  end.

Definition _ks_test (ref_df target_df : DataFrame) (column : string)
  : Logged column_result :=
  match ks_test_body ref_df target_df column with
  | (Returned r, log) => (r, log)
  | (Raised e, log) =>
      ({| column_name := column;
          test_type := "KS Test";
          has_drift := false;
          drift_score := Fin 0;
          detail := ErrorNote e |},
       log ++ [("Error in KS test for column " ++ column ++ ": " ++ e)%string])
  end.

(** ** _chi_square_test *)

Definition chi_square_test_body (ref_df target_df : DataFrame) (column : string)
  : outcome column_result :=
  bind (getitem ref_df column) (fun ref_col =>
  let ref_counts := value_counts ref_col in
  bind (getitem target_df column) (fun target_col =>
  let target_counts := value_counts target_col in
  bind (merge_outer column (dtype_name ref_col) (dtype_name target_col)
          ref_counts target_counts) (fun merged =>
  bind (chisquare chi2_sf (map count_target merged) (map count_ref merged)) (fun chi2 =>
  let chi2_statistic := fst chi2 in
  let p_value := snd chi2 in
  let has_drift := ltb p_value threshold in
  Returned
    {| column_name := column;
       test_type := "Chi-Square Test";
       has_drift := has_drift;
       drift_score := chi2_statistic;
       detail := ChiSquareDetail p_value (Z.of_nat (List.length ref_counts))
                   (Z.of_nat (List.length target_counts)) |})))).

Definition _chi_square_test (ref_df target_df : DataFrame) (column : string)
  : Logged column_result :=
  match chi_square_test_body ref_df target_df column with
  | Returned r => (r, [])
  | Raised e =>
      ({| column_name := column;
          test_type := "Chi-Square Test";
          has_drift := false;
          drift_score := Fin 0;
          detail := ErrorNote e |},
       [("Error in Chi-square test for column " ++ column ++ ": " ++ e)%string])
  end.

(** ** detect_drift *)

(** [list(set(reference_df.columns) & set(target_df.columns))]: the
    names present in both frames, each once.  (Python leaves the order
    of a set unspecified; the names come in the order of the reference
    frame here.) *)
Definition common_cols (reference_df target_df : DataFrame) : list string :=
  nodup string_dec
    (filter (fun c => existsb (String.eqb c) (columns target_df)) (columns reference_df)).

(** The variables of the loop over the common columns. *)
Record loop_state : Type := {
  loop_column_drift : dict column_result;
  loop_drift_scores : list num;
  loop_log : list string
}.

(** The column test chosen by the type of the reference column. *)
Definition column_test (reference_df target_df : DataFrame) (column : string)
  (reference_col : Series) : Logged column_result :=
  if is_numeric_dtype reference_col
  then _ks_test reference_df target_df column
  else _chi_square_test reference_df target_df column.

(** The loop; it stops at the first exception that reaches it, and
    returns it with the state reached. *)
Fixpoint drift_loop (reference_df target_df : DataFrame) (cols : list string)
  (st : loop_state) : loop_state * option string :=
  match cols with
  | [] => (st, None)
  | column :: cols' =>
      match getitem reference_df column with
      | Raised e => (st, Some e)
      | Returned reference_col =>
          let drift_result := column_test reference_df target_df column reference_col in
          drift_loop reference_df target_df cols'
            {| loop_column_drift := dict_set (loop_column_drift st) column (fst drift_result);
               loop_drift_scores := loop_drift_scores st ++ [drift_score (fst drift_result)];
               loop_log := loop_log st ++ snd drift_result |}
      end
  end.

(** The report of the top-level handler. *)
Definition failure_report (e : string) : drift_report :=
  {| drift_detected := false;
     overall_drift_score := Fin 0;
     column_drift := [];
     test_results := SummaryError e |}.

Definition detect_drift (reference_df target_df : pyobj) : Logged drift_report :=
  match reference_df, target_df with
  | PyFrame ref, PyFrame target =>
      let common_cols := common_cols ref target in
      let '(st, exn) :=
        drift_loop ref target common_cols
          {| loop_column_drift := []; loop_drift_scores := []; loop_log := [] |} in
      match exn with
      | Some e =>
          (failure_report e, loop_log st ++ [("Error detecting drift: " ++ e)%string])
      | None =>
          let column_drift := loop_column_drift st in
          let drift_scores := loop_drift_scores st in
          let overall_drift_score :=
            match drift_scores with
            | [] => Fin 0
            | _ => np_mean drift_scores
            end in
          let drift_detected := gtb overall_drift_score threshold in
          ({| drift_detected := drift_detected;
              overall_drift_score := overall_drift_score;
              column_drift := column_drift;
              test_results :=
                Summary (Z.of_nat (List.length common_cols))
                  (Z.of_nat (List.length (filter has_drift (dict_values column_drift))))
                  threshold |},
           loop_log st)
      end
  | _, _ =>
      let e := "'NoneType' object has no attribute 'columns'" in
      (failure_report e, [("Error detecting drift: " ++ e)%string])
  end.

End Detector.

End DriftDetector.

(* ================================================================= *)
(** * Notions used in the statements *)

Module Spec.
Import Py Pandas Numpy Scipy DataQualityChecker DriftDetector.

(** ** Rows and rounding *)

Definition row_eq (r1 r2 : list cell) : Prop := row_eqb r1 r2 = true.

(** [reps] lists the distinct rows of [rs]: no two of its rows are
    equal, and it holds the same rows as [rs] up to row equality. *)
Definition distinct_rows (rs reps : list (list cell)) : Prop :=
  NoDupA row_eq reps /\ forall r, InA row_eq r reps <-> InA row_eq r rs.

(** [y] is [x] rounded to two decimals. *)
Definition rounded_to_2_decimals (x y : Q) : Prop :=
  (exists k : Z, y == inject_Z k / 100) /\ Qabs (y - x) <= 1 # 200.

(** The number of entries of a returned dict, [keys] being the number
    of keys of a full report. *)
Definition entries {R : Type} (keys : nat) (d : result R) : nat :=
  match d with
  | Report _ => keys
  | EmptyDict => O
  end.

(** ** Dictionaries filled by a loop *)

(** The step [d[k] = v] for the keys [k] that [f] maps to a value. *)
Definition set_where {V : Type} (f : string -> option V) (d : dict V) (k : string) : dict V :=
  match f k with
  | Some v => dict_set d k v
  | None => d
  end.

(** The entry that detect_outliers records for a column. *)
Definition outlier_entry (df : DataFrame) (column : string) : option OutlierInfo :=
  match getitem df column with
  | Returned (Numeric _ vs) =>
      match numbers vs with
      | [] => None
      | col_data => Some (outlier_info col_data)
      end
  | _ => None
  end.

(** The last position of a sorted list, as a rational. *)
Definition top_position (s : list Q) : Q := inject_Z (Z.of_nat (List.length s - 1)).

(** ** Floats *)

Definition is_zero (x : num) : Prop := num_eq x (Fin 0).

(** A score that is zero, or nan. *)
Definition zero_or_nan (x : num) : Prop := is_zero x \/ x = NaN.

(** A float that is a number or +inf. *)
Definition number_or_pinf (x : num) : Prop :=
  match x with
  | Fin _ | PInf => True
  | _ => False
  end.

(** A p-value in the unit interval. *)
Definition in_unit_interval (p : num) : Prop :=
  leb (Fin 0) p = true /\ leb p (Fin 1) = true.

(** ** Tables of counts *)

Definition same_key (a b : cell * Z) : Prop := cell_eqb (fst a) (fst b) = true.

(** The values of a table are distinct and every count is positive. *)
Definition counts_table (t : list (cell * Z)) : Prop :=
  NoDupA same_key t /\ Forall (fun e => (1 <= snd e)%Z) t.

(** A row made by the outer join of two tables of counts: one of the
    two counts is positive, and an absent reference count is 0. *)
Definition joined_row (row : merged_row) : Prop :=
  0 < count_ref row \/ (count_ref row = 0 /\ 0 < count_target row).

(** ** The stability index in the words of the specification *)

(** The inner edges: points linearly spaced between [lo] and [hi]. *)
Definition bin_edge (lo hi : Q) (bins i : nat) : Q :=
  lo + inject_Z (Z.of_nat i) * ((hi - lo) / inject_Z (Z.of_nat bins)).

(** Membership in bin [i] of [bins]: from edge [i] (included) to edge
    [i + 1] (excluded), the first bin reaching down to -inf and the
    last one up to +inf. *)
Definition in_bin (lo hi : Q) (bins i : nat) (x : Q) : bool :=
  (if Nat.eqb i 0 then true else Qle_bool (bin_edge lo hi bins i) x)
  && (if Nat.eqb (S i) bins then true else Qlt_bool x (bin_edge lo hi bins (S i))).

(** The fraction of [data] in bin [i], plus 0.0001. *)
Definition bin_fraction (lo hi : Q) (bins : nat) (data : list Q) (i : nat) : Q :=
  inject_Z (Z.of_nat (List.length (filter (in_bin lo hi bins i) data)))
  / inject_Z (Z.of_nat (List.length data)) + (1 # 10000).

(** The sum over the 10 bins between the minimum and the maximum of
    the reference sample. *)
Definition psi_spec (ln : Q -> Q) (ref target : list Q) : Q :=
  let lo := Qmin_list (hd 0 ref) (tl ref) in
  let hi := Qmax_list (hd 0 ref) (tl ref) in
  Qsum (map (fun i =>
               let ref_frac := bin_fraction lo hi 10 ref i in
               let target_frac := bin_fraction lo hi 10 target i in
               (target_frac - ref_frac) * ln (target_frac / ref_frac))
            (seq 0 10)).

(** ** The tests of one column *)

Section ColumnTests.

Variable np_log : Q -> Q.
Variable np_sqrt : Q -> Q.
Variable ks_pvalue : Q -> nat -> nat -> num.
Variable chi2_sf : num -> Z -> num.
Variable threshold : num.

(** What the loop of detect_drift records for a column of the
    reference frame.  (A name that is not a column of the frame ends
    the loop and records nothing; the second case only makes the
    function total.) *)
Definition column_outcome (ref target : DataFrame) (column : string) : Logged column_result :=
  match getitem ref column with
  | Returned s => column_test np_log np_sqrt ks_pvalue chi2_sf threshold ref target column s
  | Raised e =>
      ({| column_name := column; test_type := ""; has_drift := false;
          drift_score := Fin 0; detail := ErrorNote e |}, [])
  end.

(** The outcome of the Kolmogorov-Smirnov test of a column: the
    statistic and the p-value when the test and the means and standard
    deviations taken after it go through, the exception otherwise.  The
    stability index has no part in it. *)
Definition ks_outcome (ref target : DataFrame) (column : string) : outcome (num * num) :=
  bind (getitem ref column) (fun ref_col =>
  bind (getitem target column) (fun target_col =>
  bind (ks_2samp ks_pvalue (dropna ref_col) (dropna target_col)) (fun ks =>
  bind (to_floats (dropna ref_col)) (fun _ =>
  bind (to_floats (dropna target_col)) (fun _ =>
  Returned ks))))).

(** The test of a column of the reference frame fails: the body of its
    [try] block raises [e]. *)
Definition column_test_raises (ref target : DataFrame) (column e : string) : Prop :=
  exists s, getitem ref column = Returned s /\
    if is_numeric_dtype s
    then fst (ks_test_body np_log np_sqrt ks_pvalue threshold ref target column) = Raised e
    else chi_square_test_body chi2_sf threshold ref target column = Raised e.

End ColumnTests.

(** ** Sample inputs *)

(** The significance threshold by default, and stand-ins for the
    library functions that the section variables abstract. *)
Definition default_threshold : num := Fin (5 # 100).
Definition sample_log (x : Q) : Q := x - 1.
Definition sample_sqrt (x : Q) : Q := x.
Definition sample_ks_pvalue (d : Q) (n m : nat) : num := Fin (Qmin 1 (Qmax 0 (1 - d))).
Definition sample_chi2_sf (stat : num) (df : Z) : num :=
  match stat with
  | Fin q => if Qle_bool q 1 then Fin 1 else Fin (1 # 100)
  | _ => Fin 0
  end.

Definition reference_sample : DataFrame :=
  [ ("x", Numeric Int64 [Some 1; Some 2; Some 3; Some 4; Some 5; Some 100]);
    ("empty", Numeric Float64 [None; None; None; None; None; None]);
    ("cat", Object [Some "A"; Some "A"; Some "B"; Some "A"; Some "A"; Some "B"]);
    ("constant", Object [Some "EU"; Some "EU"; Some "EU"; Some "EU"; Some "EU"; Some "EU"]) ].

Definition target_sample : DataFrame :=
  [ ("cat", Object [Some "A"; Some "B"; Some "C"; Some "A"; Some "B"; Some "C"]);
    ("x", Numeric Int64 [Some 1; Some 2; Some 3; Some 4; Some 5; Some 7]);
    ("empty", Numeric Float64 [None; None; None; None; None; None]);
    ("constant", Object [Some "EU"; Some "EU"; Some "EU"; Some "EU"; Some "EU"; Some "EU"]) ].

(** The samples without the column that has no value. *)
Definition reference_complete : DataFrame :=
  [ ("x", Numeric Int64 [Some 1; Some 2; Some 3; Some 4; Some 5; Some 100]);
    ("cat", Object [Some "A"; Some "A"; Some "B"; Some "A"; Some "A"; Some "B"]);
    ("constant", Object [Some "EU"; Some "EU"; Some "EU"; Some "EU"; Some "EU"; Some "EU"]) ].

(** The column "cat" of the two samples alone. *)
Definition reference_cat : DataFrame :=
  [ ("cat", Object [Some "A"; Some "A"; Some "B"; Some "A"; Some "A"; Some "B"]) ].

Definition target_cat : DataFrame :=
  [ ("cat", Object [Some "A"; Some "B"; Some "C"; Some "A"; Some "B"; Some "C"]) ].

(** A column that is numeric in the reference dataset and holds text in
    the target dataset, next to a column of cities. *)
Definition reference_amounts : DataFrame :=
  [ ("amount", Numeric Float64 [Some 10; Some 20; None; Some 40]);
    ("city", Object [Some "Rome"; Some "Oslo"; Some "Rome"; Some "Oslo"]) ].

Definition target_amounts : DataFrame :=
  [ ("amount", Object [Some "10 EUR"; Some "n/a"; Some "30 EUR"; Some "40 EUR"]);
    ("city", Object [Some "Oslo"; Some "Rome"; Some "Oslo"; Some "Rome"]) ].

End Spec.

From Stdlib Require Import Permutation.

(* ================================================================= *)
(** * Frames made from frames (pandas) *)

Module Frames.
Import Py Pandas.

(** The positions that [duplicated()] leaves unmarked: a row is kept
    when no row kept before it equals it. *)
Fixpoint first_occurrences (row : nat -> list cell) (seen : list (list cell))
  (positions : list nat) : list nat :=
  match positions with
  | [] => []
  | i :: positions' =>
      if existsb (row_eqb (row i)) seen then first_occurrences row seen positions'
      else i :: first_occurrences row (row i :: seen) positions'
  end.

(** The values of a column at the given positions. *)
Definition series_take (positions : list nat) (s : Series) : Series :=
  match s with
  | Numeric dt vs => Numeric dt (map (fun i => nth i vs None) positions)
  | Object vs => Object (map (fun i => nth i vs None) positions)
  end.

(** [df.drop_duplicates()] as a frame: the rows that [duplicated()]
    does not mark, with the columns and their types unchanged. *)
Definition frame_drop_duplicates (df : DataFrame) : DataFrame :=
  let keep := first_occurrences (iloc df) [] (seq 0 (len df)) in
  map (fun c => (fst c, series_take keep (snd c))) df.

(** [df.select_dtypes(include=names).columns.tolist()] *)
Definition select_dtypes (include : list string) (df : DataFrame) : list string :=
  map fst (filter (fun c => existsb (String.eqb (dtype_name (snd c))) include) df).

End Frames.

(* ================================================================= *)
(** * spark_processor.py *)

Module SparkDataProcessor.
Import Py Pandas Frames DataQualityChecker.

Record BasicStats : Type := {
  column_types : dict string;
  basic_numeric_summary : option (dict (dict num))
}.

Definition pandas_to_spark (df_pandas : pyobj) : pyobj := df_pandas.

Definition spark_to_pandas (df : pyobj) : pyobj := df.

Section BasicStatistics.

Variable np_sqrt : Q -> Q.

(** The index of [describe()]. *)
Definition describe_index : list string :=
  ["count"; "mean"; "std"; "min"; "25%"; "50%"; "75%"; "max"].

(** [df[numeric_cols].describe().to_dict()]: one dict per column, keyed
    by the index of the summary. *)
Definition describe_dict (df : DataFrame) (cols : list string) : outcome (dict (dict num)) :=
  for_each cols []
    (fun summary column =>
       bind (getitem df column) (fun s =>
       bind (to_floats (dropna s)) (fun data =>
       Returned (dict_set summary column
                   (combine describe_index (describe_column np_sqrt data)))))).

Definition get_basic_stats_body (x : pyobj) : outcome BasicStats :=
  match x with
  | PyNone => Raised "'NoneType' object has no attribute 'dtypes'"
  | PyFrame df =>
      let column_types :=
        fold_left (fun d c => dict_set d (fst c) (dtype_name (snd c))) df [] in
      let numeric_cols := select_dtypes ["int64"; "float64"] df in
      bind
        (match numeric_cols with
         | [] => Returned None
         | _ => bind (describe_dict df numeric_cols) (fun r => Returned (Some r))
         end)
        (fun numeric_summary =>
           Returned {| column_types := column_types;
                       basic_numeric_summary := numeric_summary |})
  end.

Definition get_basic_stats (x : pyobj) : Logged (result BasicStats) :=
  guarded "Error getting basic stats" (get_basic_stats_body x).

End BasicStatistics.

Definition clean_data_body (x : pyobj) : outcome pyobj :=
  match x with
  | PyNone => Raised "'NoneType' object has no attribute 'drop_duplicates'"
  | PyFrame df => Returned (PyFrame (frame_drop_duplicates df))
  end.

(** The handler returns the argument itself. *)
Definition clean_data (x : pyobj) : Logged pyobj :=
  match clean_data_body x with
  | Returned df_clean => (df_clean, [])
  | Raised e => (x, [("Error cleaning data: " ++ e)%string])
  end.

End SparkDataProcessor.

(* ================================================================= *)
(** * Further notions used in the statements *)

Module Notions.
Import Py Pandas Numpy Scipy DataQualityChecker DriftDetector Spec.

(** A frame as pandas builds it from a CSV file: distinct column names
    and columns of one length. *)
Definition well_formed (df : DataFrame) : Prop :=
  NoDup (columns df) /\ Forall (fun c => len_series (snd c) = len df) df.

(** A float that is a number not below zero, or +inf. *)
Definition nonneg_or_pinf (x : num) : Prop :=
  match x with
  | Fin q => 0 <= q
  | PInf => True
  | _ => False
  end.

(** A table of counts in the order of [value_counts()]: the counts do
    not grow. *)
Definition descending (t : list (cell * Z)) : Prop :=
  StronglySorted (fun a b => (snd b <= snd a)%Z) t.

Definition cell_eq (a b : cell) : Prop := cell_eqb a b = true.

(** [vals] lists the distinct non-missing values of a column. *)
Definition distinct_values (s : Series) (vals : list cell) : Prop :=
  NoDupA cell_eq vals /\
  forall c, InA cell_eq c vals <-> c <> NA /\ InA cell_eq c (cells s).

(** The result of a column test is the one of its handler. *)
Definition has_error (r : column_result) : bool :=
  match detail r with
  | ErrorNote _ => true
  | _ => false
  end.

(** The columns of a frame whose names are in [cols]. *)
Definition restrict_to (cols : list string) (df : DataFrame) : DataFrame :=
  filter (fun c => existsb (String.eqb (fst c)) cols) df.

(** What the stability index needs of the logarithm: its sign. *)
Definition sign_of_log (ln : Q -> Q) : Prop :=
  forall x, 0 < x -> (1 <= x -> 0 <= ln x) /\ (x <= 1 -> ln x <= 0).

(** [df.select_dtypes(include=['object']).columns.tolist()] *)
Definition object_cols (df : DataFrame) : list string :=
  map fst (filter (fun c => is_object_dtype (snd c)) df).

(** The non-missing numbers of a column of the frame. *)
Definition column_numbers (df : DataFrame) (column : string) : list Q :=
  match getitem df column with
  | Returned (Numeric _ vs) => numbers vs
  | _ => []
  end.

(** The number of cells of a column that hold the value [k]. *)
Definition occurrences (k : cell) (s : Series) : Z :=
  Z.of_nat (List.length (filter (cell_eqb k) (cells s))).

(** The sum of the counts of a table. *)
Definition total_count (t : list (cell * Z)) : Z :=
  fold_right Z.add 0%Z (map snd t).

(** The table kept while the cells are tallied: distinct values, every
    count the number of cells seen that hold the value, and every cell
    seen has its value in the table. *)
Definition tallied (seen : list cell) (t : list (cell * Z)) : Prop :=
  counts_table t /\
  (forall e, In e t -> snd e = Z.of_nat (List.length (filter (cell_eqb (fst e)) seen))) /\
  (forall x, In x seen -> InA same_key (x, 0%Z) t).

(** Two results that differ by the flag at most, the second one
    flagged when the first one is. *)
Definition flagged_more (r r' : column_result) : Prop :=
  column_name r' = column_name r /\ test_type r' = test_type r /\
  drift_score r' = drift_score r /\ detail r' = detail r /\
  (has_drift r = true -> has_drift r' = true).

(** The second column holds the cells of the first one in another
    order, as after the rows of a dataset have been reshuffled. *)
Definition reshuffled (s s' : Series) : Prop :=
  match s, s' with
  | Numeric _ vs, Numeric _ vs' => Permutation vs vs'
  | Object vs, Object vs' => Permutation vs vs'
  | _, _ => False
  end.

End Notions.

Import Py Pandas Numpy Scipy DataQualityChecker DriftDetector Spec.

(* ================================================================= *)
(** * Dictionaries and loops *)

Lemma dict_get_set_same {V : Type} (d : dict V) (k : string) (v : V) :
  dict_get (dict_set d k v) k = Some v.
Proof.
  induction d as [|[k' v'] d IH]; simpl.
  - now rewrite String.eqb_refl.
  - destruct (String.eqb k' k) eqn:E; simpl; rewrite E; auto.
Qed.

Lemma dict_get_set_other {V : Type} (d : dict V) (k k' : string) (v : V) :
  k <> k' -> dict_get (dict_set d k v) k' = dict_get d k'.
Proof.
  intros Hk. induction d as [|[k0 v0] d IH]; simpl.
  - apply String.eqb_neq in Hk. now rewrite Hk.
  - destruct (String.eqb k0 k) eqn:E; simpl.
    + apply String.eqb_eq in E. subst k0.
      apply String.eqb_neq in Hk. now rewrite Hk.
    + now rewrite IH.
Qed.

Lemma dict_set_fresh {V : Type} (d : dict V) (k : string) (v : V) :
  ~ In k (dict_keys d) -> dict_set d k v = d ++ [(k, v)].
Proof.
  induction d as [|[k' v'] d IH]; simpl; [reflexivity|].
  intros Hk. destruct (String.eqb k' k) eqn:E.
  - apply String.eqb_eq in E. tauto.
  - rewrite IH by tauto. reflexivity.
Qed.

Lemma dict_get_map {V : Type} (f : string -> V) (l : list string) (k : string) :
  dict_get (map (fun c => (c, f c)) l) k = if in_dec string_dec k l then Some (f k) else None.
Proof.
  induction l as [|a l IH]; [reflexivity|].
  cbn [map dict_get]. destruct (String.eqb a k) eqn:E.
  - apply String.eqb_eq in E. subst a.
    destruct (in_dec string_dec k (k :: l)) as [_|H]; [reflexivity|].
    exfalso. apply H. now left.
  - apply String.eqb_neq in E. rewrite IH.
    destruct (in_dec string_dec k l) as [H|H];
      destruct (in_dec string_dec k (a :: l)) as [H'|H']; try reflexivity.
    + exfalso. apply H'. now right.
    + destruct H' as [H'|H']; [congruence|contradiction].
Qed.

Lemma dict_get_set_where {V : Type} (f : string -> option V) (l : list string) :
  NoDup l ->
  forall (d : dict V) (k : string),
    dict_get (fold_left (set_where f) l d) k =
    if in_dec string_dec k l
    then match f k with Some v => Some v | None => dict_get d k end
    else dict_get d k.
Proof.
  induction 1 as [|a l Ha Hl IH]; intros d k; [reflexivity|].
  cbn [fold_left]. rewrite IH.
  assert (Hget : a <> k -> dict_get (set_where f d a) k = dict_get d k).
  { intros Hak. unfold set_where. destruct (f a); auto using dict_get_set_other. }
  destruct (in_dec string_dec k (a :: l)) as [Hin|Hin];
    destruct (in_dec string_dec k l) as [Hin'|Hin'].
  - destruct (f k); [reflexivity|]. apply Hget. intros ->. contradiction.
  - destruct Hin as [->|Hin]; [|contradiction].
    unfold set_where. destruct (f k); [apply dict_get_set_same|reflexivity].
  - exfalso. apply Hin. now right.
  - apply Hget. intros ->. apply Hin. now left.
Qed.

Lemma for_each_returns {A S : Type} (body : S -> A -> outcome S) (upd : S -> A -> S)
  (l : list A) :
  (forall st a, In a l -> body st a = Returned (upd st a)) ->
  forall st, for_each l st body = Returned (fold_left upd l st).
Proof.
  induction l as [|a l IH]; intros Hbody st; simpl; [reflexivity|].
  rewrite Hbody by now left. simpl. apply IH. intros; apply Hbody; now right.
Qed.

Lemma filter_length_le {A : Type} (p : A -> bool) (l : list A) :
  (List.length (filter p l) <= List.length l)%nat.
Proof.
  induction l as [|a l IH]; simpl; [lia|]. destruct (p a); simpl; lia.
Qed.

Lemma flat_map_all_nil {A B : Type} (f : A -> list B) (l : list A) :
  (forall a, In a l -> f a = []) -> flat_map f l = [].
Proof.
  induction l as [|a l IH]; intros H; simpl; [reflexivity|].
  rewrite H by now left. apply IH. intros; apply H; now right.
Qed.

Lemma combine_map_same {A B C : Type} (f : A -> B) (g : A -> C) (l : list A) :
  combine (map f l) (map g l) = map (fun a => (f a, g a)) l.
Proof.
  induction l as [|a l IH]; simpl; congruence.
Qed.

Lemma NoDup_map_filter {A B : Type} (g : A -> B) (p : A -> bool) (l : list A) :
  NoDup (map g l) -> NoDup (map g (filter p l)).
Proof.
  induction l as [|a l IH]; simpl; [auto|].
  intros Hnd. inversion Hnd as [|? ? Hnot Hnd']; subst.
  destruct (p a); simpl; [|auto].
  constructor; [|auto].
  intros Hin. apply Hnot. rewrite in_map_iff in *.
  destruct Hin as [x [Hx Hin]]. exists x. split; [exact Hx|].
  apply filter_In in Hin. tauto.
Qed.

Lemma PermutationA_same_length {A : Type} (eqA : A -> A -> Prop) (l1 l2 : list A) :
  PermutationA eqA l1 l2 -> List.length l1 = List.length l2.
Proof.
  induction 1; simpl; congruence.
Qed.

(* ================================================================= *)
(** * Frames *)

Lemma getitem_columns (df : DataFrame) (column : string) :
  In column (columns df) -> exists s, getitem df column = Returned s.
Proof.
  induction df as [|[name s] df IH]; simpl; [tauto|].
  intros H. destruct (String.eqb name column) eqn:E; [eauto|].
  apply String.eqb_neq in E. destruct H as [H|H]; [congruence|auto].
Qed.

Lemma getitem_In (df : DataFrame) (column : string) (s : Series) :
  NoDup (columns df) -> In (column, s) df -> getitem df column = Returned s.
Proof.
  induction df as [|[name s'] df IH]; simpl; [tauto|].
  intros Hnd [H|H].
  - inversion H; subst. now rewrite String.eqb_refl.
  - inversion Hnd as [|? ? Hnot Hnd']; subst.
    destruct (String.eqb name column) eqn:E.
    + apply String.eqb_eq in E. subst. exfalso. apply Hnot.
      unfold columns. change column with (fst (column, s)). now apply in_map.
    + now apply IH.
Qed.

Lemma rows_length (df : DataFrame) : List.length (rows df) = len df.
Proof.
  unfold rows. now rewrite length_map, length_seq.
Qed.

Lemma numbers_dropna (vs : list (option Q)) :
  numbers (filter (fun v => match v with Some _ => true | None => false end) vs) = numbers vs.
Proof.
  induction vs as [|[x|] vs IH]; simpl; congruence.
Qed.

Lemma dropna_numeric_length (dt : numeric_dtype) (vs : list (option Q)) :
  len_series (dropna (Numeric dt vs)) = List.length (numbers vs).
Proof.
  unfold len_series. cbn [dropna cells]. rewrite length_map.
  induction vs as [|[x|] vs IH]; simpl; congruence.
Qed.

Lemma getitem_Returned_columns (df : DataFrame) (c : string) (s : Series) :
  getitem df c = Returned s -> In c (columns df).
Proof.
  induction df as [|[name t] df IH]; simpl; [discriminate|].
  destruct (String.eqb name c) eqn:E.
  - apply String.eqb_eq in E. now left.
  - intros H. right. now apply IH.
Qed.

(* ================================================================= *)
(** * Rounding *)

Lemma Qlt_bool_iff (a b : Q) : Qlt_bool a b = true <-> a < b.
Proof.
  unfold Qlt_bool. rewrite negb_true_iff. split; intros H.
  - destruct (Qlt_le_dec a b) as [Hl|Hl]; [exact Hl|].
    apply Qle_bool_iff in Hl. congruence.
  - destruct (Qle_bool b a) eqn:E; [|reflexivity].
    apply Qle_bool_iff in E. lra.
Qed.

Lemma round_half_even_near (q : Q) :
  Qabs (inject_Z (round_half_even q) - q) <= 1 # 2.
Proof.
  unfold round_half_even.
  pose proof (Qfloor_le q) as Hlo. pose proof (Qlt_floor q) as Hhi.
  rewrite inject_Z_plus in Hhi. change (inject_Z 1) with 1 in Hhi.
  apply Qabs_Qle_condition.
  destruct (Qcompare_spec (q - inject_Z (Qfloor q)) (1 # 2)) as [E|E|E].
  - destruct (Z.even (Qfloor q)).
    + lra.
    + rewrite inject_Z_plus. change (inject_Z 1) with 1. lra.
  - lra.
  - rewrite inject_Z_plus. change (inject_Z 1) with 1. lra.
Qed.

Lemma round2_rounded (x : Q) : rounded_to_2_decimals x (round2 x).
Proof.
  split.
  - exists (round_half_even (x * 100)). reflexivity.
  - unfold round2. pose proof (round_half_even_near (x * 100)) as H.
    apply Qabs_Qle_condition in H. apply Qabs_Qle_condition.
    set (k := inject_Z (round_half_even (x * 100))) in *.
    split.
    + apply Qle_minus_iff. setoid_replace (k / 100 - x + - - (1 # 200))
        with ((k - x * 100 + (1 # 2)) / 100) by field.
      apply Qle_shift_div_l; lra.
    + apply Qle_minus_iff. setoid_replace ((1 # 200) + - (k / 100 - x))
        with (((1 # 2) - (k - x * 100)) / 100) by field.
      apply Qle_shift_div_l; lra.
Qed.

(* ================================================================= *)
(** * Duplicate rows *)

Lemma cell_eqb_refl (a : cell) : cell_eqb a a = true.
Proof.
  destruct a; simpl; auto using Qeq_bool_refl, String.eqb_refl.
Qed.

Lemma cell_eqb_sym (a b : cell) : cell_eqb a b = cell_eqb b a.
Proof.
  destruct a, b; simpl; auto using Qeq_bool_comm, String.eqb_sym.
Qed.

Lemma cell_eqb_trans (a b c : cell) :
  cell_eqb a b = true -> cell_eqb b c = true -> cell_eqb a c = true.
Proof.
  destruct a, b, c; simpl; try congruence.
  - apply Qeq_bool_trans.
  - rewrite !String.eqb_eq. congruence.
Qed.

Lemma row_eqb_refl (r : list cell) : row_eqb r r = true.
Proof.
  induction r as [|a r IH]; simpl; [reflexivity|].
  now rewrite cell_eqb_refl, IH.
Qed.

Lemma row_eqb_sym (r1 r2 : list cell) : row_eqb r1 r2 = row_eqb r2 r1.
Proof.
  revert r2; induction r1 as [|a r1 IH]; intros [|b r2]; simpl; auto.
  now rewrite cell_eqb_sym, IH.
Qed.

Lemma row_eqb_trans (r1 r2 r3 : list cell) :
  row_eqb r1 r2 = true -> row_eqb r2 r3 = true -> row_eqb r1 r3 = true.
Proof.
  revert r2 r3; induction r1 as [|a r1 IH]; intros [|b r2] [|c r3]; simpl; try congruence.
  rewrite !andb_true_iff. intros [H1 H2] [H3 H4]. split.
  - eapply cell_eqb_trans; eauto.
  - eapply IH; eauto.
Qed.

#[local] Instance row_eq_equivalence : Equivalence row_eq.
Proof.
  split.
  - intros r. apply row_eqb_refl.
  - intros r1 r2 H. unfold row_eq in *. now rewrite row_eqb_sym.
  - intros r1 r2 r3. apply row_eqb_trans.
Qed.

Lemma existsb_row_eqb (r : list cell) (seen : list (list cell)) :
  existsb (row_eqb r) seen = true <-> InA row_eq r seen.
Proof.
  rewrite existsb_exists, InA_alt. unfold row_eq. firstorder.
Qed.

Lemma drop_duplicates_from_InA (rs seen : list (list cell)) (r : list cell) :
  InA row_eq r (drop_duplicates_from seen rs) <->
  InA row_eq r rs /\ ~ InA row_eq r seen.
Proof.
  revert seen; induction rs as [|x rs IH]; intros seen; simpl.
  - rewrite InA_nil. tauto.
  - destruct (existsb (row_eqb x) seen) eqn:E.
    + apply existsb_row_eqb in E. rewrite IH, InA_cons. split.
      * tauto.
      * intros [[H|H] Hn]; [|tauto]. exfalso. apply Hn. now rewrite H.
    + assert (Hx : ~ InA row_eq x seen).
      { rewrite <- existsb_row_eqb. congruence. }
      rewrite !InA_cons, IH, InA_cons. split.
      * intros [H|[H Hn]]; [|tauto]. split; [tauto|]. now rewrite H.
      * intros [[H|H] Hn]; [tauto|].
        destruct (row_eqb r x) eqn:Erx; [left; exact Erx|].
        right. split; [exact H|]. intros [Hc|Hc]; [|tauto].
        unfold row_eq in Hc. congruence.
Qed.

Lemma drop_duplicates_from_NoDupA (rs seen : list (list cell)) :
  NoDupA row_eq (drop_duplicates_from seen rs).
Proof.
  revert seen; induction rs as [|x rs IH]; intros seen; simpl.
  - constructor.
  - destruct (existsb (row_eqb x) seen); [apply IH|].
    constructor; [|apply IH].
    rewrite drop_duplicates_from_InA. intros [_ Hn]. apply Hn. now left.
Qed.

Lemma drop_duplicates_from_length (rs seen : list (list cell)) :
  (List.length (drop_duplicates_from seen rs) <= List.length rs)%nat.
Proof.
  revert seen; induction rs as [|x rs IH]; intros seen; simpl; [lia|].
  destruct (existsb (row_eqb x) seen); simpl.
  - specialize (IH seen). lia.
  - specialize (IH (x :: seen)). lia.
Qed.

Lemma drop_duplicates_distinct (rs : list (list cell)) :
  distinct_rows rs (drop_duplicates rs).
Proof.
  split.
  - apply drop_duplicates_from_NoDupA.
  - intros r. unfold drop_duplicates. rewrite drop_duplicates_from_InA, InA_nil. tauto.
Qed.

(** The number of distinct rows does not depend on the rows chosen to
    stand for them. *)
Lemma distinct_rows_length (rs reps1 reps2 : list (list cell)) :
  distinct_rows rs reps1 -> distinct_rows rs reps2 ->
  List.length reps1 = List.length reps2.
Proof.
  intros [N1 H1] [N2 H2].
  apply (PermutationA_same_length row_eq).
  apply NoDupA_equivlistA_PermutationA; auto using row_eq_equivalence.
  intros r. now rewrite H1, H2.
Qed.

(** C7.  For every dataset, check_duplicates returns a report in which
    unique_rows + duplicate_count = total_rows, total_rows is the
    number of rows, unique_rows is the number of distinct full rows
    (two rows being equal when all their column values are), and the
    percentage is duplicate_count / total_rows * 100 rounded to two
    decimals, 0 for an empty dataset. *)
Theorem check_duplicates_counts (df : DataFrame) :
  exists r : DuplicateReport,
    check_duplicates (PyFrame df) = (Report r, []) /\
    total_rows r = Z.of_nat (len df) /\
    (unique_rows r + duplicate_count r = total_rows r)%Z /\
    (0 <= duplicate_count r)%Z /\
    (exists reps, distinct_rows (rows df) reps) /\
    (forall reps, distinct_rows (rows df) reps ->
                  unique_rows r = Z.of_nat (List.length reps)) /\
    (total_rows r = 0%Z -> duplicate_percentage r = 0) /\
    ((0 < total_rows r)%Z ->
     rounded_to_2_decimals
       (inject_Z (duplicate_count r) / inject_Z (total_rows r) * 100)
       (duplicate_percentage r)).
Proof.
  eexists. split; [reflexivity|]. simpl.
  pose proof (drop_duplicates_from_length (rows df) []) as Hlen.
  rewrite rows_length in Hlen. fold (drop_duplicates (rows df)) in Hlen.
  split; [reflexivity|]. split; [lia|]. split; [lia|]. split; [|split; [|split]].
  - exists (drop_duplicates (rows df)). apply drop_duplicates_distinct.
  - intros reps H. f_equal.
    apply (distinct_rows_length (rows df)); auto using drop_duplicates_distinct.
  - intros H. rewrite H. reflexivity.
  - intros H. apply Z.ltb_lt in H. rewrite H. apply round2_rounded.
Qed.

(* ================================================================= *)
(** * Quantiles and outliers *)

Lemma insert_sorted_Forall (P : Q -> Prop) (x : Q) (l : list Q) :
  P x -> Forall P l -> Forall P (insert_sorted x l).
Proof.
  intros Hx; induction 1 as [|y l Hy Hl IH]; simpl.
  - auto.
  - destruct (Qle_bool x y); auto.
Qed.

Lemma insert_sorted_sorted (x : Q) (l : list Q) :
  StronglySorted Qle l -> StronglySorted Qle (insert_sorted x l).
Proof.
  induction 1 as [|y l Hl IH Hy]; simpl.
  - repeat constructor.
  - destruct (Qle_bool x y) eqn:E.
    + apply Qle_bool_iff in E. constructor; [constructor; assumption|].
      constructor; [exact E|].
      eapply Forall_impl; [|exact Hy]. intros z Hz. lra.
    + assert (y <= x).
      { destruct (Qlt_le_dec y x) as [H|H]; [lra|].
        apply Qle_bool_iff in H. congruence. }
      constructor; [exact IH|]. now apply insert_sorted_Forall.
Qed.

Lemma sort_values_sorted (l : list Q) : StronglySorted Qle (sort_values l).
Proof.
  induction l as [|x l IH]; simpl; [constructor|].
  now apply insert_sorted_sorted.
Qed.

Lemma insert_sorted_length (x : Q) (l : list Q) :
  List.length (insert_sorted x l) = S (List.length l).
Proof.
  induction l as [|y l IH]; simpl; [reflexivity|].
  destruct (Qle_bool x y); simpl; congruence.
Qed.

Lemma sort_values_length (l : list Q) : List.length (sort_values l) = List.length l.
Proof.
  induction l as [|x l IH]; simpl; [reflexivity|].
  now rewrite insert_sorted_length, IH.
Qed.

Lemma sorted_nth_le (s : list Q) :
  StronglySorted Qle s ->
  forall i j, (i <= j < List.length s)%nat -> nth i s 0 <= nth j s 0.
Proof.
  induction 1 as [|x s Hs IH Hx]; intros i j Hij; simpl in Hij; [lia|].
  destruct i as [|i], j as [|j]; simpl; try lia.
  - lra.
  - rewrite Forall_forall in Hx. apply Hx, nth_In. lia.
  - apply IH. lia.
Qed.

(** Interpolation stays between the two order statistics around the
    position, and grows with the position. *)
Section Interpolation.

Variable s : list Q.
Hypothesis s_sorted : StronglySorted Qle s.
Hypothesis s_nonempty : (0 < List.length s)%nat.

Lemma floor_position (pos : Q) :
  0 <= pos <= top_position s ->
  (Z.to_nat (Qfloor pos) <= List.length s - 1)%nat /\
  0 <= pos - inject_Z (Qfloor pos) /\ pos - inject_Z (Qfloor pos) < 1.
Proof.
  intros [H0 H1].
  pose proof (Qfloor_le pos) as Hlo. pose proof (Qlt_floor pos) as Hhi.
  rewrite inject_Z_plus in Hhi. change (inject_Z 1) with 1 in Hhi.
  split; [|lra].
  apply Qfloor_resp_le in H1. unfold top_position in H1. rewrite Qfloor_Z in H1.
  apply Qfloor_resp_le in H0. change (Qfloor 0) with 0%Z in H0. lia.
Qed.

Lemma interpolate_between (pos : Q) :
  0 <= pos <= top_position s ->
  nth (Z.to_nat (Qfloor pos)) s 0 <= interpolate s pos /\
  interpolate s pos <= nth (Nat.min (S (Z.to_nat (Qfloor pos))) (List.length s - 1)) s 0.
Proof.
  intros Hpos. destruct (floor_position pos Hpos) as (Hlo & Hf0 & Hf1).
  unfold interpolate.
  set (lo := Z.to_nat (Qfloor pos)) in *.
  set (hi := Nat.min (S lo) (List.length s - 1)).
  set (f := pos - inject_Z (Qfloor pos)) in *.
  assert (Hab : nth lo s 0 <= nth hi s 0).
  { apply sorted_nth_le; [exact s_sorted|]. unfold hi. lia. }
  set (a := nth lo s 0) in *. set (b := nth hi s 0) in *.
  split; nra.
Qed.

Lemma interpolate_monotone (p1 p2 : Q) :
  0 <= p1 -> p1 <= p2 -> p2 <= top_position s -> interpolate s p1 <= interpolate s p2.
Proof.
  intros H0 H12 H2.
  assert (Hp1 : 0 <= p1 <= top_position s) by lra.
  assert (Hp2 : 0 <= p2 <= top_position s) by lra.
  destruct (floor_position p1 Hp1) as (Hlo1 & Hf10 & Hf11).
  destruct (floor_position p2 Hp2) as (Hlo2 & Hf20 & Hf21).
  pose proof (Qfloor_resp_le _ _ H12) as Hfl.
  assert (Hfl0 : (0 <= Qfloor p1)%Z).
  { apply Qfloor_resp_le in H0. exact H0. }
  destruct (Z.eq_dec (Qfloor p1) (Qfloor p2)) as [E|E].
  - unfold interpolate. rewrite <- E.
    set (lo := Z.to_nat (Qfloor p1)) in *.
    set (hi := Nat.min (S lo) (List.length s - 1)).
    assert (Hab : nth lo s 0 <= nth hi s 0).
    { apply sorted_nth_le; [exact s_sorted|]. unfold hi. lia. }
    set (a := nth lo s 0) in *. set (b := nth hi s 0) in *.
    set (fl := inject_Z (Qfloor p1)) in *.
    nra.
  - destruct (interpolate_between p1 Hp1) as [_ Hup].
    destruct (interpolate_between p2 Hp2) as [Hdown _].
    apply Qle_trans with (2 := Hdown). apply Qle_trans with (1 := Hup).
    apply sorted_nth_le; [exact s_sorted|]. lia.
Qed.

End Interpolation.

Lemma quantile_monotone (data : list Q) (q1 q2 : Q) :
  data <> [] -> 0 <= q1 -> q1 <= q2 -> q2 <= 1 ->
  quantile data q1 <= quantile data q2.
Proof.
  intros Hne H0 H12 H1. unfold quantile.
  assert (Hlen : (0 < List.length data)%nat).
  { destruct data; [congruence|simpl; lia]. }
  assert (Htop : 0 <= inject_Z (Z.of_nat (List.length data - 1))).
  { change 0 with (inject_Z 0). rewrite <- Zle_Qle. lia. }
  set (t := inject_Z (Z.of_nat (List.length data - 1))) in *.
  apply interpolate_monotone.
  - apply sort_values_sorted.
  - rewrite sort_values_length. exact Hlen.
  - nra.
  - nra.
  - unfold top_position. rewrite sort_values_length. fold t. nra.
Qed.

Lemma numeric_cols_In (df : DataFrame) (column : string) :
  In column (numeric_cols df) <->
  exists s, In (column, s) df /\ is_numeric_dtype s = true.
Proof.
  unfold numeric_cols. rewrite in_map_iff. split.
  - intros [[c s] [Hc Hin]]. simpl in Hc. subst c.
    apply filter_In in Hin. simpl in Hin. eauto.
  - intros [s [Hin Hs]]. exists (column, s). split; [reflexivity|].
    apply filter_In. auto.
Qed.

Lemma detect_outliers_body_frame (df : DataFrame) :
  NoDup (columns df) ->
  detect_outliers_body (PyFrame df) =
  Returned (fold_left (set_where (outlier_entry df)) (numeric_cols df) []).
Proof.
  intros Hnd. simpl. apply for_each_returns.
  intros st column Hin. apply numeric_cols_In in Hin. destruct Hin as [s [Hin Hs]].
  unfold set_where, outlier_entry. rewrite (getitem_In df column s Hnd Hin). simpl.
  destruct s as [dt vs|vs]; [|discriminate]. simpl. rewrite numbers_dropna.
  destruct (numbers vs); reflexivity.
Qed.

Lemma detect_outliers_entry (df : DataFrame) (column : string) :
  NoDup (columns df) ->
  dict_get (fst (detect_outliers (PyFrame df))) column =
  if in_dec string_dec column (numeric_cols df) then outlier_entry df column else None.
Proof.
  intros Hnd. unfold detect_outliers. rewrite detect_outliers_body_frame by exact Hnd.
  simpl. rewrite dict_get_set_where.
  - destruct (in_dec string_dec column (numeric_cols df)); [|reflexivity].
    destruct (outlier_entry df column); reflexivity.
  - apply NoDup_map_filter. exact Hnd.
Qed.

Lemma outliers_In (col_data : list Q) (lb ub v : Q) :
  In v (outliers col_data lb ub) <-> In v col_data /\ (v < lb \/ ub < v).
Proof.
  unfold outliers. now rewrite filter_In, orb_true_iff, !Qlt_bool_iff.
Qed.

(** C8.  In a dataset with distinct column names, for every numeric
    column with at least one non-missing value detect_outliers records
    lower_bound = Q1 - 1.5 IQR and upper_bound = Q3 + 1.5 IQR with
    IQR = Q3 - Q1, so that lower_bound <= upper_bound; the outliers
    counted are exactly the non-missing values strictly below
    lower_bound or strictly above upper_bound; the percentage is the
    count over the number of non-missing values, times 100, rounded to
    two decimals.  A numeric column with no non-missing value and a
    column that is not numeric have no entry, and the operation logs
    no failure. *)
Theorem detect_outliers_iqr (df : DataFrame) :
  NoDup (columns df) ->
  (forall column dt vs,
      In (column, Numeric dt vs) df -> numbers vs <> [] ->
      exists info,
        dict_get (fst (detect_outliers (PyFrame df))) column = Some info /\
        let col_data := numbers vs in
        let Q1 := quantile col_data (25 # 100) in
        let Q3 := quantile col_data (75 # 100) in
        let IQR := Q3 - Q1 in
        lower_bound info = Q1 - (15 # 10) * IQR /\
        upper_bound info = Q3 + (15 # 10) * IQR /\
        lower_bound info <= upper_bound info /\
        outlier_count info =
          Z.of_nat (List.length (outliers col_data (lower_bound info) (upper_bound info))) /\
        (forall v, In v (outliers col_data (lower_bound info) (upper_bound info)) <->
                   In v col_data /\ (v < lower_bound info \/ upper_bound info < v)) /\
        rounded_to_2_decimals
          (inject_Z (outlier_count info) / inject_Z (Z.of_nat (List.length col_data)) * 100)
          (outlier_percentage info)) /\
  (forall column dt vs,
      In (column, Numeric dt vs) df -> numbers vs = [] ->
      dict_get (fst (detect_outliers (PyFrame df))) column = None) /\
  (forall column vs,
      In (column, Object vs) df ->
      dict_get (fst (detect_outliers (PyFrame df))) column = None) /\
  snd (detect_outliers (PyFrame df)) = [].
Proof.
  intros Hnd. split; [|split; [|split]].
  - intros column dt vs Hin Hne.
    exists (outlier_info (numbers vs)). split.
    + rewrite detect_outliers_entry by exact Hnd.
      destruct (in_dec string_dec column (numeric_cols df)) as [_|Hn].
      * unfold outlier_entry. rewrite (getitem_In df column _ Hnd Hin).
        destruct (numbers vs); [congruence|reflexivity].
      * exfalso. apply Hn, numeric_cols_In. eauto.
    + cbv zeta. split; [reflexivity|]. split; [reflexivity|]. split; [|split; [|split]].
      * simpl.
        assert (H : quantile (numbers vs) (25 # 100) <= quantile (numbers vs) (75 # 100)).
        { apply quantile_monotone; [exact Hne|lra..]. }
        lra.
      * reflexivity.
      * intros v. apply outliers_In.
      * apply round2_rounded.
  - intros column dt vs Hin He.
    rewrite detect_outliers_entry by exact Hnd.
    destruct (in_dec string_dec column (numeric_cols df)); [|reflexivity].
    unfold outlier_entry. rewrite (getitem_In df column _ Hnd Hin). now rewrite He.
  - intros column vs Hin.
    rewrite detect_outliers_entry by exact Hnd.
    destruct (in_dec string_dec column (numeric_cols df)); [|reflexivity].
    unfold outlier_entry. now rewrite (getitem_In df column _ Hnd Hin).
  - unfold detect_outliers. now rewrite detect_outliers_body_frame.
Qed.

(** The sample column x = 1, 2, 3, 4, 5, 100: its bounds are -1.5 and
    8.5, and 100 is its only outlier. *)
Lemma detect_outliers_iqr_witness :
  NoDup (columns reference_sample) /\
  exists info,
    dict_get (fst (detect_outliers (PyFrame reference_sample))) "x" = Some info /\
    lower_bound info <= upper_bound info /\
    outliers [1; 2; 3; 4; 5; 100] (lower_bound info) (upper_bound info) = [100] /\
    outlier_count info = 1%Z.
Proof.
  assert (Hnd : NoDup (columns reference_sample)).
  { repeat constructor; simpl; intuition discriminate. }
  split; [exact Hnd|].
  destruct (detect_outliers_iqr reference_sample Hnd) as [H _].
  destruct (H "x" Int64 [Some 1; Some 2; Some 3; Some 4; Some 5; Some 100])
    as (info & Hget & _ & _ & Hle & _).
  - simpl. auto.
  - discriminate.
  - exists info. split; [exact Hget|]. split; [exact Hle|].
    vm_compute in Hget. inversion Hget. split; reflexivity.
Defined.

(* ================================================================= *)
(** * The loop of detect_drift *)

Lemma np_sum_finite (qs : list Q) : np_sum (map Fin qs) = Fin (Qsum qs).
Proof.
  unfold np_sum, Qsum. generalize 0. induction qs as [|q qs IH]; intros a; simpl; auto.
Qed.

(** On numbers, [np_mean] is the arithmetic mean. *)
Lemma np_mean_finite (qs : list Q) :
  qs <> [] ->
  np_mean (map Fin qs) = Fin (Qsum qs / inject_Z (Z.of_nat (List.length qs))).
Proof.
  intros Hne. unfold np_mean. rewrite np_sum_finite, length_map. unfold of_nat, div.
  destruct (Qeq_bool (inject_Z (Z.of_nat (List.length qs))) 0) eqn:E; [|reflexivity].
  apply Qeq_bool_eq in E. exfalso. destruct qs; [congruence|].
  simpl List.length in E. unfold Qeq in E. cbn [Qnum Qden inject_Z] in E. lia.
Qed.

Lemma common_cols_In (ref target : DataFrame) (c : string) :
  In c (common_cols ref target) <-> In c (columns ref) /\ In c (columns target).
Proof.
  unfold common_cols. rewrite nodup_In, filter_In, existsb_exists. split.
  - intros [H [x [Hx E]]]. apply String.eqb_eq in E. subst x. auto.
  - intros [H1 H2]. split; [exact H1|]. exists c. split; [exact H2|apply String.eqb_refl].
Qed.

Lemma common_cols_NoDup (ref target : DataFrame) : NoDup (common_cols ref target).
Proof.
  apply NoDup_nodup.
Qed.

Section DetectDrift.

Variable np_log : Q -> Q.
Variable np_sqrt : Q -> Q.
Variable ks_pvalue : Q -> nat -> nat -> num.
Variable chi2_sf : num -> Z -> num.
Variable threshold : num.

Local Abbreviation detect_drift' := (detect_drift np_log np_sqrt ks_pvalue chi2_sf threshold).
Local Abbreviation column_test' := (column_test np_log np_sqrt ks_pvalue chi2_sf threshold).
Local Abbreviation drift_loop' := (drift_loop np_log np_sqrt ks_pvalue chi2_sf threshold).
Local Abbreviation column_outcome' :=
  (column_outcome np_log np_sqrt ks_pvalue chi2_sf threshold).
Local Abbreviation column_test_raises' :=
  (column_test_raises np_log np_sqrt ks_pvalue chi2_sf threshold).

(** The loop never raises on the common columns of two frames: it
    appends one entry and one score per column. *)
Lemma drift_loop_run (ref target : DataFrame) (cols : list string) :
  NoDup cols ->
  (forall c, In c cols -> In c (columns ref)) ->
  forall st,
    (forall c, In c cols -> ~ In c (dict_keys (loop_column_drift st))) ->
    drift_loop' ref target cols st =
    ({| loop_column_drift :=
          loop_column_drift st ++ map (fun c => (c, fst (column_outcome' ref target c))) cols;
        loop_drift_scores :=
          loop_drift_scores st
          ++ map (fun c => drift_score (fst (column_outcome' ref target c))) cols;
        loop_log :=
          loop_log st ++ concat (map (fun c => snd (column_outcome' ref target c)) cols) |},
     None).
Proof.
  induction 1 as [|a cols Ha Hnd IH]; intros Hin st Hfresh.
  - simpl. rewrite !app_nil_r. now destruct st.
  - cbn [drift_loop].
    destruct (getitem_columns ref a) as [s Hs]; [apply Hin; now left|].
    rewrite Hs.
    assert (Ha' : column_test' ref target a s = column_outcome' ref target a).
    { unfold column_outcome. now rewrite Hs. }
    rewrite Ha'. rewrite IH.
    + cbn [loop_column_drift loop_drift_scores loop_log map concat].
      rewrite dict_set_fresh by (apply Hfresh; now left).
      now rewrite <- !app_assoc.
    + intros c Hc. apply Hin. now right.
    + intros c Hc. cbn [loop_column_drift].
      rewrite dict_set_fresh by (apply Hfresh; now left).
      unfold dict_keys. rewrite map_app, in_app_iff. simpl.
      intros [H|[H|[]]].
      * apply (Hfresh c); [now right|exact H].
      * subst. contradiction.
Qed.

(** The report on two frames, in closed form. *)
Lemma detect_drift_frames (ref target : DataFrame) :
  let cols := common_cols ref target in
  let results := map (fun c => (c, fst (column_outcome' ref target c))) cols in
  let scores := map (fun c => drift_score (fst (column_outcome' ref target c))) cols in
  let overall := match scores with [] => Fin 0 | _ => np_mean scores end in
  detect_drift' (PyFrame ref) (PyFrame target) =
  ({| drift_detected := gtb overall threshold;
      overall_drift_score := overall;
      column_drift := results;
      test_results :=
        Summary (Z.of_nat (List.length cols))
          (Z.of_nat (List.length (filter has_drift (dict_values results)))) threshold |},
   concat (map (fun c => snd (column_outcome' ref target c)) cols)).
Proof.
  cbv zeta. unfold detect_drift.
  rewrite drift_loop_run.
  - reflexivity.
  - apply common_cols_NoDup.
  - intros c Hc. now apply common_cols_In in Hc.
  - intros c _ [].
Qed.

Lemma recorded_scores (ref target : DataFrame) (cols : list string) :
  map drift_score
    (dict_values (map (fun c => (c, fst (column_outcome' ref target c))) cols)) =
  map (fun c => drift_score (fst (column_outcome' ref target c))) cols.
Proof.
  unfold dict_values. rewrite !map_map. reflexivity.
Qed.

Lemma common_column_recorded (ref target : DataFrame) (c : string) :
  In c (common_cols ref target) ->
  dict_get (column_drift (fst (detect_drift' (PyFrame ref) (PyFrame target)))) c =
  Some (fst (column_outcome' ref target c)).
Proof.
  intros Hc. rewrite detect_drift_frames. cbn [fst column_drift].
  rewrite (dict_get_map (fun c => fst (column_outcome' ref target c))).
  destruct (in_dec string_dec c (common_cols ref target)); [reflexivity|contradiction].
Qed.

(** C1.  For every pair of datasets, the overall drift score of the
    report is the mean of the drift scores recorded in column_drift
    ([np_mean]: their sum divided by their number, which is the
    arithmetic mean when the scores are numbers), it is 0.0 when the
    datasets have no common column, and drift_detected is the
    comparison overall_drift_score > threshold. *)
Theorem overall_drift_score_is_mean (ref target : DataFrame) :
  let report := fst (detect_drift' (PyFrame ref) (PyFrame target)) in
  let scores := map drift_score (dict_values (column_drift report)) in
  (common_cols ref target <> [] -> overall_drift_score report = np_mean scores) /\
  (forall qs, scores = map Fin qs -> qs <> [] ->
     overall_drift_score report =
     Fin (Qsum qs / inject_Z (Z.of_nat (List.length qs)))) /\
  (common_cols ref target = [] -> overall_drift_score report = Fin 0) /\
  drift_detected report = gtb (overall_drift_score report) threshold.
Proof.
  cbv zeta. rewrite detect_drift_frames.
  cbn [fst column_drift overall_drift_score drift_detected].
  rewrite recorded_scores. split; [|split; [|split]].
  - intros Hne. destruct (common_cols ref target); [congruence|reflexivity].
  - intros qs -> Hne. rewrite np_mean_finite by exact Hne.
    destruct qs; [congruence|reflexivity].
  - intros ->. reflexivity.
  - reflexivity.
Qed.

(** C10.  On two datasets detect_drift takes no top-level failure, and
    column_drift has exactly one entry per common column (its keys are
    the names present in both datasets, each once); the score of every
    entry, the 0.0 of a failed test included, enters the overall mean;
    total_columns_tested is the number of common columns and
    columns_with_drift, the number of entries flagged, does not exceed
    it. *)
Theorem column_drift_has_one_entry_per_common_column (ref target : DataFrame) :
  let report := fst (detect_drift' (PyFrame ref) (PyFrame target)) in
  let keys := dict_keys (column_drift report) in
  let scores := map drift_score (dict_values (column_drift report)) in
  NoDup keys /\
  (forall c, In c keys <-> In c (columns ref) /\ In c (columns target)) /\
  keys = common_cols ref target /\
  overall_drift_score report =
    match scores with [] => Fin 0 | _ => np_mean scores end /\
  List.length scores = List.length (common_cols ref target) /\
  exists flagged,
    test_results report =
      Summary (Z.of_nat (List.length (common_cols ref target))) flagged threshold /\
    flagged = Z.of_nat (List.length (filter has_drift (dict_values (column_drift report)))) /\
    (0 <= flagged <= Z.of_nat (List.length (common_cols ref target)))%Z.
Proof.
  cbv zeta. rewrite detect_drift_frames.
  cbn [fst column_drift overall_drift_score test_results].
  rewrite recorded_scores.
  assert (Hkeys : dict_keys (map (fun c => (c, fst (column_outcome' ref target c)))
                               (common_cols ref target)) = common_cols ref target).
  { unfold dict_keys. rewrite map_map. simpl. apply map_id. }
  rewrite Hkeys. split; [apply common_cols_NoDup|]. split; [apply common_cols_In|].
  split; [reflexivity|]. split; [reflexivity|]. split; [apply length_map|].
  eexists. split; [reflexivity|]. split; [reflexivity|].
  split; [lia|]. apply inj_le.
  etransitivity; [apply filter_length_le|].
  unfold dict_values. now rewrite !length_map.
Qed.

(** C4.  When the test of a common column fails (the body of its try
    block raises [e]), detect_drift records for that column a result
    with has_drift = false, drift_score = 0.0 and the error note [e];
    every common column still has its entry, and the report carries
    the summary of a run that was not aborted. *)
Theorem failed_column_is_recorded (ref target : DataFrame) (column e : string) :
  In column (common_cols ref target) ->
  column_test_raises' ref target column e ->
  let report := fst (detect_drift' (PyFrame ref) (PyFrame target)) in
  (exists r, dict_get (column_drift report) column = Some r /\
             has_drift r = false /\ drift_score r = Fin 0 /\ error_note r = Some e) /\
  (forall c, In c (common_cols ref target) ->
             exists r, dict_get (column_drift report) c = Some r) /\
  (exists flagged,
     test_results report =
       Summary (Z.of_nat (List.length (common_cols ref target))) flagged threshold).
Proof.
  intros Hc [s [Hs Hraise]]. cbv zeta. split; [|split].
  - eexists. split; [apply common_column_recorded; exact Hc|].
    unfold column_outcome. rewrite Hs. unfold column_test.
    destruct (is_numeric_dtype s).
    + unfold _ks_test.
      destruct (ks_test_body np_log np_sqrt ks_pvalue threshold ref target column) as [o log].
      cbn [fst] in Hraise. rewrite Hraise. simpl. auto.
    + unfold _chi_square_test. rewrite Hraise. simpl. auto.
  - intros c Hin. eexists. apply common_column_recorded. exact Hin.
  - rewrite detect_drift_frames. cbn [fst test_results]. eauto.
Qed.

End DetectDrift.

(** The column "amount" holds numbers in the reference sample and text
    in the target sample: its test fails, and the column "city" is
    still tested and recorded. *)
Lemma failed_column_is_recorded_witness :
  In "amount" (common_cols reference_amounts target_amounts) /\
  exists e,
    column_test_raises sample_log sample_sqrt sample_ks_pvalue sample_chi2_sf default_threshold
      reference_amounts target_amounts "amount" e /\
    (exists r,
        dict_get
          (column_drift
             (fst (detect_drift sample_log sample_sqrt sample_ks_pvalue sample_chi2_sf
                     default_threshold (PyFrame reference_amounts) (PyFrame target_amounts))))
          "amount" = Some r /\
        has_drift r = false /\ drift_score r = Fin 0 /\ error_note r = Some e) /\
    (exists r,
        dict_get
          (column_drift
             (fst (detect_drift sample_log sample_sqrt sample_ks_pvalue sample_chi2_sf
                     default_threshold (PyFrame reference_amounts) (PyFrame target_amounts))))
          "city" = Some r /\
        error_note r = None).
Proof.
  assert (H1 : In "amount" (common_cols reference_amounts target_amounts)).
  { vm_compute. tauto. }
  assert (H2 : exists e,
             column_test_raises sample_log sample_sqrt sample_ks_pvalue sample_chi2_sf
               default_threshold reference_amounts target_amounts "amount" e).
  { eexists. eexists. split; reflexivity. }
  split; [exact H1|]. destruct H2 as [e H2]. exists e. split; [exact H2|].
  destruct (failed_column_is_recorded sample_log sample_sqrt sample_ks_pvalue sample_chi2_sf
              default_threshold reference_amounts target_amounts _ _ H1 H2) as [H _].
  split; [exact H|]. eexists. split; reflexivity.
Defined.

(* ================================================================= *)
(** * Tables of counts and their outer join *)

#[local] Instance same_key_equivalence : Equivalence same_key.
Proof.
  split.
  - intros a. apply cell_eqb_refl.
  - intros a b H. unfold same_key in *. now rewrite cell_eqb_sym.
  - intros a b c. apply cell_eqb_trans.
Qed.

Lemma InA_same_key_fst (x y : cell * Z) (t : list (cell * Z)) :
  fst x = fst y -> InA same_key x t -> InA same_key y t.
Proof.
  intros E. rewrite !InA_alt. unfold same_key. now rewrite E.
Qed.

Lemma tally_InA (c : cell) (t : list (cell * Z)) (x : cell * Z) :
  InA same_key x (tally c t) <-> cell_eqb (fst x) c = true \/ InA same_key x t.
Proof.
  induction t as [|[k n] t IH]; simpl.
  - rewrite InA_cons, InA_nil. unfold same_key. simpl. tauto.
  - destruct (cell_eqb k c) eqn:E.
    + rewrite !InA_cons. unfold same_key at 1 3. simpl. split; [tauto|].
      intros [H|H]; [|exact H]. left. rewrite cell_eqb_sym in E.
      eapply cell_eqb_trans; eauto.
    + rewrite !InA_cons, IH. tauto.
Qed.

Lemma tally_counts_table (c : cell) (t : list (cell * Z)) :
  counts_table t -> counts_table (tally c t).
Proof.
  intros [Hnd Hpos]. induction t as [|[k n] t IH]; simpl.
  - split.
    + constructor; [|constructor]. intros H; inversion H.
    + constructor; [simpl; lia|constructor].
  - inversion Hnd as [|? ? Hk Hnd']; inversion Hpos as [|? ? Hn Hpos']; subst.
    simpl in Hn. destruct (cell_eqb k c) eqn:E.
    + split; constructor; auto.
      * intros H. apply Hk. revert H. now apply InA_same_key_fst.
      * simpl. lia.
    + destruct (IH Hnd' Hpos') as [IH1 IH2].
      split; constructor; auto.
      rewrite tally_InA. simpl. intros [H|H]; [congruence|contradiction].
Qed.

Lemma tally_all_counts_table (cs : list cell) (t : list (cell * Z)) :
  counts_table t -> counts_table (fold_left (fun t c => tally c t) cs t).
Proof.
  revert t; induction cs as [|c cs IH]; intros t Ht; simpl; auto using tally_counts_table.
Qed.

Lemma insert_by_count_InA (e x : cell * Z) (t : list (cell * Z)) :
  InA same_key x (insert_by_count e t) <-> same_key x e \/ InA same_key x t.
Proof.
  induction t as [|e' t IH]; simpl.
  - rewrite InA_cons. tauto.
  - destruct (snd e' <=? snd e)%Z.
    + rewrite !InA_cons. tauto.
    + rewrite !InA_cons, IH. tauto.
Qed.

Lemma insert_by_count_counts_table (e : cell * Z) (t : list (cell * Z)) :
  (1 <= snd e)%Z -> ~ InA same_key e t -> counts_table t ->
  counts_table (insert_by_count e t).
Proof.
  intros He Hfresh [Hnd Hpos]. induction t as [|e' t IH]; simpl.
  - split; [constructor; [|constructor]|constructor; [exact He|constructor]].
    intros H; inversion H.
  - destruct (snd e' <=? snd e)%Z.
    + split; constructor; auto.
    + inversion Hnd as [|? ? Hk Hnd']; inversion Hpos as [|? ? Hn Hpos']; subst.
      destruct IH as [IH1 IH2]; auto.
      split; constructor; auto.
      rewrite insert_by_count_InA. intros [H|H]; [|contradiction].
      apply Hfresh. left. now symmetry.
Qed.

Lemma sort_by_count_InA (x : cell * Z) (t : list (cell * Z)) :
  InA same_key x (fold_right insert_by_count [] t) <-> InA same_key x t.
Proof.
  induction t as [|e t IH]; simpl; [tauto|].
  now rewrite insert_by_count_InA, InA_cons, IH.
Qed.

Lemma sort_by_count_counts_table (t : list (cell * Z)) :
  counts_table t -> counts_table (fold_right insert_by_count [] t).
Proof.
  intros [Hnd Hpos]. induction t as [|e t IH]; simpl.
  - split; constructor.
  - inversion Hnd; inversion Hpos; subst.
    apply insert_by_count_counts_table; auto.
    now rewrite sort_by_count_InA.
Qed.

Lemma value_counts_table (s : Series) : counts_table (value_counts s).
Proof.
  unfold value_counts. apply sort_by_count_counts_table, tally_all_counts_table.
  split; constructor.
Qed.

Lemma count_of_In (t : list (cell * Z)) (e : cell * Z) :
  NoDupA same_key t -> In e t -> count_of (fst e) t = Some (snd e).
Proof.
  induction 1 as [|[k n] t Hk Hnd IH]; simpl; [tauto|].
  intros [H|H].
  - subst e. simpl. now rewrite cell_eqb_refl.
  - destruct (cell_eqb k (fst e)) eqn:E; [|auto].
    exfalso. apply Hk. apply InA_alt. exists e. split; [exact E|exact H].
Qed.

(** The table of counts of a column joined with itself: both counts of
    every row are the count of the table. *)
Lemma merge_outer_self (on dtype : string) (t : list (cell * Z)) :
  NoDupA same_key t ->
  merge_outer on dtype dtype t t =
  Returned (map (fun e => {| key := fst e; count_ref := inject_Z (snd e);
                             count_target := inject_Z (snd e) |}) t).
Proof.
  intros Hnd. unfold merge_outer. rewrite Bool.eqb_reflx. cbn [negb andb].
  f_equal. rewrite <- app_nil_r. f_equal.
  - apply map_ext_in. intros e He. now rewrite (count_of_In t e Hnd He).
  - apply flat_map_all_nil. intros e He. now rewrite (count_of_In t e Hnd He).
Qed.

Lemma positive_count (n : Z) : (1 <= n)%Z -> 0 < inject_Z n.
Proof.
  intros H. change 0 with (inject_Z 0). rewrite <- Zlt_Qlt. lia.
Qed.

Lemma merge_outer_rows (on a b : string) (left right : list (cell * Z))
  (merged : list merged_row) :
  counts_table left -> counts_table right ->
  merge_outer on a b left right = Returned merged ->
  Forall joined_row merged.
Proof.
  intros [_ Hl] [_ Hr]. unfold merge_outer. destruct (_ && _); [discriminate|].
  intros E. inversion E; subst merged. clear E.
  apply Forall_app. split.
  - apply Forall_forall. intros row Hrow. apply in_map_iff in Hrow.
    destruct Hrow as [e [<- He]]. left. cbn [count_ref].
    rewrite Forall_forall in Hl. apply positive_count, Hl, He.
  - apply Forall_forall. intros row Hrow. apply in_flat_map in Hrow.
    destruct Hrow as [e [He Hrow]].
    destruct (count_of (fst e) left); [destruct Hrow|].
    destruct Hrow as [<-|[]]. right. cbn [count_ref count_target]. split; [reflexivity|].
    rewrite Forall_forall in Hr. apply positive_count, Hr, He.
Qed.

(* ================================================================= *)
(** * Sums of floats *)

Lemma Qsum_from (l : list Q) (a : Q) : fold_left Qplus l a == a + Qsum l.
Proof.
  unfold Qsum. revert a. induction l as [|x l IH]; intros a; simpl.
  - ring.
  - rewrite IH, (IH (0 + x)). ring.
Qed.

Lemma Qsum_cons (x : Q) (l : list Q) : Qsum (x :: l) == x + Qsum l.
Proof.
  unfold Qsum at 1. simpl. rewrite Qsum_from. ring.
Qed.

Lemma Qsum_nonneg (l : list Q) : Forall (fun x => 0 <= x) l -> 0 <= Qsum l.
Proof.
  induction 1 as [|x l Hx Hl IH].
  - unfold Qsum. simpl. lra.
  - rewrite Qsum_cons. lra.
Qed.

Lemma np_sum_zero (l : list num) : Forall is_zero l -> is_zero (np_sum l).
Proof.
  unfold np_sum. assert (H0 : is_zero (Fin 0)) by (simpl; reflexivity).
  revert H0. generalize (Fin 0).
  induction l as [|x l IH]; intros acc Hacc Hl; simpl; [exact Hacc|].
  inversion Hl as [|? ? Hx Hl']; subst. apply IH; [|exact Hl'].
  unfold is_zero in *. destruct acc, x; simpl in *; try contradiction. lra.
Qed.

Lemma np_mean_zero (l : list num) : l <> [] -> Forall is_zero l -> is_zero (np_mean l).
Proof.
  intros Hne Hl. unfold np_mean. pose proof (np_sum_zero l Hl) as Hs.
  unfold is_zero in *. destruct (np_sum l) as [q| | |]; simpl in Hs; try contradiction.
  unfold of_nat, div.
  assert (Hn : ~ inject_Z (Z.of_nat (List.length l)) == 0).
  { destruct l; [congruence|]. simpl List.length.
    unfold Qeq. cbn [Qnum Qden inject_Z]. lia. }
  destruct (Qeq_bool (inject_Z (Z.of_nat (List.length l))) 0) eqn:E.
  - apply Qeq_bool_eq in E. contradiction.
  - simpl. rewrite Hs. field. exact Hn.
Qed.

Lemma np_sum_number_or_pinf (l : list num) :
  Forall number_or_pinf l -> number_or_pinf (np_sum l).
Proof.
  unfold np_sum. assert (H0 : number_or_pinf (Fin 0)) by exact I.
  revert H0. generalize (Fin 0).
  induction l as [|x l IH]; intros acc Hacc Hl; simpl; [exact Hacc|].
  inversion Hl as [|? ? Hx Hl']; subst. apply IH; [|exact Hl'].
  destruct acc, x; simpl in *; tauto.
Qed.

(** The statistic over the rows of an outer join is never nan: a row
    with a reference count of 0 has a positive target count, and
    contributes +inf. *)
Lemma chisquare_statistic_number_or_pinf (merged : list merged_row) :
  Forall joined_row merged ->
  number_or_pinf (chisquare_statistic (map count_target merged) (map count_ref merged)).
Proof.
  intros H. apply np_sum_number_or_pinf. unfold chisquare_terms.
  induction H as [|row merged Hrow Hm IH]; simpl; constructor; auto.
  destruct Hrow as [Hpos|[Hz Hpos]].
  - destruct (Qeq_bool (count_ref row) 0) eqn:E; [|exact I].
    apply Qeq_bool_eq in E. lra.
  - rewrite Hz. change (Qeq_bool 0 0) with true. cbn iota.
    unfold signed_inf.
    destruct (Qcompare_spec ((count_target row - 0) * (count_target row - 0)) 0) as [E|E|E].
    + exfalso. nra.
    + exfalso. nra.
    + exact I.
Qed.

(* ================================================================= *)
(** * A dataset compared with itself *)

Lemma Qmax_list_between (lo hi x : Q) (l : list Q) :
  lo <= x <= hi -> Forall (fun y => lo <= y <= hi) l -> lo <= Qmax_list x l <= hi.
Proof.
  unfold Qmax_list. revert x. induction l as [|y l IH]; intros x Hx Hl; simpl; [exact Hx|].
  inversion Hl as [|? ? Hy Hl']; subst. apply IH; [|exact Hl'].
  split.
  - apply Qle_trans with x; [tauto|apply Q.le_max_l].
  - apply Q.max_lub; tauto.
Qed.

Lemma Qmin_list_between (lo hi x : Q) (l : list Q) :
  lo <= x <= hi -> Forall (fun y => lo <= y <= hi) l -> lo <= Qmin_list x l <= hi.
Proof.
  unfold Qmin_list. revert x. induction l as [|y l IH]; intros x Hx Hl; simpl; [exact Hx|].
  inversion Hl as [|? ? Hy Hl']; subst. apply IH; [|exact Hl'].
  split.
  - apply Q.min_glb; tauto.
  - apply Qle_trans with x; [apply Q.le_min_l|tauto].
Qed.

(** The two empirical distribution functions of one sample coincide. *)
Lemma ks_statistic_self (x : list Q) : ks_statistic x x == 0.
Proof.
  unfold ks_statistic.
  set (cddiffs := map (fun v => cdf x v - cdf x v) (x ++ x)).
  assert (H : Forall (fun y => 0 <= y <= 0) cddiffs).
  { apply Forall_forall. intros y Hy. apply in_map_iff in Hy.
    destruct Hy as [v [<- _]]. lra. }
  destruct cddiffs as [|d ds]; [reflexivity|].
  inversion H as [|? ? Hd Hds]; subst.
  pose proof (Qmax_list_between 0 0 d ds Hd Hds) as Hmax.
  pose proof (Qmin_list_between 0 0 d ds Hd Hds) as Hmin.
  unfold clip01.
  assert (Hc : 0 <= Qmin (Qmax (- Qmin_list d ds) 0) 1 <= 0).
  { split.
    - apply Q.min_glb; [apply Q.le_max_r|lra].
    - eapply Qle_trans; [apply Q.le_min_l|]. apply Q.max_lub; lra. }
  apply Qle_antisym.
  - apply Q.max_lub; tauto.
  - eapply Qle_trans; [|apply Q.le_max_l]. tauto.
Qed.

Lemma chisquare_terms_self (l : list Q) :
  Forall (fun e => 1 <= e) l -> Forall is_zero (chisquare_terms l l).
Proof.
  unfold chisquare_terms. induction 1 as [|e l He Hl IH]; simpl; constructor; auto.
  destruct (Qeq_bool e 0) eqn:E.
  - apply Qeq_bool_eq in E. lra.
  - simpl. field. intros H. lra.
Qed.

(** Sums and means that meet a nan. *)
Lemma np_sum_nan (l : list num) : In NaN l -> np_sum l = NaN.
Proof.
  unfold np_sum. generalize (Fin 0).
  assert (Hnan : forall l', fold_left add l' NaN = NaN).
  { induction l' as [|y l' IH]; simpl; [reflexivity|exact IH]. }
  induction l as [|x l IH]; intros acc Hin; simpl; [contradiction|].
  destruct Hin as [->|Hin].
  - replace (add acc NaN) with NaN by (destruct acc; reflexivity). apply Hnan.
  - now apply IH.
Qed.

Lemma np_mean_nan (l : list num) : In NaN l -> np_mean l = NaN.
Proof.
  intros H. unfold np_mean. now rewrite np_sum_nan.
Qed.

Lemma np_mean_zero_or_nan (l : list num) :
  l <> [] -> Forall zero_or_nan l -> zero_or_nan (np_mean l).
Proof.
  intros Hne Hl.
  assert (H : Forall is_zero l \/ In NaN l).
  { clear Hne. induction Hl as [|x l Hx Hl IH]; [left; constructor|].
    destruct Hx as [Hx| ->]; [|right; now left].
    destruct IH as [IH|IH]; [left; now constructor|right; now right]. }
  destruct H as [H|H].
  - left. now apply np_mean_zero.
  - right. now apply np_mean_nan.
Qed.

(** ** The Kolmogorov-Smirnov test of two numeric columns *)

Lemma ks_2samp_numeric_columns (ks_pvalue : Q -> nat -> nat -> num)
  (dt dt' : numeric_dtype) (vs vs' : list (option Q)) :
  ks_2samp ks_pvalue (dropna (Numeric dt vs)) (dropna (Numeric dt' vs')) =
  Returned
    match numbers vs, numbers vs' with
    | [], _ | _, [] => (NaN, NaN)
    | _, _ =>
        (Fin (ks_statistic (numbers vs) (numbers vs')),
         ks_pvalue (ks_statistic (numbers vs) (numbers vs'))
           (List.length (numbers vs)) (List.length (numbers vs')))
    end.
Proof.
  unfold ks_2samp. rewrite !dropna_numeric_length.
  cbn [dropna to_floats bind]. rewrite !numbers_dropna.
  destruct (numbers vs), (numbers vs'); reflexivity.
Qed.

(** The test of a column that is numeric in both frames completes: on
    an empty sample with nan for statistic and p-value. *)
Lemma ks_test_numeric_score (np_log np_sqrt : Q -> Q) (ks_pvalue : Q -> nat -> nat -> num)
  (threshold : num) (ref target : DataFrame) (c : string)
  (dt dt' : numeric_dtype) (vs vs' : list (option Q)) :
  getitem ref c = Returned (Numeric dt vs) ->
  getitem target c = Returned (Numeric dt' vs') ->
  let r := fst (_ks_test np_log np_sqrt ks_pvalue threshold ref target c) in
  let ks :=
    match numbers vs, numbers vs' with
    | [], _ | _, [] => (NaN, NaN)
    | _, _ =>
        (Fin (ks_statistic (numbers vs) (numbers vs')),
         ks_pvalue (ks_statistic (numbers vs) (numbers vs'))
           (List.length (numbers vs)) (List.length (numbers vs')))
    end in
  test_type r = "KS Test"%string /\ error_note r = None /\
  drift_score r = fst ks /\ p_value r = Some (snd ks) /\
  has_drift r = ltb (snd ks) threshold.
Proof.
  intros Hr Ht. cbv zeta. unfold _ks_test, ks_test_body. rewrite Hr, Ht.
  rewrite ks_2samp_numeric_columns. cbn [dropna to_floats bind fst snd].
  repeat split.
Qed.

Section SelfComparison.

Variable np_log : Q -> Q.
Variable np_sqrt : Q -> Q.
Variable ks_pvalue : Q -> nat -> nat -> num.
Variable chi2_sf : num -> Z -> num.
Variable threshold : num.

Local Abbreviation detect_drift' := (detect_drift np_log np_sqrt ks_pvalue chi2_sf threshold).
Local Abbreviation column_outcome' :=
  (column_outcome np_log np_sqrt ks_pvalue chi2_sf threshold).

Lemma chisquare_self (l : list Q) :
  Forall (fun e => 1 <= e) l ->
  exists stat p, chisquare chi2_sf l l = Returned (stat, p) /\ is_zero stat.
Proof.
  intros Hl. unfold chisquare.
  assert (Hs : 0 <= Qsum l).
  { apply Qsum_nonneg. eapply Forall_impl; [|exact Hl]. simpl. intros; lra. }
  assert (Hcheck : Qlt_bool ((1 # 100000000) * Qmin (Qsum l) (Qsum l))
                     (Qabs (Qsum l - Qsum l)) = false).
  { unfold Qlt_bool. apply negb_false_iff, Qle_bool_iff.
    apply Qle_trans with 0.
    - apply Qabs_Qle_condition. lra.
    - rewrite Q.min_id. lra. }
  rewrite Hcheck. do 2 eexists. split; [reflexivity|].
  apply np_sum_zero, chisquare_terms_self, Hl.
Qed.

(** A numeric column against itself: the statistic is 0 when the
    column has a value, and nan when it has none; no error is noted. *)
Lemma ks_test_self (D : DataFrame) (c : string) (dt : numeric_dtype) (vs : list (option Q)) :
  getitem D c = Returned (Numeric dt vs) ->
  let r := fst (_ks_test np_log np_sqrt ks_pvalue threshold D D c) in
  error_note r = None /\
  match numbers vs with
  | [] => drift_score r = NaN
  | _ => is_zero (drift_score r)
  end.
Proof.
  intros Hc. cbv zeta.
  destruct (ks_test_numeric_score np_log np_sqrt ks_pvalue threshold D D c dt dt vs vs Hc Hc)
    as (_ & Herr & Hs & _).
  split; [exact Herr|]. rewrite Hs.
  destruct (numbers vs) as [|x l]; [reflexivity|].
  cbn [fst]. apply ks_statistic_self.
Qed.

Lemma chi_square_test_self (D : DataFrame) (c : string) :
  is_zero (drift_score (fst (_chi_square_test chi2_sf threshold D D c))).
Proof.
  unfold _chi_square_test, chi_square_test_body.
  destruct (getitem D c) as [s|e]; [|simpl; reflexivity].
  cbn [bind]. destruct (value_counts_table s) as [Hnd Hpos].
  rewrite merge_outer_self by exact Hnd. cbn [bind].
  rewrite !map_map. cbn [count_target count_ref].
  destruct (chisquare_self (map (fun e => inject_Z (snd e)) (value_counts s)))
    as (stat & p & Hchi & Hz).
  { apply Forall_forall. intros q Hq. apply in_map_iff in Hq.
    destruct Hq as [e [<- He]]. rewrite Forall_forall in Hpos.
    specialize (Hpos e He). change 1 with (inject_Z 1). now rewrite <- Zle_Qle. }
  rewrite Hchi. cbn [bind fst snd drift_score]. exact Hz.
Qed.

(** What the loop records for a column of a dataset compared with
    itself. *)
Lemma column_outcome_self (D : DataFrame) (c : string) :
  let r := fst (column_outcome' D D c) in
  match getitem D c with
  | Returned (Numeric _ vs) =>
      match numbers vs with
      | [] => drift_score r = NaN /\ error_note r = None
      | _ => is_zero (drift_score r)
      end
  | _ => is_zero (drift_score r)
  end.
Proof.
  cbv zeta. unfold column_outcome.
  destruct (getitem D c) as [[dt vs|ws]|e] eqn:Hc; [| |simpl; reflexivity].
  - unfold column_test. cbn [is_numeric_dtype].
    destruct (ks_test_self D c dt vs Hc) as [Herr Hs].
    destruct (numbers vs); [split; assumption|exact Hs].
  - unfold column_test. cbn [is_numeric_dtype]. apply chi_square_test_self.
Qed.

Lemma column_outcome_self_zero_or_nan (D : DataFrame) (c : string) :
  zero_or_nan (drift_score (fst (column_outcome' D D c))).
Proof.
  pose proof (column_outcome_self D c) as H. cbv zeta in H.
  destruct (getitem D c) as [[dt vs|ws]|e]; try (left; exact H).
  destruct (numbers vs); [right; tauto|left; exact H].
Qed.

(** C6, amended.  For every dataset D and every threshold >= 0,
    detect_drift(D, D) detects no drift, and the drift score of every
    column is 0 or nan.  When every numeric column of D has at least
    one non-missing value, every column score is 0 and the overall
    score is 0.  A numeric column of D without any non-missing value is
    tested without failure and gets the score nan, and the overall
    score is then nan. *)
Theorem self_comparison_detects_no_drift (D : DataFrame) :
  leb (Fin 0) threshold = true ->
  let report := fst (detect_drift' (PyFrame D) (PyFrame D)) in
  drift_detected report = false /\
  Forall (fun r => zero_or_nan (drift_score r)) (dict_values (column_drift report)) /\
  ((forall c dt vs, getitem D c = Returned (Numeric dt vs) -> numbers vs <> []) ->
   num_eq (overall_drift_score report) (Fin 0) /\
   Forall (fun r => num_eq (drift_score r) (Fin 0)) (dict_values (column_drift report))) /\
  (forall c dt vs,
      getitem D c = Returned (Numeric dt vs) -> numbers vs = [] ->
      overall_drift_score report = NaN /\
      exists r, dict_get (column_drift report) c = Some r /\
                drift_score r = NaN /\ error_note r = None).
Proof.
  intros Hthr. cbv zeta.
  pose proof (common_column_recorded np_log np_sqrt ks_pvalue chi2_sf threshold D D) as Hrec.
  rewrite detect_drift_frames in *.
  cbn [fst overall_drift_score drift_detected column_drift] in *.
  set (scores := map (fun c => drift_score (fst (column_outcome' D D c))) (common_cols D D)).
  assert (Hvalues : forall P : column_result -> Prop,
             (forall c, In c (common_cols D D) -> P (fst (column_outcome' D D c))) ->
             Forall P (dict_values (map (fun c => (c, fst (column_outcome' D D c)))
                                        (common_cols D D)))).
  { intros P HP. unfold dict_values. rewrite map_map. cbn [snd].
    apply Forall_forall. intros r Hr. apply in_map_iff in Hr.
    destruct Hr as [c [<- Hc]]. now apply HP. }
  assert (Hscores : Forall zero_or_nan scores).
  { apply Forall_forall. intros x Hx. apply in_map_iff in Hx.
    destruct Hx as [c [<- _]]. apply column_outcome_self_zero_or_nan. }
  assert (Hoverall : zero_or_nan match scores with [] => Fin 0 | _ => np_mean scores end).
  { destruct scores as [|x l] eqn:E; [left; simpl; reflexivity|].
    apply np_mean_zero_or_nan; [congruence|exact Hscores]. }
  split; [|split; [|split]].
  - destruct Hoverall as [Hz|Hn].
    + unfold is_zero in Hz.
      destruct (match scores with [] => Fin 0 | _ => np_mean scores end) as [q| | |];
        simpl in Hz; try contradiction.
      unfold gtb. destruct threshold as [t| | |]; simpl in *; try congruence.
      unfold Qlt_bool. apply negb_false_iff, Qle_bool_iff.
      apply Qle_bool_iff in Hthr. lra.
    + rewrite Hn. unfold gtb. destruct threshold; reflexivity.
  - apply Hvalues. intros c _. apply column_outcome_self_zero_or_nan.
  - intros Hvals.
    assert (Hzero : forall c, In c (common_cols D D) ->
                              is_zero (drift_score (fst (column_outcome' D D c)))).
    { intros c Hc. pose proof (column_outcome_self D c) as H. cbv zeta in H.
      destruct (getitem D c) as [[dt vs|ws]|e] eqn:Hg; try exact H.
      specialize (Hvals c dt vs Hg). destruct (numbers vs); [congruence|exact H]. }
    split.
    + destruct scores as [|x l] eqn:E; [simpl; reflexivity|].
      apply np_mean_zero; [congruence|]. rewrite <- E.
      apply Forall_forall. intros y Hy. apply in_map_iff in Hy.
      destruct Hy as [c [<- Hc]]. now apply Hzero.
    + apply Hvalues. exact Hzero.
  - intros c dt vs Hg He.
    assert (Hc : In c (common_cols D D)).
    { apply common_cols_In. split; eapply getitem_Returned_columns; eassumption. }
    pose proof (column_outcome_self D c) as H. cbv zeta in H. rewrite Hg, He in H.
    destruct H as [Hs Herr].
    assert (Hin : In NaN scores).
    { rewrite <- Hs. unfold scores.
      exact (in_map (fun c => drift_score (fst (column_outcome' D D c))) _ _ Hc). }
    split.
    + destruct scores as [|x l] eqn:E; [contradiction|]. now apply np_mean_nan.
    + eexists. split; [apply Hrec; exact Hc|]. split; assumption.
Qed.

End SelfComparison.

(** The sample without an empty column against itself, at the default
    threshold: every numeric column has a value, and the overall score
    is 0. *)
Lemma self_comparison_detects_no_drift_witness :
  leb (Fin 0) default_threshold = true /\
  let report := fst (detect_drift sample_log sample_sqrt sample_ks_pvalue sample_chi2_sf
                       default_threshold (PyFrame reference_complete)
                       (PyFrame reference_complete)) in
  drift_detected report = false /\ num_eq (overall_drift_score report) (Fin 0).
Proof.
  split; [reflexivity|]. cbv zeta.
  destruct (self_comparison_detects_no_drift sample_log sample_sqrt sample_ks_pvalue
              sample_chi2_sf default_threshold reference_complete eq_refl)
    as (Hd & _ & Hz & _).
  split; [exact Hd|]. apply Hz.
  intros c dt vs Hg. unfold reference_complete in Hg. cbn [getitem] in Hg.
  destruct (String.eqb "x" c); [inversion Hg; subst; vm_compute; discriminate|].
  destruct (String.eqb "cat" c); [discriminate|].
  destruct (String.eqb "constant" c); discriminate.
Defined.

(** C6 as stated fails on the reference sample, whose column "empty"
    has no value: compared with itself at the default threshold, the
    test of that column completes with the score nan, and the overall
    score is nan, which is not 0. *)
Lemma self_comparison_of_an_empty_column_is_nan :
  let report := fst (detect_drift sample_log sample_sqrt sample_ks_pvalue sample_chi2_sf
                       default_threshold (PyFrame reference_sample)
                       (PyFrame reference_sample)) in
  leb (Fin 0) default_threshold = true /\
  test_results report = Summary 4 0 default_threshold /\
  (exists r, dict_get (column_drift report) "empty" = Some r /\
             error_note r = None /\ drift_score r = NaN) /\
  overall_drift_score report = NaN /\
  drift_detected report = false /\
  ~ num_eq (overall_drift_score report) (Fin 0).
Proof.
  cbv zeta. split; [reflexivity|]. split; [vm_compute; reflexivity|].
  split; [eexists; split; [vm_compute; reflexivity|split; reflexivity]|].
  split; [vm_compute; reflexivity|]. split; [vm_compute; reflexivity|].
  vm_compute. tauto.
Qed.

(* ================================================================= *)
(** * The population stability index *)

Lemma searchsorted_left_NInf (data : list Q) : searchsorted_left data NInf = 0%Z.
Proof.
  unfold searchsorted_left. induction data as [|x data IH]; simpl; auto.
Qed.

Lemma searchsorted_right_PInf (data : list Q) :
  searchsorted_right data PInf = Z.of_nat (List.length data).
Proof.
  unfold searchsorted_right. f_equal. induction data as [|x data IH]; simpl; auto.
Qed.

Lemma searchsorted_left_first (data : list Q) (e : Q) :
  (searchsorted_left data (Fin e) - 0)%Z =
  Z.of_nat (List.length (filter (fun x => true && Qlt_bool x e) data)).
Proof.
  unfold searchsorted_left. rewrite Z.sub_0_r. reflexivity.
Qed.

Lemma searchsorted_left_between (data : list Q) (e e' : Q) :
  e <= e' ->
  (searchsorted_left data (Fin e') - searchsorted_left data (Fin e))%Z =
  Z.of_nat (List.length (filter (fun x => Qle_bool e x && Qlt_bool x e') data)).
Proof.
  intros Hle. unfold searchsorted_left. cbn [ltb].
  induction data as [|x data IH]; [reflexivity|]. cbn [filter].
  destruct (Qlt_bool x e) eqn:E1; destruct (Qlt_bool x e') eqn:E2;
    destruct (Qle_bool e x) eqn:E3; cbn [andb List.length]; try lia.
  - apply Qlt_bool_iff in E1. apply Qle_bool_iff in E3. lra.
  - apply Qlt_bool_iff in E1.
    assert (x < e') by lra. apply Qlt_bool_iff in H. congruence.
  - apply Qlt_bool_iff in E1.
    assert (x < e') by lra. apply Qlt_bool_iff in H. congruence.
  - assert (e <= x).
    { destruct (Qlt_le_dec x e) as [H|H]; [|exact H].
      apply Qlt_bool_iff in H. congruence. }
    apply Qle_bool_iff in H. congruence.
Qed.

Lemma searchsorted_left_last (data : list Q) (e : Q) :
  (Z.of_nat (List.length data) - searchsorted_left data (Fin e))%Z =
  Z.of_nat (List.length (filter (fun x => Qle_bool e x && true) data)).
Proof.
  unfold searchsorted_left. cbn [ltb].
  induction data as [|x data IH]; [reflexivity|]. cbn [filter List.length].
  destruct (Qlt_bool x e) eqn:E1; destruct (Qle_bool e x) eqn:E3;
    cbn [andb List.length]; try lia.
  - apply Qlt_bool_iff in E1. apply Qle_bool_iff in E3. lra.
  - assert (e <= x).
    { destruct (Qlt_le_dec x e) as [H|H]; [|exact H].
      apply Qlt_bool_iff in H. congruence. }
    apply Qle_bool_iff in H. congruence.
Qed.

Lemma Qmin_list_le_head (x : Q) (l : list Q) : Qmin_list x l <= x.
Proof.
  unfold Qmin_list. revert x. induction l as [|y l IH]; intros x; simpl; [lra|].
  eapply Qle_trans; [apply IH|apply Q.le_min_l].
Qed.

Lemma Qmax_list_ge_head (x : Q) (l : list Q) : x <= Qmax_list x l.
Proof.
  unfold Qmax_list. revert x. induction l as [|y l IH]; intros x; simpl; [lra|].
  eapply Qle_trans; [apply Q.le_max_l|apply IH].
Qed.

Lemma bin_edge_monotone (lo hi : Q) (i : nat) :
  lo <= hi -> bin_edge lo hi 10 i <= bin_edge lo hi 10 (S i).
Proof.
  intros H. unfold bin_edge. change (inject_Z (Z.of_nat 10)) with 10.
  assert (E : inject_Z (Z.of_nat (S i)) == inject_Z (Z.of_nat i) + 1).
  { rewrite Nat2Z.inj_succ, <- Z.add_1_r, inject_Z_plus. reflexivity. }
  rewrite E. set (n := inject_Z (Z.of_nat i)).
  assert (0 <= (hi - lo) / 10) by (apply Qle_shift_div_l; lra).
  set (d := (hi - lo) / 10) in *. lra.
Qed.

(** The histogram over the breakpoints counts the members of the bins. *)
Lemma histogram_counts_bins (x : Q) (l data : list Q) :
  let lo := Qmin_list x l in
  let hi := Qmax_list x l in
  np_histogram data (psi_breakpoints (x :: l) 10) =
  map (fun i => Z.of_nat (List.length (filter (in_bin lo hi 10 i) data))) (seq 0 10).
Proof.
  intros lo hi.
  assert (Hlh : lo <= hi).
  { apply Qle_trans with x; [apply Qmin_list_le_head|apply Qmax_list_ge_head]. }
  unfold psi_breakpoints. fold lo hi.
  cbn [np_linspace seq map Nat.add set_first set_last removelast app np_histogram last
       np_diff Nat.sub].
  rewrite searchsorted_left_NInf, searchsorted_right_PInf.
  pose proof (bin_edge_monotone lo hi) as Hm. unfold bin_edge in Hm.
  change (inject_Z (Z.of_nat 10)) with 10 in *.
  unfold in_bin, bin_edge. cbn [Nat.eqb].
  change (inject_Z (Z.of_nat 10)) with 10.
  rewrite searchsorted_left_first, searchsorted_left_last.
  rewrite !searchsorted_left_between by (apply Hm; exact Hlh).
  reflexivity.
Qed.

(** With the outer edges at -inf and +inf every value is in a bin. *)
Lemma histogram_total (x : Q) (l data : list Q) :
  fold_right Z.add 0%Z (np_histogram data (psi_breakpoints (x :: l) 10)) =
  Z.of_nat (List.length data).
Proof.
  unfold psi_breakpoints.
  cbn [np_linspace seq map Nat.add set_first set_last removelast app np_histogram last
       np_diff Nat.sub fold_right].
  rewrite searchsorted_left_NInf, searchsorted_right_PInf. lia.
Qed.

Lemma calculate_psi_numeric (np_log : Q -> Q) (dt dt' : numeric_dtype)
  (vs vs' : list (option Q)) :
  numbers vs <> [] -> numbers vs' <> [] ->
  _calculate_psi np_log (Numeric dt vs) (Numeric dt' vs') =
  (Fin (psi_spec np_log (numbers vs) (numbers vs')), []).
Proof.
  intros Hr Ht. unfold _calculate_psi, calculate_psi_body. cbn [to_floats bind].
  destruct (numbers vs) as [|x l] eqn:Er; [congruence|].
  destruct (numbers vs') as [|y l'] eqn:Et; [congruence|].
  unfold psi_dist. rewrite !histogram_counts_bins.
  unfold psi_sum, psi_spec, bin_fraction. cbn [hd tl].
  rewrite !map_map, combine_map_same, map_map. reflexivity.
Qed.

(** The flag and the score of the numeric test are those of the
    Kolmogorov-Smirnov test alone. *)
Lemma ks_test_by_outcome (np_log np_sqrt : Q -> Q) (ks_pvalue : Q -> nat -> nat -> num)
  (threshold : num) (ref target : DataFrame) (column : string) :
  let r := fst (_ks_test np_log np_sqrt ks_pvalue threshold ref target column) in
  match ks_outcome ks_pvalue ref target column with
  | Returned (d, p) =>
      has_drift r = ltb p threshold /\ drift_score r = d /\ p_value r = Some p
  | Raised e =>
      has_drift r = false /\ drift_score r = Fin 0 /\ error_note r = Some e
  end.
Proof.
  cbv zeta. unfold ks_outcome, _ks_test, ks_test_body.
  destruct (getitem ref column) as [rc|e]; [|cbn; auto].
  destruct (getitem target column) as [tc|e]; [|cbn; auto].
  cbn [bind].
  destruct (ks_2samp ks_pvalue (dropna rc) (dropna tc)) as [[d p]|e]; [|cbn; auto].
  cbn [bind].
  destruct (to_floats (dropna rc)) as [x|e]; [|cbn; auto]. cbn [bind].
  destruct (to_floats (dropna tc)) as [y|e]; cbn; auto.
Qed.

(** The index recorded for a numeric column whose two samples have a
    value. *)
Lemma ks_test_psi_score (np_log np_sqrt : Q -> Q) (ks_pvalue : Q -> nat -> nat -> num)
  (threshold : num) (ref target : DataFrame) (column : string)
  (dt dt' : numeric_dtype) (vs vs' : list (option Q)) :
  getitem ref column = Returned (Numeric dt vs) ->
  getitem target column = Returned (Numeric dt' vs') ->
  numbers vs <> [] -> numbers vs' <> [] ->
  psi_score (fst (_ks_test np_log np_sqrt ks_pvalue threshold ref target column)) =
  Some (Fin (psi_spec np_log (numbers vs) (numbers vs'))).
Proof.
  intros Hr Ht Hne Hne'.
  assert (Hpsi : _calculate_psi np_log (dropna (Numeric dt vs)) (dropna (Numeric dt' vs')) =
                 (Fin (psi_spec np_log (numbers vs) (numbers vs')), [])).
  { cbn [dropna]. rewrite calculate_psi_numeric by (rewrite numbers_dropna; assumption).
    now rewrite !numbers_dropna. }
  unfold _ks_test, ks_test_body. rewrite Hr, Ht, Hpsi.
  rewrite ks_2samp_numeric_columns. cbn [dropna to_floats bind fst snd].
  reflexivity.
Qed.

(** C5.  On two numeric samples with at least one value each,
    _calculate_psi returns the sum over 10 bins of
    (target_frac - ref_frac) * ln(target_frac / ref_frac), the bins
    being linearly spaced from the minimum to the maximum of the
    reference sample with the outer edges at -inf and +inf (so that the
    bins hold every value), and the fractions being the share of the
    sample in the bin plus 0.0001; this is the psi_score recorded for a
    numeric column whose reference and target samples have a value.
    The flag and the score of the column do not depend on the index:
    they are those of the Kolmogorov-Smirnov test, whatever the
    logarithm used by the index. *)
Theorem psi_is_informational
  (np_log np_log' np_sqrt : Q -> Q) (ks_pvalue : Q -> nat -> nat -> num) (threshold : num)
  (ref target : DataFrame) (column : string) :
  (forall dt dt' vs vs',
      numbers vs <> [] -> numbers vs' <> [] ->
      _calculate_psi np_log (Numeric dt vs) (Numeric dt' vs') =
        (Fin (psi_spec np_log (numbers vs) (numbers vs')), []) /\
      fold_right Z.add 0%Z (np_histogram (numbers vs') (psi_breakpoints (numbers vs) 10)) =
        Z.of_nat (List.length (numbers vs')) /\
      (getitem ref column = Returned (Numeric dt vs) ->
       getitem target column = Returned (Numeric dt' vs') ->
       psi_score (fst (_ks_test np_log np_sqrt ks_pvalue threshold ref target column)) =
       Some (Fin (psi_spec np_log (numbers vs) (numbers vs'))))) /\
  (let r := fst (_ks_test np_log np_sqrt ks_pvalue threshold ref target column) in
   let r' := fst (_ks_test np_log' np_sqrt ks_pvalue threshold ref target column) in
   has_drift r = has_drift r' /\ drift_score r = drift_score r' /\
   match ks_outcome ks_pvalue ref target column with
   | Returned (d, p) => has_drift r = ltb p threshold /\ drift_score r = d
   | Raised e => has_drift r = false /\ drift_score r = Fin 0
   end).
Proof.
  split.
  - intros dt dt' vs vs' Hr Ht. split; [now apply calculate_psi_numeric|]. split.
    + destruct (numbers vs) as [|x l]; [congruence|]. apply histogram_total.
    + intros Hgr Hgt.
      exact (ks_test_psi_score np_log np_sqrt ks_pvalue threshold ref target column
               dt dt' vs vs' Hgr Hgt Hr Ht).
  - cbv zeta.
    pose proof (ks_test_by_outcome np_log np_sqrt ks_pvalue threshold ref target column) as H.
    pose proof (ks_test_by_outcome np_log' np_sqrt ks_pvalue threshold ref target column) as H'.
    cbv zeta in H, H'.
    destruct (ks_outcome ks_pvalue ref target column) as [[d p]|e].
    + destruct H as (H1 & H2 & _), H' as (H1' & H2' & _). repeat split; congruence.
    + destruct H as (H1 & H2 & _), H' as (H1' & H2' & _). repeat split; congruence.
Qed.

(* ================================================================= *)
(** * P-values and drift flags *)

Lemma to_floats_dropna_length (s : Series) (x : list Q) :
  to_floats (dropna s) = Returned x -> List.length x = len_series (dropna s).
Proof.
  destruct s as [dt vs|ws].
  - intros E. cbn [dropna to_floats] in E. inversion E.
    now rewrite numbers_dropna, dropna_numeric_length.
  - cbn [dropna to_floats]. unfold len_series. cbn [cells]. rewrite length_map.
    destruct (filter _ ws) as [|v l] eqn:Ef.
    + simpl. intros E. now inversion E.
    + assert (Hv : In v (filter (fun v : option string =>
                                   match v with Some _ => true | None => false end) ws))
        by (rewrite Ef; now left).
      apply filter_In in Hv. destruct Hv as [_ Hv]. simpl. rewrite Hv. discriminate.
Qed.

Section PValue.

Variable np_log : Q -> Q.
Variable np_sqrt : Q -> Q.
Variable ks_pvalue : Q -> nat -> nat -> num.
Variable chi2_sf : num -> Z -> num.
Variable threshold : num.

(** The p-value of the chi-square test over the rows of an outer join:
    that of the library for the statistic, which is a number or +inf,
    with one degree of freedom less than there are rows; nan below two
    rows. *)
Lemma chisquare_p_value (merged : list merged_row) (stat p : num) :
  Forall joined_row merged ->
  chisquare chi2_sf (map count_target merged) (map count_ref merged) = Returned (stat, p) ->
  number_or_pinf stat /\
  ((2 <= List.length merged)%nat ->
   p = chi2_sf stat (Z.of_nat (List.length merged) - 1)) /\
  ((List.length merged < 2)%nat -> p = NaN).
Proof.
  intros Hrows. unfold chisquare. destruct (Qlt_bool _ _); [discriminate|].
  intros E. inversion E as [[Hstat Hp]]. clear E. rewrite length_map.
  split; [now apply chisquare_statistic_number_or_pinf|].
  destruct (Z.leb_spec (Z.of_nat (List.length merged) - 1) 0) as [Hdf|Hdf].
  - split; [lia|reflexivity].
  - split; [reflexivity|lia].
Qed.

(** C2, amended.  For every column whose test completes (its result
    has a p-value), has_drift is true exactly when the p-value is
    strictly below the threshold, and the p-value is the one of the
    library, recorded as it is.  Numeric test: when both columns have a
    non-missing value, the p-value is that of the Kolmogorov-Smirnov
    statistic for the two sample sizes, which lies in [0,1] as far as
    the library's p-values do; when one of the columns has none, the
    statistic and the p-value are nan and the column is not flagged.
    Categorical test: when the two columns hold at least two distinct
    values between them, the p-value is that of the chi-squared
    distribution at the statistic, which lies in [0,1] as far as the
    library's does; when they hold fewer, the p-value is nan and the
    column is not flagged. *)
Theorem recorded_p_value (ref target : DataFrame) (column : string) :
  let ks := fst (_ks_test np_log np_sqrt ks_pvalue threshold ref target column) in
  let chi := fst (_chi_square_test chi2_sf threshold ref target column) in
  (forall p, p_value ks = Some p ->
             has_drift ks = ltb p threshold /\
             exists ref_col target_col,
               getitem ref column = Returned ref_col /\
               getitem target column = Returned target_col /\
               let n := len_series (dropna ref_col) in
               let m := len_series (dropna target_col) in
               (n <> 0%nat -> m <> 0%nat ->
                exists d, drift_score ks = Fin d /\ p = ks_pvalue d n m /\
                          ((forall d' n' m', in_unit_interval (ks_pvalue d' n' m')) ->
                           in_unit_interval p)) /\
               (n = 0%nat \/ m = 0%nat ->
                p = NaN /\ drift_score ks = NaN /\ has_drift ks = false)) /\
  (forall p, p_value chi = Some p ->
             has_drift chi = ltb p threshold /\
             exists ref_col target_col merged,
               getitem ref column = Returned ref_col /\
               getitem target column = Returned target_col /\
               merge_outer column (dtype_name ref_col) (dtype_name target_col)
                 (value_counts ref_col) (value_counts target_col) = Returned merged /\
               ((2 <= List.length merged)%nat ->
                number_or_pinf (drift_score chi) /\
                p = chi2_sf (drift_score chi) (Z.of_nat (List.length merged) - 1) /\
                ((forall stat df, number_or_pinf stat -> (0 < df)%Z ->
                                  in_unit_interval (chi2_sf stat df)) ->
                 in_unit_interval p)) /\
               ((List.length merged < 2)%nat -> p = NaN /\ has_drift chi = false)).
Proof.
  cbv zeta. split.
  - intros p. unfold _ks_test, ks_test_body.
    destruct (getitem ref column) as [rc|e]; [|cbn; discriminate].
    destruct (getitem target column) as [tc|e]; [|cbn; discriminate].
    unfold ks_2samp.
    destruct (Nat.eqb (len_series (dropna rc)) 0 || Nat.eqb (len_series (dropna tc)) 0) eqn:E.
    + destruct (to_floats (dropna rc)) as [x|e]; [|cbn; discriminate].
      destruct (to_floats (dropna tc)) as [y|e]; [|cbn; discriminate].
      cbn [bind fst snd p_value detail has_drift drift_score].
      intros Hp. inversion Hp; subst p. split; [reflexivity|].
      exists rc, tc. split; [reflexivity|]. split; [reflexivity|]. split.
      * intros Hn Hm. apply orb_true_iff in E. rewrite !Nat.eqb_eq in E. tauto.
      * intros _. repeat split.
    + destruct (to_floats (dropna rc)) as [x|e] eqn:Ex; [|cbn; discriminate].
      destruct (to_floats (dropna tc)) as [y|e] eqn:Ey; [|cbn; discriminate].
      cbn [bind fst snd p_value detail has_drift drift_score].
      intros Hp. inversion Hp; subst p. split; [reflexivity|].
      exists rc, tc. split; [reflexivity|]. split; [reflexivity|]. split.
      * intros _ _. eexists. split; [reflexivity|].
        rewrite (to_floats_dropna_length rc x Ex), (to_floats_dropna_length tc y Ey).
        split; [reflexivity|]. intros Hrange. apply Hrange.
      * intros Hz. apply orb_false_iff in E. rewrite !Nat.eqb_neq in E. tauto.
  - intros p. unfold _chi_square_test, chi_square_test_body.
    destruct (getitem ref column) as [rc|e]; [|simpl; discriminate].
    destruct (getitem target column) as [tc|e]; [|simpl; discriminate].
    cbn [bind].
    destruct (merge_outer _ _ _ _ _) as [merged|e] eqn:Em; [|simpl; discriminate].
    cbn [bind].
    destruct (chisquare chi2_sf _ _) as [[stat p']|e] eqn:Ec; [|simpl; discriminate].
    cbn [bind fst snd p_value detail has_drift drift_score]. intros Hp. inversion Hp; subst p'.
    split; [reflexivity|].
    exists rc, tc, merged. split; [reflexivity|]. split; [reflexivity|]. split; [exact Em|].
    assert (Hrows : Forall joined_row merged).
    { eapply merge_outer_rows; [| |exact Em]; apply value_counts_table. }
    destruct (chisquare_p_value merged stat p Hrows Ec) as (Hstat & Hsf & Hnan).
    split.
    + intros Hlen. split; [exact Hstat|]. split; [exact (Hsf Hlen)|].
      intros Hrange. rewrite (Hsf Hlen). apply Hrange; [exact Hstat|lia].
    + intros Hlen. specialize (Hnan Hlen). subst p. auto.
Qed.

End PValue.

Lemma sample_ks_pvalue_range (d : Q) (n m : nat) : in_unit_interval (sample_ks_pvalue d n m).
Proof.
  unfold in_unit_interval, sample_ks_pvalue, leb. rewrite !Qle_bool_iff. split.
  - apply Q.min_glb; [lra|apply Q.le_max_l].
  - apply Q.le_min_l.
Qed.

Lemma sample_chi2_sf_range (stat : num) (df : Z) :
  number_or_pinf stat -> (0 < df)%Z -> in_unit_interval (sample_chi2_sf stat df).
Proof.
  intros Hs _. unfold in_unit_interval, sample_chi2_sf.
  destruct stat as [q| | |]; try contradiction.
  - destruct (Qle_bool q 1); split; reflexivity.
  - split; reflexivity.
Qed.

(** The columns "x" and "cat" of the samples: both tests complete, with
    p-values of the stand-ins for the library, which are in [0,1]. *)
Lemma recorded_p_value_witness :
  (exists p,
      p_value (fst (_ks_test sample_log sample_sqrt sample_ks_pvalue default_threshold
                      reference_sample target_sample "x")) = Some p /\
      has_drift (fst (_ks_test sample_log sample_sqrt sample_ks_pvalue default_threshold
                        reference_sample target_sample "x")) = ltb p default_threshold /\
      in_unit_interval p) /\
  (exists p,
      p_value (fst (_chi_square_test sample_chi2_sf default_threshold
                      reference_sample target_sample "cat")) = Some p /\
      has_drift (fst (_chi_square_test sample_chi2_sf default_threshold
                        reference_sample target_sample "cat")) = ltb p default_threshold /\
      in_unit_interval p).
Proof.
  destruct (recorded_p_value sample_log sample_sqrt sample_ks_pvalue sample_chi2_sf
              default_threshold reference_sample target_sample "x") as [Hks _].
  destruct (recorded_p_value sample_log sample_sqrt sample_ks_pvalue sample_chi2_sf
              default_threshold reference_sample target_sample "cat") as [_ Hchi].
  split.
  - eexists. split; [reflexivity|].
    destruct (Hks _ eq_refl) as (Hflag & rc & tc & Hr & Ht & Hfull & _).
    split; [exact Hflag|].
    inversion Hr; subst rc. inversion Ht; subst tc.
    destruct Hfull as (d & _ & _ & Hrange); [discriminate|discriminate|].
    apply Hrange. exact sample_ks_pvalue_range.
  - eexists. split; [reflexivity|].
    destruct (Hchi _ eq_refl) as (Hflag & rc & tc & merged & Hr & Ht & Hm & Hfull & _).
    split; [exact Hflag|].
    inversion Hr; subst rc. inversion Ht; subst tc.
    vm_compute in Hm. inversion Hm; subst merged.
    destruct Hfull as (_ & _ & Hrange); [simpl; lia|].
    apply Hrange. exact sample_chi2_sf_range.
Defined.

(** C2 as stated fails on two columns of the samples.  The column
    "constant" holds one value: the categorical test completes, and the
    p-value it records is nan.  The column "empty" has no value: the
    numeric test completes, and the p-value it records is nan.  Nan is
    not in [0,1]. *)
Lemma constant_column_p_value_is_nan :
  error_note (fst (_chi_square_test sample_chi2_sf default_threshold
                     reference_sample target_sample "constant")) = None /\
  p_value (fst (_chi_square_test sample_chi2_sf default_threshold
                  reference_sample target_sample "constant")) = Some NaN /\
  error_note (fst (_ks_test sample_log sample_sqrt sample_ks_pvalue default_threshold
                     reference_sample target_sample "empty")) = None /\
  p_value (fst (_ks_test sample_log sample_sqrt sample_ks_pvalue default_threshold
                  reference_sample target_sample "empty")) = Some NaN /\
  leb (Fin 0) NaN = false /\
  leb NaN (Fin 1) = false /\
  ~ in_unit_interval NaN.
Proof.
  repeat split; try reflexivity.
  intros [H _]. discriminate H.
Qed.

(* ================================================================= *)
(** * A reference count of zero *)

(** C3.  The categorical test on two datasets with the one column
    "cat" (reference A, A, B, A, A, B; target A, B, C, A, B, C): the
    value C is absent from the reference, the outer join gives it the
    reference count 0, no guard intervenes, and the statistic is the
    division by that zero count: +inf.  The test completes, the
    infinite score is recorded for the column, and it is the overall
    drift score of the report. *)
Theorem chi_square_zero_expected_count :
  merge_outer "cat" "object" "object"
    (value_counts (Object [Some "A"; Some "A"; Some "B"; Some "A"; Some "A"; Some "B"]))
    (value_counts (Object [Some "A"; Some "B"; Some "C"; Some "A"; Some "B"; Some "C"])) =
  Returned [ {| key := Str "A"; count_ref := 4; count_target := 2 |};
             {| key := Str "B"; count_ref := 2; count_target := 2 |};
             {| key := Str "C"; count_ref := 0; count_target := 2 |} ] /\
  nth 2 (chisquare_terms [2; 2; 2] [4; 2; 0]) (Fin 0) = PInf /\
  chisquare_statistic [2; 2; 2] [4; 2; 0] = PInf /\
  error_note (fst (_chi_square_test sample_chi2_sf default_threshold
                     reference_cat target_cat "cat")) = None /\
  drift_score (fst (_chi_square_test sample_chi2_sf default_threshold
                      reference_cat target_cat "cat")) = PInf /\
  snd (_chi_square_test sample_chi2_sf default_threshold reference_cat target_cat "cat") = [] /\
  overall_drift_score
    (fst (detect_drift sample_log sample_sqrt sample_ks_pvalue sample_chi2_sf
            default_threshold (PyFrame reference_cat) (PyFrame target_cat))) = PInf.
Proof.
  repeat split; vm_compute; reflexivity.
Qed.

(* ================================================================= *)
(** * The boundary of the quality operations *)

Lemma guarded_cases {R : Type} (what : string) (body : outcome R) :
  match body with
  | Returned r => guarded what body = (Report r, [])
  | Raised e => guarded what body = (EmptyDict, [(what ++ ": " ++ e)%string])
  end.
Proof.
  destruct body; reflexivity.
Qed.

Lemma guarded_dict_cases {V : Type} (what : string) (body : outcome (dict V)) :
  match body with
  | Returned d => guarded_dict what body = (d, [])
  | Raised e => guarded_dict what body = ([], [(what ++ ": " ++ e)%string])
  end.
Proof.
  destruct body; reflexivity.
Qed.

(** C9, amended.  Each of the five operations returns a value on every
    input, a frame or not: the report with nothing logged when its
    computation returns, and, when the computation raises [e], the
    empty mapping, the explanatory note naming [e] going to the error
    log and not into the result. *)
Theorem quality_operations_return (np_sqrt : Q -> Q) (x : pyobj) :
  match check_missing_values_body x with
  | Returned r => check_missing_values x = (Report r, [])
  | Raised e =>
      check_missing_values x = (EmptyDict, [("Error checking missing values: " ++ e)%string])
  end /\
  match check_duplicates_body x with
  | Returned r => check_duplicates x = (Report r, [])
  | Raised e => check_duplicates x = (EmptyDict, [("Error checking duplicates: " ++ e)%string])
  end /\
  match detect_outliers_body x with
  | Returned d => detect_outliers x = (d, [])
  | Raised e => detect_outliers x = ([], [("Error detecting outliers: " ++ e)%string])
  end /\
  match check_data_types_body x with
  | Returned d => check_data_types x = (d, [])
  | Raised e => check_data_types x = ([], [("Error checking data types: " ++ e)%string])
  end /\
  match get_statistics_body np_sqrt x with
  | Returned r => get_statistics np_sqrt x = (Report r, [])
  | Raised e =>
      get_statistics np_sqrt x = (EmptyDict, [("Error getting statistics: " ++ e)%string])
  end.
Proof.
  split; [apply (guarded_cases "Error checking missing values")|].
  split; [apply (guarded_cases "Error checking duplicates")|].
  split; [apply (guarded_dict_cases "Error detecting outliers")|].
  split; [apply (guarded_dict_cases "Error checking data types")|].
  apply (guarded_cases "Error getting statistics").
Qed.

(** C9 as stated fails on an input that is no frame: every operation
    returns the empty mapping, which has no entry and so carries no
    note; the note is in the log. *)
Lemma empty_result_carries_no_note :
  check_missing_values PyNone =
    (EmptyDict, ["Error checking missing values: object of type 'NoneType' has no len()"]) /\
  entries 2 (fst (check_missing_values PyNone)) = 0%nat /\
  check_duplicates PyNone =
    (EmptyDict, ["Error checking duplicates: object of type 'NoneType' has no len()"]) /\
  entries 4 (fst (check_duplicates PyNone)) = 0%nat /\
  detect_outliers PyNone =
    ([], ["Error detecting outliers: 'NoneType' object has no attribute 'select_dtypes'"]) /\
  check_data_types PyNone =
    ([], ["Error checking data types: 'NoneType' object has no attribute 'dtypes'"]) /\
  get_statistics sample_sqrt PyNone =
    (EmptyDict, ["Error getting statistics: 'NoneType' object has no attribute 'select_dtypes'"]) /\
  entries 4 (fst (get_statistics sample_sqrt PyNone)) = 0%nat.
Proof.
  repeat split.
Qed.

(* ================================================================= *)
(** * Further properties of the two engines and of the processor *)

Import Frames Notions.

(* ================================================================= *)
(** * Dictionaries filled key by key *)

Lemma dict_keys_app {V : Type} (d d' : dict V) :
  dict_keys (d ++ d') = dict_keys d ++ dict_keys d'.
Proof. unfold dict_keys. apply map_app. Qed.

Lemma fold_dict_set_fresh {V : Type} (f : string -> V) (l : list string) :
  NoDup l ->
  forall d : dict V,
    (forall c, In c l -> ~ In c (dict_keys d)) ->
    fold_left (fun d c => dict_set d c (f c)) l d = d ++ map (fun c => (c, f c)) l.
Proof.
  induction 1 as [|a l Ha Hnd IH]; intros d Hd; simpl.
  - now rewrite app_nil_r.
  - rewrite dict_set_fresh by (apply Hd; now left).
    rewrite IH.
    + now rewrite <- app_assoc.
    + intros c Hc. rewrite dict_keys_app. simpl. intros Hin.
      apply in_app_or in Hin. destruct Hin as [Hin|[->|[]]].
      * apply (Hd c); [now right|exact Hin].
      * contradiction.
Qed.

Lemma dict_keys_map {V : Type} (f : string -> V) (l : list string) :
  dict_keys (map (fun c => (c, f c)) l) = l.
Proof. unfold dict_keys. rewrite map_map. simpl. apply map_id. Qed.

Lemma dict_get_map_In {V : Type} (f : string -> V) (l : list string) (k : string) :
  In k l -> dict_get (map (fun c => (c, f c)) l) k = Some (f k).
Proof.
  intros H. rewrite dict_get_map. destruct (in_dec string_dec k l); [reflexivity|contradiction].
Qed.

(** The body of a loop that reads a column of the frame and stores a
    value made from it. *)
Lemma for_each_columns {V : Type} (df : DataFrame) (cols : list string)
  (body : dict V -> string -> outcome (dict V)) (f : string -> V) :
  NoDup cols ->
  (forall st c, In c cols -> body st c = Returned (dict_set st c (f c))) ->
  for_each cols [] body = Returned (map (fun c => (c, f c)) cols).
Proof.
  intros Hnd Hbody.
  rewrite (for_each_returns body (fun d c => dict_set d c (f c))) by exact Hbody.
  rewrite fold_dict_set_fresh; [reflexivity|exact Hnd|].
  intros c _ [].
Qed.

(* ================================================================= *)
(** * Percentages *)

Lemma round2_between (x : Q) : 0 <= x <= 100 -> 0 <= round2 x <= 100.
Proof.
  intros [H0 H1]. unfold round2.
  pose proof (round_half_even_near (x * 100)) as Hn.
  apply Qabs_Qle_condition in Hn. destruct Hn as [Hlo Hhi].
  set (k := round_half_even (x * 100)) in *.
  assert (Hk0 : - (1 # 2) <= inject_Z k) by lra.
  assert (Hk1 : inject_Z k <= 10000 + (1 # 2)) by lra.
  assert (Hz : (0 <= k <= 10000)%Z).
  { unfold Qle in Hk0, Hk1. cbn in Hk0, Hk1. lia. }
  assert (Hq : 0 <= inject_Z k <= 10000).
  { change 0 with (inject_Z 0). change 10000 with (inject_Z 10000).
    rewrite <- !Zle_Qle. exact Hz. }
  split.
  - apply Qle_shift_div_l; lra.
  - apply Qle_shift_div_r; lra.
Qed.

Lemma ratio_percentage (a b : nat) :
  (a <= b)%nat -> (0 < b)%nat ->
  0 <= inject_Z (Z.of_nat a) / inject_Z (Z.of_nat b) * 100 <= 100.
Proof.
  intros Hab Hb.
  assert (Ha0 : 0 <= inject_Z (Z.of_nat a)).
  { change 0 with (inject_Z 0). rewrite <- Zle_Qle. lia. }
  assert (Hb0 : 0 < inject_Z (Z.of_nat b)).
  { change 0 with (inject_Z 0). rewrite <- Zlt_Qlt. lia. }
  assert (Hle : inject_Z (Z.of_nat a) <= inject_Z (Z.of_nat b)).
  { rewrite <- Zle_Qle. lia. }
  assert (H0 : 0 <= inject_Z (Z.of_nat a) / inject_Z (Z.of_nat b)).
  { apply Qle_shift_div_l; lra. }
  assert (H1 : inject_Z (Z.of_nat a) / inject_Z (Z.of_nat b) <= 1).
  { apply Qle_shift_div_r; lra. }
  split; lra.
Qed.

(* ================================================================= *)
(** * check_missing_values and check_data_types *)

Lemma isna_sum_le (s : Series) : (isna_sum s <= len_series s)%nat.
Proof. unfold isna_sum, len_series. apply filter_length_le. Qed.

Lemma isna_sum_dropna (s : Series) :
  (isna_sum s + len_series (dropna s) = len_series s)%nat.
Proof.
  unfold isna_sum, len_series.
  destruct s as [dt vs|vs]; simpl; rewrite !length_map;
    induction vs as [|[x|] vs IH]; simpl; lia.
Qed.

Lemma In_columns (df : DataFrame) (column : string) (s : Series) :
  In (column, s) df -> In column (columns df).
Proof. intros H. unfold columns. apply in_map_iff. now exists (column, s). Qed.

Lemma columns_In (df : DataFrame) (column : string) :
  In column (columns df) -> exists s, In (column, s) df.
Proof.
  unfold columns. intros H. apply in_map_iff in H. destruct H as [[c s] [E H]].
  simpl in E. subst. eauto.
Qed.

(** The entry that check_missing_values stores for a column. *)
Lemma check_missing_values_frame (df : DataFrame) :
  NoDup (columns df) ->
  let entry := fun s =>
    {| missing_count := Z.of_nat (isna_sum s);
       missing_percentage :=
         round2 (if (0 <? Z.of_nat (len df))%Z
                 then inject_Z (Z.of_nat (isna_sum s)) / inject_Z (Z.of_nat (len df)) * 100
                 else 0) |} in
  let f := fun column =>
    match getitem df column with
    | Returned s => entry s
    | Raised _ => entry (Object [])
    end in
  check_missing_values_body (PyFrame df) =
  Returned {| missing_total_rows := Z.of_nat (len df);
              missing_columns := map (fun c => (c, f c)) (columns df) |}.
Proof.
  intros Hnd entry f. unfold check_missing_values_body.
  rewrite (for_each_columns df (columns df) _ f Hnd); [reflexivity|].
  intros st c Hc. destruct (getitem_columns df c Hc) as [s Hs].
  unfold f. rewrite Hs. reflexivity.
Qed.

(** X1.  On a dataset with distinct column names and columns of one
    length, check_missing_values returns a report and logs nothing;
    total_rows is the number of rows; the report has one entry per
    column, in the order of the columns; the count of a column is its
    number of missing values, which together with the number of present
    values makes total_rows; the percentage lies between 0 and 100, is
    0 for a dataset without rows, and otherwise is count / total_rows
    * 100 rounded to two decimals. *)
Theorem check_missing_values_report (df : DataFrame) :
  well_formed df ->
  exists r,
    check_missing_values (PyFrame df) = (Report r, []) /\
    missing_total_rows r = Z.of_nat (len df) /\
    dict_keys (missing_columns r) = columns df /\
    forall column s,
      In (column, s) df ->
      exists info,
        dict_get (missing_columns r) column = Some info /\
        missing_count info = Z.of_nat (isna_sum s) /\
        (missing_count info + Z.of_nat (len_series (dropna s)) = missing_total_rows r)%Z /\
        (0 <= missing_count info <= missing_total_rows r)%Z /\
        0 <= missing_percentage info <= 100 /\
        (missing_total_rows r = 0%Z -> missing_percentage info == 0) /\
        ((0 < missing_total_rows r)%Z ->
         rounded_to_2_decimals
           (inject_Z (missing_count info) / inject_Z (missing_total_rows r) * 100)
           (missing_percentage info)).
Proof.
  intros [Hnd Hlen].
  pose proof (check_missing_values_frame df Hnd) as Hbody. cbv zeta in Hbody.
  unfold check_missing_values. rewrite Hbody. simpl.
  eexists. split; [reflexivity|]. simpl.
  split; [reflexivity|]. split; [apply dict_keys_map|].
  intros column s Hin.
  assert (Hs : len_series s = len df).
  { rewrite Forall_forall in Hlen. exact (Hlen _ Hin). }
  pose proof (isna_sum_le s) as Hle. pose proof (isna_sum_dropna s) as Hsum.
  eexists. split.
  { rewrite dict_get_map_In by (eapply In_columns; eassumption).
    rewrite (getitem_In df column s Hnd Hin). reflexivity. }
  simpl. split; [reflexivity|]. split; [lia|]. split; [lia|]. split; [|split].
  - apply round2_between. destruct (0 <? Z.of_nat (len df))%Z eqn:E.
    + apply ratio_percentage; [lia|]. apply Z.ltb_lt in E. lia.
    + lra.
  - intros H0. rewrite H0. reflexivity.
  - intros Hpos. apply Z.ltb_lt in Hpos. rewrite Hpos. apply round2_rounded.
Qed.

Lemma well_formed_reference_sample : well_formed reference_sample.
Proof.
  split.
  - repeat constructor; simpl; intuition discriminate.
  - repeat constructor.
Qed.

(** The sample column empty has 6 missing values out of 6 rows. *)
Lemma check_missing_values_report_witness :
  well_formed reference_sample /\
  exists r info,
    check_missing_values (PyFrame reference_sample) = (Report r, []) /\
    dict_get (missing_columns r) "empty" = Some info /\
    missing_count info = 6%Z /\ missing_percentage info == 100.
Proof.
  split; [exact well_formed_reference_sample|].
  destruct (check_missing_values_report reference_sample well_formed_reference_sample)
    as (r & Hr & _ & _ & Hcol).
  destruct (Hcol "empty" (Numeric Float64 [None; None; None; None; None; None]))
    as (info & Hget & Hcount & _).
  - simpl. auto.
  - exists r, info. split; [exact Hr|]. split; [exact Hget|].
    vm_compute in Hr. inversion Hr; subst r. vm_compute in Hget. inversion Hget; subst info.
    split; reflexivity.
Defined.

(** The dict built from [df.dtypes.items()]. *)
Lemma dtypes_items (df : DataFrame) :
  NoDup (columns df) ->
  fold_left (fun d (c : string * Series) => dict_set d (fst c) (dtype_name (snd c))) df []
  = map (fun c => (fst c, dtype_name (snd c))) df.
Proof.
  assert (Hfold : forall l d,
             NoDup (map fst l) ->
             (forall c, In c (map fst l) -> ~ In c (dict_keys d)) ->
             fold_left (fun d (c : string * Series) => dict_set d (fst c) (dtype_name (snd c))) l d
             = d ++ map (fun c => (fst c, dtype_name (snd c))) l).
  { induction l as [|[a s] l IH]; intros d Hl Hd; simpl.
    - now rewrite app_nil_r.
    - inversion Hl as [|? ? Ha Hl']; subst.
      rewrite dict_set_fresh by (apply Hd; now left).
      rewrite IH; [now rewrite <- app_assoc|exact Hl'|].
      intros c Hc. rewrite dict_keys_app. simpl. intros Hin.
      apply in_app_or in Hin. destruct Hin as [Hin|[->|[]]].
      + apply (Hd c); [now right|exact Hin].
      + contradiction. }
  intros Hnd. rewrite Hfold; [reflexivity|exact Hnd|].
  intros c _ [].
Qed.

Lemma dtypes_entry (df : DataFrame) (column : string) (s : Series) :
  NoDup (columns df) -> In (column, s) df ->
  dict_get (map (fun c => (fst c, dtype_name (snd c))) df) column = Some (dtype_name s).
Proof.
  intros Hnd Hin.
  induction df as [|[a t] df IH]; [contradiction|].
  simpl in *. inversion Hnd as [|? ? Ha Hnd']; subst.
  destruct Hin as [[= -> ->]|Hin].
  - now rewrite String.eqb_refl.
  - destruct (String.eqb a column) eqn:Ea.
    + apply String.eqb_eq in Ea. subst. exfalso. apply Ha.
      eapply In_columns; eassumption.
    + now apply IH.
Qed.

(** X2.  On a dataset with distinct column names, check_data_types
    returns one entry per column, in the order of the columns, whose
    value is the name of the type of the column; it logs nothing. *)
Theorem check_data_types_entries (df : DataFrame) :
  NoDup (columns df) ->
  check_data_types (PyFrame df) = (map (fun c => (fst c, dtype_name (snd c))) df, []) /\
  dict_keys (fst (check_data_types (PyFrame df))) = columns df /\
  (forall column s,
      In (column, s) df ->
      dict_get (fst (check_data_types (PyFrame df))) column = Some (dtype_name s)).
Proof.
  intros Hnd.
  assert (E : check_data_types (PyFrame df)
              = (map (fun c => (fst c, dtype_name (snd c))) df, [])).
  { unfold check_data_types. simpl. now rewrite dtypes_items. }
  rewrite E. simpl. split; [reflexivity|]. split.
  - unfold dict_keys, columns. rewrite map_map. reflexivity.
  - intros column s Hin. now apply dtypes_entry.
Qed.

Lemma check_data_types_entries_witness :
  NoDup (columns reference_sample) /\
  fst (check_data_types (PyFrame reference_sample)) =
  [("x", "int64"); ("empty", "float64"); ("cat", "object"); ("constant", "object")]%string.
Proof.
  assert (Hnd : NoDup (columns reference_sample)) by exact (proj1 well_formed_reference_sample).
  split; [exact Hnd|].
  destruct (check_data_types_entries reference_sample Hnd) as [E _].
  rewrite E. reflexivity.
Defined.

(* ================================================================= *)
(** * Prefixes and tables of counts *)

Lemma firstn_In_list {A : Type} (n : nat) (l : list A) (x : A) :
  In x (firstn n l) -> In x l.
Proof.
  intros H. rewrite <- (firstn_skipn n l). apply in_or_app. now left.
Qed.

Lemma firstn_NoDup {A : Type} (n : nat) (l : list A) : NoDup l -> NoDup (firstn n l).
Proof.
  intros H. rewrite <- (firstn_skipn n l) in H. exact (NoDup_app_remove_r _ _ H).
Qed.

Lemma firstn_Forall {A : Type} (P : A -> Prop) (n : nat) (l : list A) :
  Forall P l -> Forall P (firstn n l).
Proof.
  intros H. rewrite <- (firstn_skipn n l) in H. apply Forall_app in H. tauto.
Qed.

Lemma firstn_NoDupA {A : Type} (eqA : A -> A -> Prop) (n : nat) (l : list A) :
  NoDupA eqA l -> NoDupA eqA (firstn n l).
Proof.
  revert n. induction l as [|a l IH]; intros [|n] H; simpl; try constructor.
  - inversion H as [|? ? Ha Hl]; subst. intros Hin. apply Ha.
    apply InA_alt in Hin. destruct Hin as [y [Hy Hin]].
    apply InA_alt. exists y. split; [exact Hy|]. eapply firstn_In_list; eassumption.
  - inversion H; subst. now apply IH.
Qed.

Lemma firstn_StronglySorted {A : Type} (R : A -> A -> Prop) (n : nat) (l : list A) :
  StronglySorted R l -> StronglySorted R (firstn n l).
Proof.
  revert n. induction l as [|a l IH]; intros [|n] H; simpl; try constructor.
  - apply StronglySorted_inv in H. now apply IH.
  - apply StronglySorted_inv in H. apply firstn_Forall. tauto.
Qed.

Lemma insert_by_count_Forall (P : cell * Z -> Prop) (e : cell * Z) (t : list (cell * Z)) :
  P e -> Forall P t -> Forall P (insert_by_count e t).
Proof.
  intros He Ht. induction Ht as [|e' t He' Ht IH]; simpl.
  - now constructor.
  - destruct (snd e' <=? snd e)%Z; repeat constructor; assumption.
Qed.

Lemma insert_by_count_descending (e : cell * Z) (t : list (cell * Z)) :
  descending t -> descending (insert_by_count e t).
Proof.
  unfold descending. induction 1 as [|e' t Ht IH Hall]; simpl.
  - repeat constructor.
  - destruct (snd e' <=? snd e)%Z eqn:E.
    + apply Z.leb_le in E. constructor; [now constructor|].
      constructor; [exact E|].
      eapply Forall_impl; [|exact Hall]. simpl. intros b Hb. lia.
    + apply Z.leb_gt in E. constructor; [exact IH|].
      apply insert_by_count_Forall; [lia|exact Hall].
Qed.

Lemma value_counts_descending (s : Series) : descending (value_counts s).
Proof.
  unfold value_counts.
  generalize (fold_left (fun t c => tally c t)
                (filter (fun c => match c with NA => false | _ => true end) (cells s)) []).
  induction l as [|e t IH]; simpl.
  - constructor.
  - now apply insert_by_count_descending.
Qed.

Lemma counts_table_firstn (n : nat) (t : list (cell * Z)) :
  counts_table t -> counts_table (firstn n t).
Proof.
  intros [H1 H2]. split; [now apply firstn_NoDupA|now apply firstn_Forall].
Qed.

(* ================================================================= *)
(** * get_statistics *)

Lemma column_unique (df : DataFrame) (column : string) (s s' : Series) :
  NoDup (columns df) -> In (column, s) df -> In (column, s') df -> s = s'.
Proof.
  intros Hnd H H'.
  pose proof (getitem_In df column s Hnd H) as E.
  rewrite (getitem_In df column s' Hnd H') in E. now inversion E.
Qed.

Lemma object_cols_In (df : DataFrame) (column : string) :
  In column (object_cols df) <->
  exists s, In (column, s) df /\ is_object_dtype s = true.
Proof.
  unfold object_cols. rewrite in_map_iff. split.
  - intros [[c s] [Hc Hin]]. simpl in Hc. subst c.
    apply filter_In in Hin. cbn [snd] in Hin. destruct Hin as [Hin Hs]. eauto.
  - intros [s [Hin Hs]]. exists (column, s). split; [reflexivity|].
    apply filter_In. split; [exact Hin|exact Hs].
Qed.

Lemma numeric_column_data (df : DataFrame) (column : string) :
  NoDup (columns df) -> In column (numeric_cols df) ->
  exists s, getitem df column = Returned s /\
            to_floats (dropna s) = Returned (column_numbers df column).
Proof.
  intros Hnd Hin. apply numeric_cols_In in Hin. destruct Hin as [s [Hin Hs]].
  exists s. unfold column_numbers. rewrite (getitem_In df column s Hnd Hin).
  split; [reflexivity|]. destruct s as [dt vs|vs]; [|discriminate].
  simpl. now rewrite numbers_dropna.
Qed.

Lemma describe_records_frame (np_sqrt : Q -> Q) (df : DataFrame) :
  NoDup (columns df) ->
  describe_records np_sqrt df (numeric_cols df) =
  Returned
    (map (fun i =>
            map (fun c => (c, nth i (describe_column np_sqrt (column_numbers df c)) NaN))
                (numeric_cols df))
         (seq 0 8)).
Proof.
  intros Hnd. unfold describe_records.
  rewrite (for_each_returns _
             (fun records i =>
                records ++
                [map (fun c => (c, nth i (describe_column np_sqrt (column_numbers df c)) NaN))
                     (numeric_cols df)])).
  - reflexivity.
  - intros st i _.
    rewrite (for_each_columns df (numeric_cols df) _
               (fun c => nth i (describe_column np_sqrt (column_numbers df c)) NaN)).
    + reflexivity.
    + apply NoDup_map_filter. exact Hnd.
    + intros record c Hc.
      destruct (numeric_column_data df c Hnd Hc) as [s [Hs Hd]].
      rewrite Hs. simpl. rewrite Hd. reflexivity.
Qed.

Lemma get_statistics_frame (np_sqrt : Q -> Q) (df : DataFrame) :
  NoDup (columns df) ->
  get_statistics_body np_sqrt (PyFrame df) =
  Returned
    {| numeric_summary :=
         match numeric_cols df with
         | [] => None
         | _ =>
             Some (map (fun i =>
                          map (fun c => (c, nth i (describe_column np_sqrt
                                                     (column_numbers df c)) NaN))
                              (numeric_cols df))
                       (seq 0 8))
         end;
       categorical_columns := object_cols df;
       numeric_columns := numeric_cols df;
       categorical_summary :=
         map (fun c => (c, match getitem df c with
                           | Returned s => firstn 10 (value_counts s)
                           | Raised _ => []
                           end))
             (firstn 5 (object_cols df)) |}.
Proof.
  intros Hnd. unfold get_statistics_body.
  rewrite describe_records_frame by exact Hnd.
  fold (object_cols df).
  rewrite (for_each_columns df (firstn 5 (object_cols df)) _
             (fun c => match getitem df c with
                       | Returned s => firstn 10 (value_counts s)
                       | Raised _ => []
                       end)).
  - destruct (numeric_cols df); reflexivity.
  - apply firstn_NoDup. apply NoDup_map_filter. exact Hnd.
  - intros st c Hc. apply firstn_In_list in Hc. apply object_cols_In in Hc.
    destruct Hc as [s [Hin _]]. rewrite (getitem_In df c s Hnd Hin). reflexivity.
Qed.

(* ================================================================= *)
(** * What value_counts counts *)

Lemma filter_none {A : Type} (p : A -> bool) (l : list A) :
  (forall x, In x l -> p x = false) -> filter p l = [].
Proof.
  induction l as [|a l IH]; intros H; simpl; [reflexivity|].
  rewrite (H a) by now left. apply IH. intros x Hx. apply H. now right.
Qed.

Lemma tally_In (c : cell) (t : list (cell * Z)) (e : cell * Z) :
  NoDupA same_key t ->
  In e (tally c t) ->
  (cell_eqb (fst e) c = false /\ In e t) \/
  (cell_eqb (fst e) c = true /\ In (fst e, (snd e - 1)%Z) t) \/
  (e = (c, 1%Z) /\ Forall (fun e' => cell_eqb (fst e') c = false) t).
Proof.
  induction t as [|[k n] t IH]; intros Hnd Hin; simpl in Hin.
  - destruct Hin as [<-|[]]. right. right. split; [reflexivity|constructor].
  - inversion Hnd as [|? ? Hk Hnd']; subst.
    destruct (cell_eqb k c) eqn:Ek.
    + destruct Hin as [<-|Hin].
      * right. left. simpl. split; [exact Ek|]. left. f_equal. lia.
      * left. split; [|now right].
        destruct (cell_eqb (fst e) c) eqn:Ee; [|reflexivity].
        exfalso. apply Hk. apply InA_alt. exists e. split; [|exact Hin].
        unfold same_key. simpl. apply cell_eqb_trans with (1 := Ek).
        now rewrite cell_eqb_sym.
    + destruct Hin as [<-|Hin].
      * left. simpl. split; [exact Ek|now left].
      * destruct (IH Hnd' Hin) as [[H1 H2]|[[H1 H2]|[H1 H2]]].
        -- left. split; [exact H1|now right].
        -- right. left. split; [exact H1|now right].
        -- right. right. split; [exact H1|]. constructor; [exact Ek|exact H2].
Qed.

Lemma tallied_step (seen : list cell) (t : list (cell * Z)) (c : cell) :
  tallied seen t -> tallied (seen ++ [c]) (tally c t).
Proof.
  intros (Ht & Hcount & Hseen). split; [|split].
  - now apply tally_counts_table.
  - intros e He. rewrite filter_app, length_app. simpl.
    destruct (tally_In c t e (proj1 Ht) He) as [[H1 H2]|[[H1 H2]|[H1 H2]]].
    + rewrite H1. simpl. rewrite (Hcount e H2). lia.
    + rewrite H1. simpl. pose proof (Hcount _ H2) as E. simpl in E. lia.
    + subst e. simpl. rewrite cell_eqb_refl. simpl.
      rewrite filter_none; [reflexivity|].
      intros x Hx. destruct (cell_eqb c x) eqn:Ex; [|reflexivity].
      exfalso. apply Hseen in Hx. apply InA_alt in Hx. destruct Hx as [e' [Hk He']].
      unfold same_key in Hk. simpl in Hk.
      rewrite Forall_forall in H2. specialize (H2 e' He').
      assert (cell_eqb (fst e') c = true); [|congruence].
      rewrite cell_eqb_sym. now apply cell_eqb_trans with (1 := Ex).
  - intros x Hx. apply tally_InA. simpl. apply in_app_or in Hx.
    destruct Hx as [Hx|[<-|[]]].
    + right. now apply Hseen.
    + left. apply cell_eqb_refl.
Qed.

Lemma tallied_all (cs seen : list cell) (t : list (cell * Z)) :
  tallied seen t -> tallied (seen ++ cs) (fold_left (fun t c => tally c t) cs t).
Proof.
  revert seen t. induction cs as [|c cs IH]; intros seen t H; simpl.
  - now rewrite app_nil_r.
  - replace (seen ++ c :: cs) with ((seen ++ [c]) ++ cs) by now rewrite <- app_assoc.
    apply IH. now apply tallied_step.
Qed.

Lemma insert_by_count_In (e x : cell * Z) (t : list (cell * Z)) :
  In x (insert_by_count e t) <-> x = e \/ In x t.
Proof.
  induction t as [|e' t IH]; simpl.
  - intuition.
  - destruct (snd e' <=? snd e)%Z; simpl; [intuition|]. rewrite IH. intuition.
Qed.

Lemma sort_by_count_In (x : cell * Z) (t : list (cell * Z)) :
  In x (fold_right insert_by_count [] t) <-> In x t.
Proof.
  induction t as [|e t IH]; simpl; [tauto|].
  rewrite insert_by_count_In, IH. intuition.
Qed.

Lemma tally_total (c : cell) (t : list (cell * Z)) :
  total_count (tally c t) = (total_count t + 1)%Z.
Proof.
  unfold total_count. induction t as [|[k n] t IH]; simpl; [reflexivity|].
  destruct (cell_eqb k c); simpl; lia.
Qed.

Lemma tally_all_total (cs : list cell) (t : list (cell * Z)) :
  total_count (fold_left (fun t c => tally c t) cs t)
  = (total_count t + Z.of_nat (List.length cs))%Z.
Proof.
  revert t. induction cs as [|c cs IH]; intros t; simpl List.length; simpl fold_left.
  - simpl. lia.
  - rewrite IH, tally_total. lia.
Qed.

Lemma insert_by_count_total (e : cell * Z) (t : list (cell * Z)) :
  total_count (insert_by_count e t) = (snd e + total_count t)%Z.
Proof.
  unfold total_count. induction t as [|e' t IH]; simpl; [reflexivity|].
  destruct (snd e' <=? snd e)%Z; simpl; lia.
Qed.

Lemma sort_by_count_total (t : list (cell * Z)) :
  total_count (fold_right insert_by_count [] t) = total_count t.
Proof.
  induction t as [|e t IH]; simpl; [reflexivity|].
  rewrite insert_by_count_total, IH. reflexivity.
Qed.

(** The cells that value_counts tallies. *)
Lemma present_length (s : Series) :
  List.length (filter (fun c => match c with NA => false | _ => true end) (cells s))
  = len_series (dropna s).
Proof.
  unfold len_series.
  destruct s as [dt vs|vs]; simpl; rewrite length_map;
    induction vs as [|[x|] vs IH]; simpl; lia.
Qed.

Lemma filter_present (k : cell) (l : list cell) :
  k <> NA ->
  filter (cell_eqb k) (filter (fun c => match c with NA => false | _ => true end) l)
  = filter (cell_eqb k) l.
Proof.
  intros Hk. induction l as [|c l IH]; simpl; [reflexivity|].
  destruct c; simpl; rewrite IH; try reflexivity.
  destruct k; simpl; congruence.
Qed.

Lemma value_counts_tallied (s : Series) :
  tallied (filter (fun c => match c with NA => false | _ => true end) (cells s))
          (fold_left (fun t c => tally c t)
             (filter (fun c => match c with NA => false | _ => true end) (cells s)) []).
Proof.
  apply (tallied_all _ [] []). split; [|split].
  - split; constructor.
  - intros e [].
  - intros x [].
Qed.

(** Every entry of value_counts holds a non-missing value with the
    number of cells of the column that hold it. *)
Lemma value_counts_occurrences (s : Series) (k : cell) (n : Z) :
  In (k, n) (value_counts s) -> k <> NA /\ n = occurrences k s /\ (1 <= n)%Z.
Proof.
  intros Hin. unfold value_counts in Hin. apply -> sort_by_count_In in Hin.
  destruct (value_counts_tallied s) as ([_ Hpos] & Hcount & _).
  pose proof (Hcount _ Hin) as E. simpl in E.
  rewrite Forall_forall in Hpos. pose proof (Hpos _ Hin) as H1. simpl in H1.
  assert (Hk : k <> NA).
  { intros ->. rewrite filter_none in E; [simpl in E; lia|].
    intros x Hx. apply filter_In in Hx. destruct x; simpl; intuition congruence. }
  split; [exact Hk|]. split; [|exact H1].
  rewrite E. unfold occurrences. now rewrite filter_present.
Qed.

(** Every non-missing value of the column has an entry. *)
Lemma value_counts_complete (s : Series) (c : cell) :
  In c (cells s) -> c <> NA ->
  exists n, count_of c (value_counts s) = Some n /\ n = occurrences c s.
Proof.
  intros Hin Hc.
  destruct (value_counts_tallied s) as (_ & _ & Hseen).
  assert (HA : InA same_key (c, 0%Z) (value_counts s)).
  { unfold value_counts. apply sort_by_count_InA. apply Hseen.
    apply filter_In. split; [exact Hin|]. destruct c; congruence. }
  apply InA_alt in HA. destruct HA as [[k n] [Hk He]].
  unfold same_key in Hk. simpl in Hk.
  pose proof (count_of_In _ _ (proj1 (value_counts_table s)) He) as Hc'. simpl in Hc'.
  destruct (value_counts_occurrences s k n He) as (Hk' & Hn & _).
  exists n. split.
  - revert Hc'. clear -Hk. generalize (value_counts s).
    induction l as [|[k' n'] l IH]; simpl; [discriminate|].
    assert (E : cell_eqb k' c = cell_eqb k' k).
    { destruct (cell_eqb k' k) eqn:E1.
      - apply cell_eqb_trans with (1 := E1). now rewrite cell_eqb_sym.
      - destruct (cell_eqb k' c) eqn:E2; [|reflexivity].
        rewrite <- E1. symmetry. now apply cell_eqb_trans with (1 := E2). }
    rewrite E. destruct (cell_eqb k' k); [tauto|exact IH].
  - rewrite Hn. unfold occurrences. f_equal. f_equal.
    apply filter_ext. intros x.
    destruct (cell_eqb c x) eqn:E1.
    + apply cell_eqb_trans with (2 := E1). now rewrite cell_eqb_sym.
    + destruct (cell_eqb k x) eqn:E2; [|reflexivity].
      rewrite <- E1. symmetry. now apply cell_eqb_trans with (1 := Hk).
Qed.

(** The counts of value_counts add up to the number of non-missing
    values. *)
Lemma value_counts_total (s : Series) :
  total_count (value_counts s) = Z.of_nat (len_series (dropna s)).
Proof.
  unfold value_counts. rewrite sort_by_count_total, tally_all_total.
  rewrite present_length. reflexivity.
Qed.

(** X3.  On a dataset with distinct column names, get_statistics
    returns a report and logs nothing.  A column of numbers is listed
    under numeric_columns and not under categorical_columns, a column of
    dtype object under categorical_columns and not under
    numeric_columns.  The categorical summary has
    an entry for the first five categorical columns only; an entry holds
    at most ten values of the column, none of them missing, no value
    twice, each with the number of rows that hold it, the counts never
    growing along the entry; when the column has at most ten distinct
    values the counts add up to its number of non-missing values.  The
    numeric summary is absent without a numeric column; otherwise it has
    eight records keyed by the numeric columns, which hold for every
    such column the count, mean, standard deviation, minimum, quartiles
    and maximum of its non-missing values. *)
Theorem get_statistics_summary (np_sqrt : Q -> Q) (df : DataFrame) :
  NoDup (columns df) ->
  exists st,
    get_statistics np_sqrt (PyFrame df) = (Report st, []) /\
    (forall column dt vs,
        In (column, Numeric dt vs) df ->
        In column (numeric_columns st) /\ ~ In column (categorical_columns st)) /\
    (forall column ws,
        In (column, Object ws) df ->
        In column (categorical_columns st) /\ ~ In column (numeric_columns st)) /\
    dict_keys (categorical_summary st) = firstn 5 (categorical_columns st) /\
    (forall column t,
        dict_get (categorical_summary st) column = Some t ->
        exists s,
          In (column, s) df /\ t = firstn 10 (value_counts s) /\
          (List.length t <= 10)%nat /\ descending t /\ counts_table t /\
          (forall k n, In (k, n) t -> k <> NA /\ n = occurrences k s /\ (1 <= n)%Z) /\
          ((List.length (value_counts s) <= 10)%nat ->
           total_count t = Z.of_nat (len_series (dropna s)))) /\
    (numeric_columns st = [] -> numeric_summary st = None) /\
    (numeric_columns st <> [] ->
     exists records,
       numeric_summary st = Some records /\ List.length records = 8%nat /\
       Forall (fun r => dict_keys r = numeric_columns st) records /\
       forall column dt vs,
         In (column, Numeric dt vs) df ->
         map (fun r => dict_get r column) records
         = map Some (describe_column np_sqrt (numbers vs))).
Proof.
  intros Hnd. unfold get_statistics. rewrite get_statistics_frame by exact Hnd.
  eexists. split; [reflexivity|].
  cbn [numeric_summary categorical_columns numeric_columns categorical_summary].
  split; [|split; [|split; [|split; [|split]]]].
  - intros column dt vs Hin. split.
    + apply numeric_cols_In. eauto.
    + intros H. apply object_cols_In in H. destruct H as [s' [Hin' Hs']].
      rewrite <- (column_unique df column _ s' Hnd Hin Hin') in Hs'. discriminate.
  - intros column ws Hin. split.
    + apply object_cols_In. eauto.
    + intros H. apply numeric_cols_In in H. destruct H as [s' [Hin' Hs']].
      rewrite <- (column_unique df column _ s' Hnd Hin Hin') in Hs'. discriminate.
  - apply dict_keys_map.
  - intros column t Hget. rewrite dict_get_map in Hget.
    destruct (in_dec string_dec column (firstn 5 (object_cols df))) as [Hc|]; [|discriminate].
    apply firstn_In_list in Hc. apply object_cols_In in Hc. destruct Hc as [s [Hin Hs]].
    rewrite (getitem_In df column s Hnd Hin) in Hget. assert (Ht : firstn 10 (value_counts s) = t) by congruence. clear Hget. subst t.
    exists s. split; [exact Hin|]. split; [reflexivity|].
    split; [apply firstn_le_length|].
    split; [apply firstn_StronglySorted, value_counts_descending|].
    split; [apply counts_table_firstn, value_counts_table|]. split.
    + intros k n Hk. apply firstn_In_list in Hk. now apply value_counts_occurrences.
    + intros Hlen. rewrite firstn_all2 by exact Hlen. apply value_counts_total.
  - intros ->. reflexivity.
  - intros Hne.
    exists (map (fun i =>
                   map (fun c => (c, nth i (describe_column np_sqrt (column_numbers df c)) NaN))
                       (numeric_cols df))
                (seq 0 8)).
    split.
    { destruct (numeric_cols df); [congruence|reflexivity]. }
    split; [now rewrite length_map, length_seq|]. split.
    + apply Forall_forall. intros r Hr. apply in_map_iff in Hr.
      destruct Hr as [i [<- _]]. apply dict_keys_map.
    + intros column dt vs Hin.
      assert (Hc : In column (numeric_cols df)).
      { apply numeric_cols_In. eauto. }
      assert (Hd : column_numbers df column = numbers vs).
      { unfold column_numbers. now rewrite (getitem_In df column _ Hnd Hin). }
      simpl. rewrite !dict_get_map_In by exact Hc. rewrite Hd. reflexivity.
Qed.

(** The sample: x and empty are numeric, cat and constant categorical;
    A comes first among the values of cat, with 4 rows. *)
Lemma get_statistics_summary_witness :
  NoDup (columns reference_sample) /\
  exists st,
    get_statistics sample_sqrt (PyFrame reference_sample) = (Report st, []) /\
    numeric_columns st = ["x"; "empty"]%string /\
    dict_get (categorical_summary st) "cat" = Some [(Str "A", 4%Z); (Str "B", 2%Z)].
Proof.
  assert (Hnd : NoDup (columns reference_sample)) by exact (proj1 well_formed_reference_sample).
  split; [exact Hnd|].
  destruct (get_statistics_summary sample_sqrt reference_sample Hnd) as (st & Hst & _).
  exists st. split; [exact Hst|].
  vm_compute in Hst. inversion Hst; subst st. split; reflexivity.
Defined.

(* ================================================================= *)
(** * Quartiles and outliers *)

Lemma sort_values_Forall (P : Q -> Prop) (l : list Q) :
  Forall P l -> Forall P (sort_values l).
Proof.
  induction 1; simpl; [constructor|]. now apply insert_sorted_Forall.
Qed.

Lemma quantile_between (data : list Q) (q lo hi : Q) :
  data <> [] -> 0 <= q <= 1 ->
  Forall (fun v => lo <= v <= hi) data ->
  lo <= quantile data q <= hi.
Proof.
  intros Hne [Hq0 Hq1] Hall. unfold quantile.
  assert (Hlen : (0 < List.length data)%nat).
  { destruct data; [congruence|simpl; lia]. }
  assert (Htop : 0 <= inject_Z (Z.of_nat (List.length data - 1))).
  { change 0 with (inject_Z 0). rewrite <- Zle_Qle. lia. }
  pose proof (sort_values_sorted data) as Hsorted.
  pose proof (sort_values_length data) as Hslen.
  pose proof (sort_values_Forall _ data Hall) as Hs.
  set (s := sort_values data) in *.
  set (pos := q * inject_Z (Z.of_nat (List.length data - 1))).
  assert (Hpos : 0 <= pos <= top_position s).
  { unfold top_position, pos. rewrite Hslen.
    set (t := inject_Z (Z.of_nat (List.length data - 1))) in *. split; nra. }
  assert (Hs0 : (0 < List.length s)%nat) by lia.
  destruct (floor_position s Hs0 pos Hpos) as (Hlo & _).
  destruct (interpolate_between s Hsorted Hs0 pos Hpos) as [Hdown Hup].
  rewrite Forall_forall in Hs.
  assert (Hi : forall i, (i < List.length s)%nat -> lo <= nth i s 0 <= hi).
  { intros i Hi. apply Hs. now apply nth_In. }
  destruct (Hi (Z.to_nat (Qfloor pos))) as [Ha _]; [lia|].
  destruct (Hi (Nat.min (S (Z.to_nat (Qfloor pos))) (List.length s - 1))) as [_ Hb]; [lia|].
  split; lra.
Qed.

Lemma round2_zero (x : Q) : x == 0 -> round2 x == 0.
Proof.
  intros Hx. unfold round2.
  pose proof (round_half_even_near (x * 100)) as Hn.
  apply Qabs_Qle_condition in Hn. destruct Hn as [Hlo Hhi].
  set (k := round_half_even (x * 100)) in *.
  assert (Hk0 : - (1 # 2) <= inject_Z k) by lra.
  assert (Hk1 : inject_Z k <= 1 # 2) by lra.
  assert (Hz : k = 0%Z).
  { unfold Qle in Hk0, Hk1. cbn in Hk0, Hk1. lia. }
  rewrite Hz. reflexivity.
Qed.

(** X4.  For a numeric column with at least one non-missing value, in
    a dataset with distinct column names, detect_outliers places the
    first and the third quartile between its two bounds, and both
    quartiles within any range that holds the values; a value between
    the quartiles is never counted as an outlier; the count is at most
    the number of non-missing values, and the percentage lies between 0
    and 100; when all values are equal, both bounds are that value and
    no outlier is counted. *)
Theorem detect_outliers_quartiles (df : DataFrame) (column : string)
  (dt : numeric_dtype) (vs : list (option Q)) :
  NoDup (columns df) ->
  In (column, Numeric dt vs) df ->
  numbers vs <> [] ->
  exists info,
    dict_get (fst (detect_outliers (PyFrame df))) column = Some info /\
    let col_data := numbers vs in
    let Q1 := quantile col_data (25 # 100) in
    let Q3 := quantile col_data (75 # 100) in
    lower_bound info <= Q1 /\ Q1 <= Q3 /\ Q3 <= upper_bound info /\
    (forall lo hi, Forall (fun v => lo <= v <= hi) col_data -> lo <= Q1 /\ Q3 <= hi) /\
    (forall v, Q1 <= v <= Q3 ->
               ~ In v (outliers col_data (lower_bound info) (upper_bound info))) /\
    (0 <= outlier_count info <= Z.of_nat (List.length col_data))%Z /\
    0 <= outlier_percentage info <= 100 /\
    (forall c, Forall (fun v => v == c) col_data ->
               lower_bound info == c /\ upper_bound info == c /\
               outlier_count info = 0%Z /\ outlier_percentage info == 0).
Proof.
  intros Hnd Hin Hne.
  exists (outlier_info (numbers vs)). split.
  { rewrite detect_outliers_entry by exact Hnd.
    destruct (in_dec string_dec column (numeric_cols df)) as [_|Hn].
    - unfold outlier_entry. rewrite (getitem_In df column _ Hnd Hin).
      destruct (numbers vs); [congruence|reflexivity].
    - exfalso. apply Hn, numeric_cols_In. eauto. }
  cbv zeta. unfold outlier_info. cbn [lower_bound upper_bound outlier_count outlier_percentage].
  set (col_data := numbers vs) in *.
  assert (Hlen : (0 < List.length col_data)%nat).
  { destruct col_data; [congruence|simpl; lia]. }
  assert (H13 : quantile col_data (25 # 100) <= quantile col_data (75 # 100)).
  { apply quantile_monotone; [exact Hne|lra..]. }
  set (Q1 := quantile col_data (25 # 100)) in *.
  set (Q3 := quantile col_data (75 # 100)) in *.
  set (lb := Q1 - (15 # 10) * (Q3 - Q1)).
  set (ub := Q3 + (15 # 10) * (Q3 - Q1)).
  assert (Hlb : lb <= Q1) by (unfold lb; lra).
  assert (Hub : Q3 <= ub) by (unfold ub; lra).
  pose proof (filter_length_le (fun v => Qlt_bool v lb || Qlt_bool ub v) col_data) as Hcount.
  fold (outliers col_data lb ub) in Hcount.
  split; [exact Hlb|]. split; [exact H13|]. split; [exact Hub|].
  split; [|split; [|split; [|split]]].
  - intros lo hi Hall.
    destruct (quantile_between col_data (25 # 100) lo hi Hne) as [H _]; [lra|exact Hall|].
    destruct (quantile_between col_data (75 # 100) lo hi Hne) as [_ H']; [lra|exact Hall|].
    split; assumption.
  - intros v Hv Ho. apply outliers_In in Ho. destruct Ho as [_ [Ho|Ho]]; lra.
  - lia.
  - apply round2_between. apply ratio_percentage; [exact Hcount|exact Hlen].
  - intros c Hc.
    assert (Hcc : Forall (fun v => c <= v <= c) col_data).
    { eapply Forall_impl; [|exact Hc]. simpl. intros v Hv. rewrite Hv. lra. }
    destruct (quantile_between col_data (25 # 100) c c Hne) as [H1 H1']; [lra|exact Hcc|].
    destruct (quantile_between col_data (75 # 100) c c Hne) as [H3 H3']; [lra|exact Hcc|].
    fold Q1 in H1, H1'. fold Q3 in H3, H3'.
    assert (Hl : lb == c) by (unfold lb; lra).
    assert (Hu : ub == c) by (unfold ub; lra).
    assert (Hnone : outliers col_data lb ub = []).
    { unfold outliers. apply filter_none. intros v Hv.
      rewrite Forall_forall in Hc. specialize (Hc v Hv).
      apply orb_false_iff. split.
      - destruct (Qlt_bool v lb) eqn:E; [|reflexivity]. apply Qlt_bool_iff in E. lra.
      - destruct (Qlt_bool ub v) eqn:E; [|reflexivity]. apply Qlt_bool_iff in E. lra. }
    split; [exact Hl|]. split; [exact Hu|]. rewrite Hnone. simpl List.length.
    split; [reflexivity|]. apply round2_zero.
    change (inject_Z (Z.of_nat 0)) with 0. field.
    intros H0. assert (0 < inject_Z (Z.of_nat (List.length col_data))).
    { change 0 with (inject_Z 0). rewrite <- Zlt_Qlt. lia. }
    lra.
Qed.

(** The sample column x = 1, 2, 3, 4, 5, 100: one outlier out of six
    values, 16.67 percent. *)
Lemma detect_outliers_quartiles_witness :
  NoDup (columns reference_sample) /\
  In ("x"%string, Numeric Int64 [Some 1; Some 2; Some 3; Some 4; Some 5; Some 100])
     reference_sample /\
  numbers [Some 1; Some 2; Some 3; Some 4; Some 5; Some 100] <> [] /\
  exists info,
    dict_get (fst (detect_outliers (PyFrame reference_sample))) "x" = Some info /\
    0 <= outlier_percentage info <= 100 /\
    outlier_percentage info == 1667 # 100.
Proof.
  assert (Hnd : NoDup (columns reference_sample)) by exact (proj1 well_formed_reference_sample).
  assert (Hin : In ("x"%string, Numeric Int64 [Some 1; Some 2; Some 3; Some 4; Some 5; Some 100])
                   reference_sample) by (simpl; auto).
  assert (Hne : numbers [Some 1; Some 2; Some 3; Some 4; Some 5; Some 100] <> [])
    by discriminate.
  split; [exact Hnd|]. split; [exact Hin|]. split; [exact Hne|].
  destruct (detect_outliers_quartiles reference_sample "x" Int64 _ Hnd Hin Hne)
    as (info & Hget & _ & _ & _ & _ & _ & _ & Hpct & _).
  exists info. split; [exact Hget|]. split; [exact Hpct|].
  vm_compute in Hget. inversion Hget. reflexivity.
Defined.

(* ================================================================= *)
(** * spark_processor.py: clean_data and get_basic_stats *)

Lemma first_occurrences_rows (row : nat -> list cell) (positions : list nat)
  (seen : list (list cell)) :
  map row (first_occurrences row seen positions)
  = drop_duplicates_from seen (map row positions).
Proof.
  revert seen. induction positions as [|i ps IH]; intros seen; simpl; [reflexivity|].
  destruct (existsb (row_eqb (row i)) seen); simpl; now rewrite IH.
Qed.

Lemma cells_take (positions : list nat) (s : Series) :
  cells (series_take positions s) = map (fun i => nth i (cells s) NA) positions.
Proof.
  destruct s as [dt vs|vs]; simpl; rewrite map_map; apply map_ext; intros i.
  - now rewrite <- (map_nth (fun v : option Q => match v with Some x => Num x | None => NA end)).
  - now rewrite <- (map_nth (fun v : option string =>
                               match v with Some x => Str x | None => NA end)).
Qed.

Lemma map_nth_seq {A : Type} (l : list A) (d : A) :
  map (fun j => nth j l d) (seq 0 (List.length l)) = l.
Proof.
  induction l as [|a l IH]; simpl; [reflexivity|].
  f_equal. rewrite <- seq_shift, map_map. exact IH.
Qed.

Lemma frame_take_rows (df : DataFrame) (positions : list nat) :
  df <> [] ->
  rows (map (fun c => (fst c, series_take positions (snd c))) df)
  = map (iloc df) positions.
Proof.
  intros Hne. unfold rows.
  assert (Hlen : len (map (fun c => (fst c, series_take positions (snd c))) df)
                 = List.length positions).
  { destruct df as [|[a s] df]; [congruence|]. simpl. unfold len_series.
    now rewrite cells_take, length_map. }
  rewrite Hlen.
  rewrite <- (map_nth_seq positions O) at 2. rewrite map_map.
  apply map_ext_in. intros j Hj. apply in_seq in Hj.
  unfold iloc. rewrite map_map. apply map_ext. intros c. simpl.
  rewrite cells_take.
  rewrite (nth_indep _ NA (nth 0 (cells (snd c)) NA)) by (rewrite length_map; lia).
  now rewrite (map_nth (fun i => nth i (cells (snd c)) NA)).
Qed.

Lemma frame_drop_duplicates_rows (df : DataFrame) :
  rows (frame_drop_duplicates df) = drop_duplicates (rows df).
Proof.
  destruct df as [|c df]; [reflexivity|].
  unfold frame_drop_duplicates. rewrite frame_take_rows by discriminate.
  now rewrite first_occurrences_rows.
Qed.

Lemma frame_drop_duplicates_columns (df : DataFrame) :
  map (fun c => (fst c, dtype_name (snd c))) (frame_drop_duplicates df)
  = map (fun c => (fst c, dtype_name (snd c))) df.
Proof.
  unfold frame_drop_duplicates. rewrite map_map. apply map_ext.
  intros [a [[|] vs|vs]]; reflexivity.
Qed.

Lemma drop_duplicates_from_distinct (rs seen : list (list cell)) :
  NoDupA row_eq rs ->
  (forall r, InA row_eq r rs -> ~ InA row_eq r seen) ->
  drop_duplicates_from seen rs = rs.
Proof.
  revert seen. induction rs as [|r rs IH]; intros seen Hnd Hseen; simpl; [reflexivity|].
  inversion Hnd as [|? ? Hr Hnd']; subst.
  destruct (existsb (row_eqb r) seen) eqn:E.
  - apply existsb_row_eqb in E. exfalso. apply (Hseen r); [|exact E].
    constructor. apply row_eqb_refl.
  - f_equal. apply IH; [exact Hnd'|].
    intros r' Hr' Hin. inversion Hin as [? ? Heq|? ? Hin']; subst.
    + apply Hr. revert Hr'. apply InA_eqA; [apply row_eq_equivalence|exact Heq].
    + apply (Hseen r'); [now constructor 2|exact Hin'].
Qed.

Lemma drop_duplicates_idempotent (rs : list (list cell)) :
  drop_duplicates (drop_duplicates rs) = drop_duplicates rs.
Proof.
  unfold drop_duplicates. apply drop_duplicates_from_distinct.
  - apply drop_duplicates_from_NoDupA.
  - intros r _ H. inversion H.
Qed.

Lemma drop_duplicates_nonempty (rs : list (list cell)) :
  rs <> [] -> drop_duplicates rs <> [].
Proof. destruct rs; [congruence|discriminate]. Qed.

(** X5.  clean_data returns a frame and logs nothing; the frame has the
    columns of the dataset, with their types; its rows are the rows of
    the dataset without those equal to an earlier row: no two of them
    are equal and every row of the dataset equals one of them; a
    dataset with rows keeps at least one.  check_duplicates finds no
    duplicate in the cleaned frame, whose number of rows is the
    unique_rows that check_duplicates reports for the dataset; cleaning
    the cleaned frame removes nothing.  When the argument is not a
    frame, the handler returns the argument and logs one line. *)
Theorem clean_data_removes_duplicates (df : DataFrame) :
  (exists df_clean,
      SparkDataProcessor.clean_data (PyFrame df) = (PyFrame df_clean, []) /\
      map (fun c => (fst c, dtype_name (snd c))) df_clean
        = map (fun c => (fst c, dtype_name (snd c))) df /\
      rows df_clean = drop_duplicates (rows df) /\
      distinct_rows (rows df) (rows df_clean) /\
      (len df_clean <= len df)%nat /\
      (len df = 0%nat <-> len df_clean = 0%nat) /\
      (exists r r',
          check_duplicates (PyFrame df) = (Report r, []) /\
          check_duplicates (PyFrame df_clean) = (Report r', []) /\
          unique_rows r = Z.of_nat (len df_clean) /\
          total_rows r' = Z.of_nat (len df_clean) /\
          unique_rows r' = total_rows r' /\
          duplicate_count r' = 0%Z /\
          duplicate_percentage r' == 0) /\
      exists df_again,
        SparkDataProcessor.clean_data (PyFrame df_clean) = (PyFrame df_again, []) /\
        rows df_again = rows df_clean) /\
  SparkDataProcessor.clean_data PyNone
  = (PyNone, ["Error cleaning data: 'NoneType' object has no attribute 'drop_duplicates'"%string]).
Proof.
  split; [|reflexivity].
  exists (frame_drop_duplicates df).
  pose proof (frame_drop_duplicates_rows df) as Hrows.
  assert (Hlen : len (frame_drop_duplicates df) = List.length (drop_duplicates (rows df))).
  { now rewrite <- Hrows, rows_length. }
  pose proof (drop_duplicates_from_length (rows df) []) as Hle.
  fold (drop_duplicates (rows df)) in Hle. rewrite rows_length in Hle.
  split; [reflexivity|]. split; [apply frame_drop_duplicates_columns|].
  split; [exact Hrows|]. split; [rewrite Hrows; apply drop_duplicates_distinct|].
  split; [lia|]. split.
  { rewrite Hlen. rewrite <- (rows_length df). destruct (rows df); simpl; [tauto|].
    split; discriminate. }
  split.
  - eexists. eexists. split; [reflexivity|]. split; [reflexivity|]. simpl.
    rewrite Hrows, drop_duplicates_idempotent, <- Hlen.
    split; [reflexivity|]. split; [reflexivity|]. split; [reflexivity|].
    split; [lia|].
    destruct (0 <? Z.of_nat (len (frame_drop_duplicates df)))%Z eqn:E; [|reflexivity].
    apply round2_zero. rewrite Z.sub_diag. apply Z.ltb_lt in E.
    change (inject_Z 0) with 0. field.
    intros H0. assert (0 < inject_Z (Z.of_nat (len (frame_drop_duplicates df)))).
    { change 0 with (inject_Z 0). rewrite <- Zlt_Qlt. exact E. }
    lra.
  - exists (frame_drop_duplicates (frame_drop_duplicates df)).
    split; [reflexivity|].
    now rewrite frame_drop_duplicates_rows, Hrows, drop_duplicates_idempotent.
Qed.

Lemma select_dtypes_numeric (df : DataFrame) :
  select_dtypes ["int64"; "float64"]%string df = numeric_cols df.
Proof.
  unfold select_dtypes, numeric_cols. f_equal. apply filter_ext.
  intros [a [[|] vs|vs]]; reflexivity.
Qed.

(** X6.  On a dataset with distinct column names, get_basic_stats
    returns a report and logs nothing.  column_types is the dict that
    check_data_types returns: the name of the type of every column.
    numeric_summary is absent without a column of type int64 or
    float64; otherwise it has one entry per such column, in the order of
    the columns, which gives under count, mean, std, min, 25%, 50%, 75%
    and max the summary of the non-missing values of the column. *)
Theorem get_basic_stats_summary (np_sqrt : Q -> Q) (df : DataFrame) :
  NoDup (columns df) ->
  exists st,
    SparkDataProcessor.get_basic_stats np_sqrt (PyFrame df) = (Report st, []) /\
    SparkDataProcessor.column_types st = fst (check_data_types (PyFrame df)) /\
    (forall column s,
        In (column, s) df ->
        dict_get (SparkDataProcessor.column_types st) column = Some (dtype_name s)) /\
    (numeric_cols df = [] -> SparkDataProcessor.basic_numeric_summary st = None) /\
    (numeric_cols df <> [] ->
     exists summary,
       SparkDataProcessor.basic_numeric_summary st = Some summary /\
       dict_keys summary = numeric_cols df /\
       forall column dt vs,
         In (column, Numeric dt vs) df ->
         exists stats,
           dict_get summary column = Some stats /\
           dict_keys stats = SparkDataProcessor.describe_index /\
           dict_values stats = describe_column np_sqrt (numbers vs)).
Proof.
  intros Hnd.
  assert (Hdesc : SparkDataProcessor.describe_dict np_sqrt df (numeric_cols df)
                  = Returned (map (fun c => (c, combine SparkDataProcessor.describe_index
                                                  (describe_column np_sqrt (column_numbers df c))))
                                  (numeric_cols df))).
  { unfold SparkDataProcessor.describe_dict.
    apply (for_each_columns df).
    - apply NoDup_map_filter. exact Hnd.
    - intros st c Hc. destruct (numeric_column_data df c Hnd Hc) as [s [Hs Hd]].
      rewrite Hs. simpl. rewrite Hd. reflexivity. }
  unfold SparkDataProcessor.get_basic_stats, SparkDataProcessor.get_basic_stats_body.
  rewrite select_dtypes_numeric, Hdesc.
  exists {| SparkDataProcessor.column_types :=
              fold_left (fun d c => dict_set d (fst c) (dtype_name (snd c))) df [];
            SparkDataProcessor.basic_numeric_summary :=
              match numeric_cols df with
              | [] => None
              | _ => Some (map (fun c => (c, combine SparkDataProcessor.describe_index
                                               (describe_column np_sqrt (column_numbers df c))))
                               (numeric_cols df))
              end |}.
  split; [destruct (numeric_cols df); reflexivity|].
  cbn [SparkDataProcessor.column_types SparkDataProcessor.basic_numeric_summary].
  split; [reflexivity|]. split; [|split].
  - intros column s Hin. rewrite dtypes_items by exact Hnd. now apply dtypes_entry.
  - intros ->. reflexivity.
  - intros Hne.
    exists (map (fun c => (c, combine SparkDataProcessor.describe_index
                                (describe_column np_sqrt (column_numbers df c))))
                (numeric_cols df)).
    split.
    { destruct (numeric_cols df); [congruence|reflexivity]. }
    split; [apply dict_keys_map|].
    intros column dt vs Hin.
    assert (Hc : In column (numeric_cols df)).
    { apply numeric_cols_In. eauto. }
    assert (Hd : column_numbers df column = numbers vs).
    { unfold column_numbers. now rewrite (getitem_In df column _ Hnd Hin). }
    eexists. split; [rewrite dict_get_map_In by exact Hc; reflexivity|].
    rewrite Hd. split; reflexivity.
Qed.

Lemma get_basic_stats_summary_witness :
  NoDup (columns reference_sample) /\
  exists st,
    SparkDataProcessor.get_basic_stats sample_sqrt (PyFrame reference_sample) = (Report st, []) /\
    dict_get (SparkDataProcessor.column_types st) "cat" = Some "object"%string.
Proof.
  assert (Hnd : NoDup (columns reference_sample)) by exact (proj1 well_formed_reference_sample).
  split; [exact Hnd|].
  destruct (get_basic_stats_summary sample_sqrt reference_sample Hnd) as (st & Hst & _ & Hty & _).
  exists st. split; [exact Hst|].
  apply (Hty "cat"%string (Object [Some "A"; Some "A"; Some "B"; Some "A"; Some "A"; Some "B"]%string)).
  simpl. auto.
Defined.

(* ================================================================= *)
(** * The Kolmogorov-Smirnov test of a column *)

Lemma cdf_unit (data : list Q) (x : Q) : 0 <= cdf data x <= 1.
Proof.
  destruct data as [|y data].
  - split; discriminate.
  - unfold cdf, searchsorted_right.
    pose proof (filter_length_le (fun v => leb (Fin v) (Fin x)) (y :: data)) as Hle.
    assert (Hn : (0 < List.length (y :: data))%nat) by (simpl; lia).
    destruct (ratio_percentage _ _ Hle Hn) as [H0 H1].
    split; lra.
Qed.

Lemma clip01_unit (x : Q) : 0 <= clip01 x <= 1.
Proof.
  unfold clip01. split.
  - apply Q.min_glb; [apply Q.le_max_r|lra].
  - apply Q.le_min_r.
Qed.

Lemma ks_statistic_unit (x y : list Q) : 0 <= ks_statistic x y <= 1.
Proof.
  unfold ks_statistic.
  set (cddiffs := map (fun v => cdf x v - cdf y v) (x ++ y)).
  assert (H : Forall (fun d => -(1) <= d <= 1) cddiffs).
  { apply Forall_forall. intros d Hd. apply in_map_iff in Hd.
    destruct Hd as [v [<- _]].
    pose proof (cdf_unit x v). pose proof (cdf_unit y v). split; lra. }
  destruct cddiffs as [|d ds]; [split; lra|].
  inversion H as [|? ? Hd Hds]; subst.
  pose proof (Qmax_list_between (-(1)) 1 d ds Hd Hds) as Hmax.
  pose proof (clip01_unit (- Qmin_list d ds)) as Hclip.
  split.
  - eapply Qle_trans; [|apply Q.le_max_l]. tauto.
  - apply Q.max_lub; tauto.
Qed.

Lemma calculate_psi_numeric_columns (np_log : Q -> Q) (dt dt' : numeric_dtype)
  (vs vs' : list (option Q)) :
  _calculate_psi np_log (Numeric dt vs) (Numeric dt' vs') =
  (match numbers vs, numbers vs' with
   | [], _ | _, [] => NaN
   | _, _ => Fin (psi_spec np_log (numbers vs) (numbers vs'))
   end, []).
Proof.
  destruct (numbers vs) as [|x l] eqn:Er.
  { unfold _calculate_psi, calculate_psi_body. cbn [to_floats bind]. rewrite Er.
    reflexivity. }
  destruct (numbers vs') as [|y l'] eqn:Et.
  { unfold _calculate_psi, calculate_psi_body. cbn [to_floats bind]. rewrite Er, Et.
    reflexivity. }
  rewrite calculate_psi_numeric by (rewrite ?Er, ?Et; discriminate).
  rewrite Er, Et. reflexivity.
Qed.

(** A column of strings, once its missing cells are dropped, either is
    empty or cannot be read as numbers. *)
Lemma to_floats_dropna_object (ws : list (option string)) :
  (len_series (dropna (Object ws)) = 0%nat /\ dropna (Object ws) = Object []) \/
  (len_series (dropna (Object ws)) <> 0%nat /\
   exists e, to_floats (dropna (Object ws)) = Raised e).
Proof.
  cbn [dropna]. unfold len_series. cbn [cells]. rewrite length_map.
  destruct (filter (fun v : option string =>
                      match v with Some _ => true | None => false end) ws)
    as [|v l] eqn:Ef.
  - left. split; reflexivity.
  - right. split; [discriminate|].
    assert (Hv : In v (v :: l)) by now left.
    rewrite <- Ef in Hv. apply filter_In in Hv. destruct Hv as [_ Hv].
    cbn [to_floats existsb]. rewrite Hv. eexists. reflexivity.
Qed.

(** X7.  The test of a numeric reference column, by what the target
    dataset holds under the same name.  The result always carries the
    name of the column and the test type KS Test.  When the target
    column holds strings, the result is the one of the handler: not
    flagged, score 0, an error note, and the line of the handler ends
    the log; it is the only line when the reference column has a
    non-missing value.  When the target column is numeric and one of
    the two columns has no non-missing value, the test completes: the
    statistic, the p-value and the stability index are nan, the column
    is not flagged, no error is noted and nothing is logged.
    When both columns are numeric with a non-missing value, the score
    is the Kolmogorov-Smirnov statistic of the non-missing values,
    between 0 and 1; the column is flagged exactly when the p-value is
    below the threshold; means and standard deviations are those of
    the non-missing values, and nothing is logged. *)
Theorem ks_test_outcomes (np_log np_sqrt : Q -> Q) (ks_pvalue : Q -> nat -> nat -> num)
  (threshold : num) (ref target : DataFrame) (column : string)
  (dt : numeric_dtype) (vs : list (option Q)) (target_col : Series) :
  getitem ref column = Returned (Numeric dt vs) ->
  getitem target column = Returned target_col ->
  let r := fst (_ks_test np_log np_sqrt ks_pvalue threshold ref target column) in
  let log := snd (_ks_test np_log np_sqrt ks_pvalue threshold ref target column) in
  column_name r = column /\ test_type r = "KS Test"%string /\
  ((exists ws, target_col = Object ws) -> len_series (dropna target_col) <> 0%nat ->
   exists e,
     error_note r = Some e /\ has_drift r = false /\ drift_score r = Fin 0 /\
     last log ""%string = ("Error in KS test for column " ++ column ++ ": " ++ e)%string /\
     (numbers vs <> [] ->
      log = [("Error in KS test for column " ++ column ++ ": " ++ e)%string])) /\
  (forall dt' vs',
      target_col = Numeric dt' vs' -> numbers vs = [] \/ numbers vs' = [] ->
      error_note r = None /\ has_drift r = false /\ drift_score r = NaN /\
      p_value r = Some NaN /\ psi_score r = Some NaN /\ log = []) /\
  (forall dt' vs',
      target_col = Numeric dt' vs' -> numbers vs <> [] -> numbers vs' <> [] ->
      let d := ks_statistic (numbers vs) (numbers vs') in
      let p := ks_pvalue d (List.length (numbers vs)) (List.length (numbers vs')) in
      0 <= d <= 1 /\
      drift_score r = Fin d /\ has_drift r = ltb p threshold /\
      detail r = KSDetail p (Fin (psi_spec np_log (numbers vs) (numbers vs')))
                   (series_mean (numbers vs)) (series_mean (numbers vs'))
                   (series_std np_sqrt (numbers vs)) (series_std np_sqrt (numbers vs')) /\
      log = []).
Proof.
  intros Hgr Hgt. cbv zeta. unfold _ks_test, ks_test_body. rewrite Hgr, Hgt.
  destruct target_col as [dt' vs'|ws].
  - (* numbers in the target *)
    rewrite ks_2samp_numeric_columns.
    cbn [dropna]. rewrite calculate_psi_numeric_columns.
    cbn [to_floats bind fst snd]. rewrite !numbers_dropna.
    split; [reflexivity|]. split; [reflexivity|]. split; [|split].
    + intros [ws Hws]. discriminate.
    + intros dt'' vs'' Heq [Hne|Hne]; inversion Heq; subst dt'' vs''.
      * rewrite Hne. repeat split.
      * rewrite Hne. destruct (numbers vs); repeat split.
    + intros dt'' vs'' Heq Hne Hne'. inversion Heq; subst dt'' vs''.
      destruct (numbers vs) as [|x l] eqn:Er; [congruence|].
      destruct (numbers vs') as [|y l'] eqn:Et; [congruence|].
      cbn [fst snd drift_score has_drift detail].
      split; [apply ks_statistic_unit|]. repeat split.
  - (* strings in the target *)
    destruct (to_floats_dropna_object ws) as [[Hlen Hdrop]|[Hlen [e He]]].
    + (* none of them present *)
      rewrite Hdrop. unfold ks_2samp. cbn [len_series cells map List.length Nat.eqb].
      rewrite orb_true_r.
      unfold _calculate_psi, calculate_psi_body.
      cbn [dropna to_floats existsb bind fst snd].
      replace (match numbers (filter (fun v : option Q =>
                                        match v with Some _ => true | None => false end) vs)
               with [] => Returned NaN | _ :: _ => Returned NaN end)
        with (@Returned num NaN) by (now destruct (numbers _)).
      cbn [fst snd].
      split; [reflexivity|]. split; [reflexivity|]. split; [|split].
      * intros _ Hne. contradiction.
      * intros dt' vs' Heq. discriminate.
      * intros dt' vs' Heq. discriminate.
    + (* one of them present *)
      cbv beta zeta. unfold ks_2samp. rewrite dropna_numeric_length.
      apply Nat.eqb_neq in Hlen. rewrite Hlen, orb_false_r.
      rewrite !He.
      destruct (Nat.eqb (List.length (numbers vs)) 0) eqn:E0;
        cbn [dropna to_floats bind fst snd column_name test_type].
      * split; [reflexivity|]. split; [reflexivity|]. split; [|split].
        -- intros _ _. exists e. split; [reflexivity|]. split; [reflexivity|].
           split; [reflexivity|]. split; [apply last_last|].
           intros Hne. apply Nat.eqb_eq in E0. apply length_zero_iff_nil in E0.
           contradiction.
        -- intros dt' vs' Heq. discriminate.
        -- intros dt' vs' Heq. discriminate.
      * split; [reflexivity|]. split; [reflexivity|]. split; [|split].
        -- intros _ _. exists e. repeat split.
        -- intros dt' vs' Heq. discriminate.
        -- intros dt' vs' Heq. discriminate.
Qed.

(** The sample column x: both datasets hold numbers, the statistic is
    1/6. *)
Lemma ks_test_outcomes_witness :
  getitem reference_sample "x"
    = Returned (Numeric Int64 [Some 1; Some 2; Some 3; Some 4; Some 5; Some 100]) /\
  getitem target_sample "x"
    = Returned (Numeric Int64 [Some 1; Some 2; Some 3; Some 4; Some 5; Some 7]) /\
  let r := fst (_ks_test sample_log sample_sqrt sample_ks_pvalue default_threshold
                  reference_sample target_sample "x") in
  exists d, drift_score r = Fin d /\ 0 <= d <= 1 /\ d == 1 # 6.
Proof.
  split; [reflexivity|]. split; [reflexivity|]. cbv zeta.
  destruct (ks_test_outcomes sample_log sample_sqrt sample_ks_pvalue default_threshold
              reference_sample target_sample "x" Int64
              [Some 1; Some 2; Some 3; Some 4; Some 5; Some 100]
              (Numeric Int64 [Some 1; Some 2; Some 3; Some 4; Some 5; Some 7])
              eq_refl eq_refl) as (_ & _ & _ & _ & H).
  destruct (H Int64 [Some 1; Some 2; Some 3; Some 4; Some 5; Some 7] eq_refl)
    as (Hd & Hscore & _); [discriminate|discriminate|].
  eexists. split; [exact Hscore|]. split; [exact Hd|]. vm_compute. reflexivity.
Defined.

(* ================================================================= *)
(** * The sign of the drift scores *)

Lemma np_sum_nonneg_or_pinf (l : list num) :
  Forall nonneg_or_pinf l -> nonneg_or_pinf (np_sum l).
Proof.
  unfold np_sum. assert (H0 : nonneg_or_pinf (Fin 0)) by (simpl; lra).
  revert H0. generalize (Fin 0).
  induction l as [|x l IH]; intros acc Hacc Hl; simpl; [exact Hacc|].
  inversion Hl as [|? ? Hx Hl']; subst. apply IH; [|exact Hl'].
  destruct acc, x; simpl in *; try tauto. lra.
Qed.

Lemma np_mean_nonneg_or_pinf (l : list num) :
  l <> [] -> Forall nonneg_or_pinf l -> nonneg_or_pinf (np_mean l).
Proof.
  intros Hne Hl. unfold np_mean. pose proof (np_sum_nonneg_or_pinf l Hl) as Hs.
  assert (Hn : 0 < inject_Z (Z.of_nat (List.length l))).
  { destruct l; [congruence|]. change 0 with (inject_Z 0). rewrite <- Zlt_Qlt.
    simpl List.length. lia. }
  unfold of_nat, div.
  destruct (np_sum l) as [q| | |]; simpl in Hs; try contradiction.
  - destruct (Qeq_bool (inject_Z (Z.of_nat (List.length l))) 0) eqn:E.
    + apply Qeq_bool_eq in E. lra.
    + simpl. apply Qle_shift_div_l; lra.
  - replace (Qle_bool 0 (inject_Z (Z.of_nat (List.length l)))) with true; [exact I|].
    symmetry. apply Qle_bool_iff. lra.
Qed.

Lemma chisquare_statistic_nonneg (merged : list merged_row) :
  Forall joined_row merged ->
  nonneg_or_pinf (chisquare_statistic (map count_target merged) (map count_ref merged)).
Proof.
  intros H. apply np_sum_nonneg_or_pinf. unfold chisquare_terms.
  induction H as [|row merged Hrow Hm IH]; simpl; constructor; auto.
  destruct Hrow as [Hpos|[Hz Hpos]].
  - destruct (Qeq_bool (count_ref row) 0) eqn:E.
    + apply Qeq_bool_eq in E. lra.
    + simpl. apply Qle_shift_div_l; [exact Hpos|]. rewrite Qmult_0_l.
      set (u := count_target row - count_ref row). clearbody u.
      destruct (Qlt_le_dec u 0); nra.
  - rewrite Hz. change (Qeq_bool 0 0) with true. cbn iota.
    unfold signed_inf.
    destruct (Qcompare_spec ((count_target row - 0) * (count_target row - 0)) 0) as [E|E|E].
    + exfalso. nra.
    + exfalso. nra.
    + exact I.
Qed.

(** The mean of numbers between 0 and 1. *)
Lemma np_mean_unit (l : list num) :
  l <> [] ->
  Forall (fun x => exists d, x = Fin d /\ 0 <= d <= 1) l ->
  exists q, np_mean l = Fin q /\ 0 <= q <= 1.
Proof.
  intros Hne Hl.
  assert (Hqs : exists qs, l = map Fin qs /\ Forall (fun d => 0 <= d <= 1) qs).
  { clear Hne. induction Hl as [|x l [d [-> Hd]] Hl [qs [-> Hqs]]].
    - exists []. split; [reflexivity|constructor].
    - exists (d :: qs). split; [reflexivity|now constructor]. }
  destruct Hqs as [qs [-> Hqs]].
  assert (Hne' : qs <> []) by (destruct qs; [contradiction|discriminate]).
  rewrite np_mean_finite by exact Hne'. eexists. split; [reflexivity|].
  assert (Hsum : 0 <= Qsum qs <= inject_Z (Z.of_nat (List.length qs))).
  { clear Hne Hne' Hl. induction Hqs as [|d qs Hd Hqs IH].
    - split; discriminate.
    - rewrite Qsum_cons. simpl List.length. rewrite Nat2Z.inj_succ.
      unfold Z.succ. rewrite inject_Z_plus. change (inject_Z 1) with 1. split; lra. }
  assert (Hn : 0 < inject_Z (Z.of_nat (List.length qs))).
  { destruct qs; [congruence|]. change 0 with (inject_Z 0). rewrite <- Zlt_Qlt.
    simpl List.length. lia. }
  split.
  - apply Qle_shift_div_l; lra.
  - apply Qle_shift_div_r; lra.
Qed.

Section Scores.

Variable np_log : Q -> Q.
Variable np_sqrt : Q -> Q.
Variable ks_pvalue : Q -> nat -> nat -> num.
Variable chi2_sf : num -> Z -> num.
Variable threshold : num.

Local Abbreviation detect_drift' := (detect_drift np_log np_sqrt ks_pvalue chi2_sf threshold).
Local Abbreviation column_outcome' :=
  (column_outcome np_log np_sqrt ks_pvalue chi2_sf threshold).

Lemma ks_test_score (ref target : DataFrame) (c : string) :
  let score := drift_score (fst (_ks_test np_log np_sqrt ks_pvalue threshold ref target c)) in
  score = NaN \/ exists d, score = Fin d /\ 0 <= d <= 1.
Proof.
  cbv zeta.
  assert (H0 : Fin 0 = NaN \/ exists d : Q, Fin 0 = Fin d /\ 0 <= d <= 1)
    by (right; exists 0; split; [reflexivity|lra]).
  unfold _ks_test, ks_test_body.
  destruct (getitem ref c) as [s|e]; [|exact H0].
  destruct (getitem target c) as [s'|e]; [|exact H0].
  unfold ks_2samp.
  destruct (Nat.eqb (len_series (dropna s)) 0 || Nat.eqb (len_series (dropna s')) 0).
  - destruct (to_floats (dropna s)) as [x|e]; [|exact H0].
    destruct (to_floats (dropna s')) as [y|e]; [|exact H0].
    left. reflexivity.
  - destruct (to_floats (dropna s)) as [x|e]; [|exact H0].
    destruct (to_floats (dropna s')) as [y|e]; [|exact H0].
    cbn [bind fst snd drift_score]. right. eexists.
    split; [reflexivity|apply ks_statistic_unit].
Qed.

Lemma chi_square_test_score (ref target : DataFrame) (c : string) :
  nonneg_or_pinf (drift_score (fst (_chi_square_test chi2_sf threshold ref target c))).
Proof.
  assert (H0 : nonneg_or_pinf (Fin 0)) by (simpl; lra).
  unfold _chi_square_test, chi_square_test_body.
  destruct (getitem ref c) as [s|e]; [|exact H0].
  destruct (getitem target c) as [s'|e]; [|exact H0].
  cbn [bind].
  destruct (merge_outer c (dtype_name s) (dtype_name s') (value_counts s) (value_counts s'))
    as [merged|e] eqn:Em; [|exact H0].
  cbn [bind]. unfold chisquare.
  destruct (Qlt_bool _ _); [exact H0|].
  cbn [bind fst snd drift_score].
  apply chisquare_statistic_nonneg.
  eapply merge_outer_rows; [| |exact Em]; apply value_counts_table.
Qed.

Lemma column_outcome_test_type (ref target : DataFrame) (c : string) (s : Series) :
  getitem ref c = Returned s ->
  test_type (fst (column_outcome' ref target c))
  = if is_numeric_dtype s then "KS Test"%string else "Chi-Square Test"%string.
Proof.
  intros Hs. unfold column_outcome, column_test. rewrite Hs.
  destruct (is_numeric_dtype s).
  - unfold _ks_test, ks_test_body. rewrite Hs.
    destruct (getitem target c) as [s'|e]; [|reflexivity].
    destruct (ks_2samp ks_pvalue (dropna s) (dropna s')); [|reflexivity].
    destruct (to_floats (dropna s)); [|reflexivity]. cbn [bind].
    destruct (to_floats (dropna s')); reflexivity.
  - unfold _chi_square_test, chi_square_test_body. rewrite Hs. cbn [bind].
    destruct (getitem target c) as [s'|e]; [|reflexivity]. cbn [bind].
    destruct (merge_outer _ _ _ _ _); [|reflexivity]. cbn [bind].
    destruct (chisquare _ _ _); reflexivity.
Qed.

Lemma column_outcome_score (ref target : DataFrame) (c : string) :
  In c (columns ref) ->
  let r := fst (column_outcome' ref target c) in
  (test_type r = "KS Test"%string ->
   drift_score r = NaN \/ exists d, drift_score r = Fin d /\ 0 <= d <= 1) /\
  (test_type r = "Chi-Square Test"%string -> nonneg_or_pinf (drift_score r)) /\
  (nonneg_or_pinf (drift_score r) \/ drift_score r = NaN).
Proof.
  intros Hc. cbv zeta. destruct (getitem_columns ref c Hc) as [s Hs].
  rewrite (column_outcome_test_type ref target c s Hs).
  unfold column_outcome, column_test. rewrite Hs.
  destruct (is_numeric_dtype s).
  - pose proof (ks_test_score ref target c) as H. cbv zeta in H.
    split; [intros _; exact H|]. split; [discriminate|].
    destruct H as [H|[d [H Hd]]]; [now right|left]. rewrite H. simpl. tauto.
  - pose proof (chi_square_test_score ref target c) as H.
    split; [discriminate|]. split; [intros _; exact H|now left].
Qed.

(** X8.  Whatever the two arguments, no drift score of the report is
    negative: the score of a column is a number not below zero, +inf
    or nan; the score of a column tested by the Kolmogorov-Smirnov
    test is nan or lies between 0 and 1; the score of a column tested
    by the chi-square test is never nan.  The overall score is nan as
    soon as the score of one column is; when no column score is nan,
    it is a number not below zero or +inf, and it lies between 0 and 1
    when every column was tested by the Kolmogorov-Smirnov test. *)
Theorem drift_scores_are_not_negative (reference_df target_df : pyobj) :
  let report := fst (detect_drift' reference_df target_df) in
  let results := dict_values (column_drift report) in
  Forall (fun r => nonneg_or_pinf (drift_score r) \/ drift_score r = NaN) results /\
  Forall (fun r => test_type r = "KS Test"%string ->
                   drift_score r = NaN \/ exists d, drift_score r = Fin d /\ 0 <= d <= 1)
         results /\
  Forall (fun r => test_type r = "Chi-Square Test"%string -> nonneg_or_pinf (drift_score r))
         results /\
  (Exists (fun r => drift_score r = NaN) results -> overall_drift_score report = NaN) /\
  (Forall (fun r => drift_score r <> NaN) results ->
   nonneg_or_pinf (overall_drift_score report) /\
   (Forall (fun r => test_type r = "KS Test"%string) results ->
    exists q, overall_drift_score report = Fin q /\ 0 <= q <= 1)).
Proof.
  cbv zeta.
  assert (H0 : exists q : Q, Fin 0 = Fin q /\ 0 <= q <= 1)
    by (exists 0; split; [reflexivity|lra]).
  assert (Hnone : forall report,
             column_drift report = [] -> overall_drift_score report = Fin 0 ->
             Forall (fun r => nonneg_or_pinf (drift_score r) \/ drift_score r = NaN)
               (dict_values (column_drift report)) /\
             Forall (fun r => test_type r = "KS Test"%string ->
                              drift_score r = NaN \/
                              exists d, drift_score r = Fin d /\ 0 <= d <= 1)
               (dict_values (column_drift report)) /\
             Forall (fun r => test_type r = "Chi-Square Test"%string ->
                              nonneg_or_pinf (drift_score r))
               (dict_values (column_drift report)) /\
             (Exists (fun r => drift_score r = NaN) (dict_values (column_drift report)) ->
              overall_drift_score report = NaN) /\
             (Forall (fun r => drift_score r <> NaN) (dict_values (column_drift report)) ->
              nonneg_or_pinf (overall_drift_score report) /\
              (Forall (fun r => test_type r = "KS Test"%string)
                 (dict_values (column_drift report)) ->
               exists q, overall_drift_score report = Fin q /\ 0 <= q <= 1))).
  { intros report -> ->. simpl.
    split; [constructor|]. split; [constructor|]. split; [constructor|].
    split; [intros H; inversion H|]. intros _. split; [lra|intros _; exact H0]. }
  destruct reference_df as [|ref]; [apply Hnone; reflexivity|].
  destruct target_df as [|target]; [apply Hnone; reflexivity|].
  clear Hnone.
  rewrite detect_drift_frames. cbn [fst overall_drift_score column_drift].
  unfold dict_values. rewrite map_map. cbn [snd].
  set (results := map (fun c => fst (column_outcome' ref target c)) (common_cols ref target)).
  assert (Hres : forall r, In r results ->
             (test_type r = "KS Test"%string ->
              drift_score r = NaN \/ exists d, drift_score r = Fin d /\ 0 <= d <= 1) /\
             (test_type r = "Chi-Square Test"%string -> nonneg_or_pinf (drift_score r)) /\
             (nonneg_or_pinf (drift_score r) \/ drift_score r = NaN)).
  { intros r Hr. apply in_map_iff in Hr. destruct Hr as [c [<- Hc]].
    apply common_cols_In in Hc. destruct Hc as [Hc _].
    exact (column_outcome_score ref target c Hc). }
  assert (Hscores : map (fun c => drift_score (fst (column_outcome' ref target c)))
                      (common_cols ref target) = map drift_score results).
  { unfold results. now rewrite map_map. }
  rewrite Hscores. clearbody results.
  split; [|split; [|split; [|split]]].
  - apply Forall_forall. intros r Hr. apply (Hres r Hr).
  - apply Forall_forall. intros r Hr. apply (Hres r Hr).
  - apply Forall_forall. intros r Hr. apply (Hres r Hr).
  - intros Hex. apply Exists_exists in Hex. destruct Hex as [r [Hr Hnan]].
    assert (Hin : In NaN (map drift_score results)).
    { rewrite <- Hnan. now apply in_map. }
    destruct (map drift_score results) as [|x l] eqn:E; [contradiction|].
    now apply np_mean_nan.
  - intros Hall. rewrite Forall_forall in Hall. split.
    + assert (Hs : Forall nonneg_or_pinf (map drift_score results)).
      { apply Forall_forall. intros x Hx. apply in_map_iff in Hx.
        destruct Hx as [r [<- Hr]].
        destruct (Hres r Hr) as (_ & _ & [H|H]); [exact H|].
        exfalso. exact (Hall r Hr H). }
      destruct (map drift_score results) as [|x l] eqn:E; [simpl; lra|].
      apply np_mean_nonneg_or_pinf; [congruence|exact Hs].
    + intros Hks. rewrite Forall_forall in Hks.
      assert (Hs : Forall (fun x => exists d, x = Fin d /\ 0 <= d <= 1)
                     (map drift_score results)).
      { apply Forall_forall. intros x Hx. apply in_map_iff in Hx.
        destruct Hx as [r [<- Hr]].
        destruct (Hres r Hr) as (H & _ & _).
        destruct (H (Hks r Hr)) as [Hnan|Hd]; [|exact Hd].
        exfalso. exact (Hall r Hr Hnan). }
      destruct (map drift_score results) as [|x l] eqn:E; [exact H0|].
      apply np_mean_unit; [congruence|exact Hs].
Qed.

End Scores.

(* ================================================================= *)
(** * The sign of the stability index *)

Lemma Qsum_all_zero (l : list Q) : Forall (fun x => x == 0) l -> Qsum l == 0.
Proof.
  induction 1 as [|x l Hx Hl IH].
  - reflexivity.
  - rewrite Qsum_cons, Hx, IH. reflexivity.
Qed.

Lemma bin_fraction_positive (lo hi : Q) (bins : nat) (data : list Q) (i : nat) :
  1 # 10000 <= bin_fraction lo hi bins data i.
Proof.
  unfold bin_fraction.
  set (a := List.length (filter (in_bin lo hi bins i) data)).
  assert (H : 0 <= inject_Z (Z.of_nat a) / inject_Z (Z.of_nat (List.length data))).
  { destruct data as [|x data].
    - unfold a. simpl. discriminate.
    - apply Qle_shift_div_l.
      + change 0 with (inject_Z 0). rewrite <- Zlt_Qlt. simpl List.length. lia.
      + rewrite Qmult_0_l. change 0 with (inject_Z 0). rewrite <- Zle_Qle. lia. }
  lra.
Qed.

(** X9.  The stability index of a sample with at least one value
    against itself is 0, whatever the logarithm, and nothing is
    logged. *)
Theorem psi_of_a_sample_with_itself (np_log : Q -> Q) (dt dt' : numeric_dtype)
  (vs : list (option Q)) :
  numbers vs <> [] ->
  exists psi,
    _calculate_psi np_log (Numeric dt vs) (Numeric dt' vs) = (Fin psi, []) /\ psi == 0.
Proof.
  intros Hne. eexists. split; [now apply calculate_psi_numeric|].
  unfold psi_spec. apply Qsum_all_zero.
  apply Forall_forall. intros q Hq. apply in_map_iff in Hq.
  destruct Hq as [i [<- _]]. cbv zeta. ring.
Qed.

Lemma psi_of_a_sample_with_itself_witness :
  numbers [Some 1; Some 2; Some 3; Some 4; Some 5; Some 100] <> [] /\
  exists psi,
    _calculate_psi sample_log (Numeric Int64 [Some 1; Some 2; Some 3; Some 4; Some 5; Some 100])
      (Numeric Float64 [Some 1; Some 2; Some 3; Some 4; Some 5; Some 100]) = (Fin psi, []) /\
    psi == 0.
Proof.
  split; [discriminate|].
  apply (psi_of_a_sample_with_itself sample_log Int64 Float64). discriminate.
Defined.

(** X10.  With a logarithm that is not negative from 1 on and not
    positive up to 1, the stability index of two numeric samples with
    at least one value each is a number not below zero, and nothing is
    logged. *)
Theorem psi_is_not_negative (np_log : Q -> Q) (dt dt' : numeric_dtype)
  (vs vs' : list (option Q)) :
  sign_of_log np_log ->
  numbers vs <> [] -> numbers vs' <> [] ->
  exists psi,
    _calculate_psi np_log (Numeric dt vs) (Numeric dt' vs') = (Fin psi, []) /\ 0 <= psi.
Proof.
  intros Hlog Hne Hne'. eexists. split; [now apply calculate_psi_numeric|].
  unfold psi_spec. apply Qsum_nonneg.
  apply Forall_forall. intros q Hq. apply in_map_iff in Hq.
  destruct Hq as [i [<- _]]. cbv zeta.
  set (lo := Qmin_list (hd 0 (numbers vs)) (tl (numbers vs))).
  set (hi := Qmax_list (hd 0 (numbers vs)) (tl (numbers vs))).
  pose proof (bin_fraction_positive lo hi 10 (numbers vs) i) as Hr.
  pose proof (bin_fraction_positive lo hi 10 (numbers vs') i) as Ht.
  set (r := bin_fraction lo hi 10 (numbers vs) i) in *.
  set (t := bin_fraction lo hi 10 (numbers vs') i) in *.
  assert (Hr0 : 0 < r) by lra. assert (Ht0 : 0 < t) by lra.
  assert (Hq : 0 < t / r) by (apply Qlt_shift_div_l; lra).
  destruct (Hlog (t / r) Hq) as [Hge Hle].
  destruct (Qlt_le_dec t r) as [Hlt|Hge'].
  - assert (H1 : t / r <= 1) by (apply Qle_shift_div_r; lra).
    specialize (Hle H1). nra.
  - assert (H1 : 1 <= t / r) by (apply Qle_shift_div_l; lra).
    specialize (Hge H1). nra.
Qed.

Lemma sign_of_sample_log : sign_of_log sample_log.
Proof. intros x Hx. unfold sample_log. split; intros H; lra. Qed.

Lemma psi_is_not_negative_witness :
  sign_of_log sample_log /\
  exists psi,
    _calculate_psi sample_log (Numeric Int64 [Some 1; Some 2; Some 3; Some 4; Some 5; Some 100])
      (Numeric Int64 [Some 1; Some 2; Some 3; Some 4; Some 5; Some 7]) = (Fin psi, []) /\
    0 <= psi.
Proof.
  split; [exact sign_of_sample_log|].
  apply (psi_is_not_negative sample_log Int64 Int64); [exact sign_of_sample_log| |];
    discriminate.
Defined.

(* ================================================================= *)
(** * The values counted by the chi-square test *)

#[local] Instance cell_eq_equivalence : Equivalence cell_eq.
Proof.
  split.
  - intros a. apply cell_eqb_refl.
  - intros a b H. unfold cell_eq in *. now rewrite cell_eqb_sym.
  - intros a b c. apply cell_eqb_trans.
Qed.

Lemma InA_keys (c : cell) (n : Z) (t : list (cell * Z)) :
  InA cell_eq c (map fst t) <-> InA same_key (c, n) t.
Proof.
  induction t as [|e t IH]; simpl.
  - split; intros H; inversion H.
  - split; intros H; inversion H; subst.
    + now constructor.
    + constructor 2. now apply IH.
    + now constructor.
    + constructor 2. now apply IH.
Qed.

Lemma NoDupA_keys (t : list (cell * Z)) :
  NoDupA same_key t -> NoDupA cell_eq (map fst t).
Proof.
  induction 1 as [|e t He Ht IH]; simpl; constructor; [|exact IH].
  intros H. apply He. destruct e as [k n]. now apply (InA_keys k n).
Qed.

Lemma cell_eqb_NA (c : cell) : cell_eqb c NA = true -> c = NA.
Proof. destruct c; simpl; congruence. Qed.

(** The values of value_counts are the distinct non-missing values of
    the column. *)
Lemma value_counts_distinct_values (s : Series) :
  distinct_values s (map fst (value_counts s)).
Proof.
  split; [apply NoDupA_keys, value_counts_table|].
  intros c. rewrite (InA_keys c 0%Z). split.
  - intros H. apply InA_alt in H. destruct H as [[k n] [Hk Hin]].
    unfold same_key in Hk. simpl in Hk.
    destruct (value_counts_occurrences s k n Hin) as (Hk' & Hn & H1).
    split.
    + intros ->. apply Hk'. apply cell_eqb_NA. now rewrite cell_eqb_sym.
    + unfold occurrences in Hn.
      destruct (filter (cell_eqb k) (cells s)) as [|x l] eqn:Ef; [simpl in Hn; lia|].
      assert (Hx : In x (x :: l)) by now left.
      rewrite <- Ef in Hx. apply filter_In in Hx. destruct Hx as [Hx Hkx].
      apply InA_alt. exists x. split; [|exact Hx].
      unfold cell_eq. now apply cell_eqb_trans with (1 := Hk).
  - intros [Hc H]. apply InA_alt in H. destruct H as [x [Hcx Hx]].
    assert (Hxn : x <> NA).
    { intros ->. apply Hc. now apply cell_eqb_NA. }
    destruct (value_counts_tallied s) as (_ & _ & Hseen).
    assert (HA : InA same_key (x, 0%Z) (value_counts s)).
    { unfold value_counts. apply sort_by_count_InA. apply Hseen.
      apply filter_In. split; [exact Hx|]. destruct x; congruence. }
    revert HA. apply InA_eqA; [apply same_key_equivalence|].
    unfold same_key. simpl. unfold cell_eq in Hcx. now rewrite cell_eqb_sym.
Qed.

Lemma distinct_values_length (s : Series) (vals1 vals2 : list cell) :
  distinct_values s vals1 -> distinct_values s vals2 ->
  List.length vals1 = List.length vals2.
Proof.
  intros [Hnd1 H1] [Hnd2 H2].
  apply (PermutationA_same_length cell_eq).
  apply NoDupA_equivlistA_PermutationA;
    [apply cell_eq_equivalence|exact Hnd1|exact Hnd2|].
  intros c. now rewrite H1, H2.
Qed.

(** X11.  The test of a column by the chi-square test, the column
    being present in both datasets.  The result carries the name of
    the column and the test type Chi-Square Test.  When the test goes
    through, the column is flagged exactly when the p-value is below
    the threshold, the score is a number not below zero or +inf,
    reference_unique_values and target_unique_values are the numbers of
    distinct non-missing values of the two columns, and nothing is
    logged.  Otherwise the result is the one of the handler: not
    flagged, score 0, an error note, and one line logged. *)
Theorem chi_square_test_outcomes (chi2_sf : num -> Z -> num) (threshold : num)
  (ref target : DataFrame) (column : string) (ref_col target_col : Series) :
  getitem ref column = Returned ref_col ->
  getitem target column = Returned target_col ->
  let r := fst (_chi_square_test chi2_sf threshold ref target column) in
  let log := snd (_chi_square_test chi2_sf threshold ref target column) in
  column_name r = column /\ test_type r = "Chi-Square Test"%string /\
  ((exists p ru tu,
       detail r = ChiSquareDetail p ru tu /\
       has_drift r = ltb p threshold /\
       nonneg_or_pinf (drift_score r) /\
       (exists vals, distinct_values ref_col vals) /\
       (forall vals, distinct_values ref_col vals -> ru = Z.of_nat (List.length vals)) /\
       (exists vals, distinct_values target_col vals) /\
       (forall vals, distinct_values target_col vals -> tu = Z.of_nat (List.length vals)) /\
       log = []) \/
   (exists e,
       detail r = ErrorNote e /\ has_drift r = false /\ drift_score r = Fin 0 /\
       log = [("Error in Chi-square test for column " ++ column ++ ": " ++ e)%string])).
Proof.
  intros Hgr Hgt. cbv zeta.
  pose proof (chi_square_test_score chi2_sf threshold ref target column) as Hscore.
  unfold _chi_square_test, chi_square_test_body in *. rewrite Hgr, Hgt in *. cbn [bind] in *.
  destruct (merge_outer column (dtype_name ref_col) (dtype_name target_col)
              (value_counts ref_col) (value_counts target_col)) as [merged|e];
    [|split; [reflexivity|]; split; [reflexivity|]; right; exists e; repeat split].
  cbn [bind] in *.
  destruct (chisquare chi2_sf (map count_target merged) (map count_ref merged)) as [chi2|e];
    [|split; [reflexivity|]; split; [reflexivity|]; right; exists e; repeat split].
  cbn [bind fst snd column_name test_type has_drift drift_score detail] in *.
  split; [reflexivity|]. split; [reflexivity|]. left.
  do 3 eexists. split; [reflexivity|]. split; [reflexivity|]. split; [exact Hscore|].
  split; [exists (map fst (value_counts ref_col)); apply value_counts_distinct_values|].
  split.
  { intros vals Hv. f_equal.
    rewrite <- (distinct_values_length ref_col _ _ (value_counts_distinct_values ref_col) Hv).
    now rewrite length_map. }
  split; [exists (map fst (value_counts target_col)); apply value_counts_distinct_values|].
  split; [|reflexivity].
  intros vals Hv. f_equal.
  rewrite <- (distinct_values_length target_col _ _
                (value_counts_distinct_values target_col) Hv).
  now rewrite length_map.
Qed.

(** The sample column constant: one distinct value on both sides. *)
Lemma chi_square_test_outcomes_witness :
  getitem reference_sample "constant"
    = Returned (Object [Some "EU"; Some "EU"; Some "EU"; Some "EU"; Some "EU"; Some "EU"]%string) /\
  getitem target_sample "constant"
    = Returned (Object [Some "EU"; Some "EU"; Some "EU"; Some "EU"; Some "EU"; Some "EU"]%string) /\
  exists p,
    detail (fst (_chi_square_test sample_chi2_sf default_threshold
                   reference_sample target_sample "constant"))
    = ChiSquareDetail p 1%Z 1%Z.
Proof.
  split; [reflexivity|]. split; [reflexivity|].
  destruct (chi_square_test_outcomes sample_chi2_sf default_threshold
              reference_sample target_sample "constant" _ _ eq_refl eq_refl)
    as (_ & _ & [(p & ru & tu & Hd & _)|(e & Hd & _)]).
  - vm_compute in Hd. inversion Hd. eexists. vm_compute. reflexivity.
  - vm_compute in Hd. discriminate.
Defined.

(* ================================================================= *)
(** * What detect_drift logs *)

Lemma calculate_psi_log (np_log : Q -> Q) (a b : Series) (x y : list Q) :
  to_floats a = Returned x -> to_floats b = Returned y ->
  snd (_calculate_psi np_log a b) = [].
Proof.
  intros Ha Hb. unfold _calculate_psi, calculate_psi_body. rewrite Ha, Hb. cbn [bind].
  destruct x, y; reflexivity.
Qed.

(** A sample without a cell left reads as the empty list of numbers. *)
Lemma to_floats_dropna_empty (s : Series) :
  len_series (dropna s) = 0%nat -> to_floats (dropna s) = Returned [].
Proof.
  intros Hlen. destruct s as [dt vs|ws].
  - rewrite dropna_numeric_length in Hlen. apply length_zero_iff_nil in Hlen.
    cbn [dropna to_floats]. rewrite numbers_dropna, Hlen. reflexivity.
  - destruct (to_floats_dropna_object ws) as [[_ ->]|[Hne _]]; [reflexivity|contradiction].
Qed.

Section Log.

Variable np_log : Q -> Q.
Variable np_sqrt : Q -> Q.
Variable ks_pvalue : Q -> nat -> nat -> num.
Variable chi2_sf : num -> Z -> num.
Variable threshold : num.

Local Abbreviation detect_drift' := (detect_drift np_log np_sqrt ks_pvalue chi2_sf threshold).
Local Abbreviation column_outcome' :=
  (column_outcome np_log np_sqrt ks_pvalue chi2_sf threshold).

(** What the body of the numeric test has logged when it ends: nothing
    when it returns, and then without an error note; at most the line
    of the stability index when it raises. *)
Lemma ks_test_body_log (ref target : DataFrame) (c : string) :
  match ks_test_body np_log np_sqrt ks_pvalue threshold ref target c with
  | (Returned r, log) => log = [] /\ has_error r = false
  | (Raised _, log) =>
      log = [] \/ exists e, log = [("Error calculating PSI: " ++ e)%string]
  end.
Proof.
  unfold ks_test_body.
  destruct (getitem ref c) as [s|e]; [|now left].
  destruct (getitem target c) as [s'|e]; [|now left].
  destruct (ks_2samp ks_pvalue (dropna s) (dropna s')) as [ks|e]; [|now left].
  destruct (to_floats (dropna s)) as [x|e] eqn:Ex.
  - destruct (to_floats (dropna s')) as [y|e] eqn:Ey; cbn [bind].
    + split; [exact (calculate_psi_log np_log _ _ x y Ex Ey)|reflexivity].
    + right. unfold _calculate_psi, calculate_psi_body. rewrite Ex, Ey. cbn [bind snd].
      eexists. reflexivity.
  - cbn [bind]. right. unfold _calculate_psi, calculate_psi_body. rewrite Ex. cbn [bind snd].
    eexists. reflexivity.
Qed.

(** When the reference column has a number, the body has logged nothing
    by the time it ends. *)
Lemma ks_test_body_log_numbers (ref target : DataFrame) (c : string)
  (dt : numeric_dtype) (vs : list (option Q)) :
  getitem ref c = Returned (Numeric dt vs) -> numbers vs <> [] ->
  snd (ks_test_body np_log np_sqrt ks_pvalue threshold ref target c) = [].
Proof.
  intros Hs Hne. unfold ks_test_body. rewrite Hs.
  destruct (getitem target c) as [s'|e]; [|reflexivity].
  unfold ks_2samp. rewrite dropna_numeric_length.
  replace (Nat.eqb (List.length (numbers vs)) 0) with false
    by (destruct (numbers vs); [congruence|reflexivity]).
  cbn [orb].
  destruct (Nat.eqb (len_series (dropna s')) 0) eqn:E0.
  - apply Nat.eqb_eq in E0. pose proof (to_floats_dropna_empty s' E0) as Ey.
    cbn [snd].
    eapply calculate_psi_log; [reflexivity|exact Ey].
  - destruct (to_floats (dropna s')) as [y|e] eqn:Ey.
    + cbn [to_floats bind snd].
      eapply calculate_psi_log; [reflexivity|exact Ey].
    + cbn [dropna to_floats bind snd]. reflexivity.
Qed.

Lemma chi_square_test_log (ref target : DataFrame) (c : string) :
  let r := _chi_square_test chi2_sf threshold ref target c in
  match detail (fst r) with
  | ErrorNote e => snd r = [("Error in Chi-square test for column " ++ c ++ ": " ++ e)%string]
  | _ => snd r = []
  end.
Proof.
  cbv zeta. unfold _chi_square_test, chi_square_test_body.
  destruct (getitem ref c) as [s|e]; [|reflexivity].
  destruct (getitem target c) as [s'|e]; [|reflexivity].
  cbn [bind].
  destruct (merge_outer _ _ _ _ _); [|reflexivity]. cbn [bind].
  destruct (chisquare _ _ _); reflexivity.
Qed.

(** The lines that the test of one column logs. *)
Lemma column_outcome_log (ref target : DataFrame) (c : string) :
  In c (columns ref) ->
  let r := fst (column_outcome' ref target c) in
  let log := snd (column_outcome' ref target c) in
  let n := if has_error r then 1%nat else 0%nat in
  List.length (filter (String.prefix "Error in ") log) = n /\
  (n <= List.length log <= 2 * n)%nat /\
  ((forall dt vs, getitem ref c = Returned (Numeric dt vs) -> numbers vs <> []) ->
   List.length log = n).
Proof.
  intros Hc. cbv zeta. destruct (getitem_columns ref c Hc) as [s Hs].
  unfold column_outcome, column_test, has_error. rewrite Hs.
  destruct s as [dt vs|ws]; cbn [is_numeric_dtype].
  - pose proof (ks_test_body_log ref target c) as H.
    pose proof (ks_test_body_log_numbers ref target c dt vs Hs) as Hn.
    unfold _ks_test.
    destruct (ks_test_body np_log np_sqrt ks_pvalue threshold ref target c) as [[r|e] log].
    + destruct H as [-> Hr]. cbn [fst snd]. unfold has_error in Hr.
      destruct (detail r); [| |discriminate]; cbn; (split; [reflexivity|]);
        (split; [lia|]); reflexivity.
    + cbn [fst snd detail]. cbn [snd] in Hn.
      destruct H as [->|[e' ->]].
      * cbn. split; [reflexivity|]. split; [lia|]. reflexivity.
      * split; [reflexivity|]. split; [cbn; lia|].
        intros Hne. specialize (Hn (Hne dt vs eq_refl)). discriminate.
  - pose proof (chi_square_test_log ref target c) as H. cbv zeta in H.
    destruct (detail (fst (_chi_square_test chi2_sf threshold ref target c)));
      rewrite H; cbn; (split; [reflexivity|]); (split; [lia|]); reflexivity.
Qed.

Lemma log_length (ref target : DataFrame) (cols : list string) :
  (forall c, In c cols -> In c (columns ref)) ->
  let log := concat (map (fun c => snd (column_outcome' ref target c)) cols) in
  let errors :=
    List.length (filter has_error (map (fun c => fst (column_outcome' ref target c)) cols)) in
  List.length (filter (String.prefix "Error in ") log) = errors /\
  (errors <= List.length log <= 2 * errors)%nat /\
  ((forall c dt vs, In c cols -> getitem ref c = Returned (Numeric dt vs) -> numbers vs <> []) ->
   List.length log = errors).
Proof.
  cbv zeta. induction cols as [|c cols IH]; intros Hcols.
  - simpl. split; [reflexivity|]. split; [lia|]. reflexivity.
  - destruct (IH (fun c' Hc' => Hcols c' (or_intror Hc'))) as (IH1 & IH2 & IH3).
    destruct (column_outcome_log ref target c (Hcols c (or_introl eq_refl)))
      as (H1 & H2 & H3).
    cbv zeta in H1, H2, H3.
    cbn [map concat filter]. rewrite filter_app, !length_app, H1, IH1.
    destruct (has_error (fst (column_outcome' ref target c))) eqn:E;
      cbn [List.length]; (split; [reflexivity|]); (split; [lia|]);
      intros Hall;
      (rewrite H3 by (intros dt vs Hg; exact (Hall c dt vs (or_introl eq_refl) Hg)));
      (rewrite IH3 by (intros c' dt vs Hc' Hg; exact (Hall c' dt vs (or_intror Hc') Hg)));
      reflexivity.
Qed.

(** X12.  Two frames always get a summary: total_columns_tested is the
    number of common columns, whatever the tests of the columns do.
    The handler of a column test logs one line, starting with Error
    in, for each column whose result carries an error note, and no
    other line of the log starts so; the only other lines are those of
    the stability index, at most one per failed column, so that the
    log has at least as many lines as there are error notes and at
    most twice as many, and nothing is logged when no column test
    fails.  When every common column that is numeric in the reference
    dataset has a non-missing value there, the log has exactly one line
    per error note.  When an argument is not a frame, the report is the
    one of the handler: no drift detected, overall score 0, no column
    result, an error note in place of the summary, and one line
    logged. *)
Theorem detect_drift_outcomes (reference_df target_df : pyobj) :
  let report := fst (detect_drift' reference_df target_df) in
  let log := snd (detect_drift' reference_df target_df) in
  match reference_df, target_df with
  | PyFrame ref, PyFrame target =>
      let errors := List.length (filter has_error (dict_values (column_drift report))) in
      (exists flagged,
          test_results report
          = Summary (Z.of_nat (List.length (common_cols ref target))) flagged threshold) /\
      List.length (dict_values (column_drift report))
        = List.length (common_cols ref target) /\
      List.length (filter (String.prefix "Error in ") log) = errors /\
      (errors <= List.length log <= 2 * errors)%nat /\
      ((forall c dt vs,
           In c (common_cols ref target) ->
           getitem ref c = Returned (Numeric dt vs) -> numbers vs <> []) ->
       List.length log = errors) /\
      (Forall (fun r => has_error r = false) (dict_values (column_drift report)) ->
       log = [])
  | _, _ =>
      exists e,
        report = {| drift_detected := false; overall_drift_score := Fin 0;
                    column_drift := []; test_results := SummaryError e |} /\
        log = [("Error detecting drift: " ++ e)%string]
  end.
Proof.
  cbv zeta.
  destruct reference_df as [|ref]; [eexists; split; reflexivity|].
  destruct target_df as [|target]; [eexists; split; reflexivity|].
  rewrite detect_drift_frames. cbn [fst snd column_drift test_results].
  unfold dict_values. rewrite !map_map. cbn [snd].
  destruct (log_length ref target (common_cols ref target)) as (H1 & H2 & H3).
  { intros c Hc. apply common_cols_In in Hc. tauto. }
  cbv zeta in H1, H2, H3.
  split; [eexists; reflexivity|]. split; [apply length_map|].
  split; [exact H1|]. split; [exact H2|]. split; [exact H3|].
  intros Hall. rewrite filter_none in H2.
  - destruct (concat _); [reflexivity|simpl in H2; lia].
  - rewrite Forall_forall in Hall. exact Hall.
Qed.

End Log.

(* ================================================================= *)
(** * Columns that only one dataset has *)

Lemma existsb_eqb_In (c : string) (l : list string) :
  existsb (String.eqb c) l = true <-> In c l.
Proof.
  rewrite existsb_exists. split.
  - intros [x [Hx E]]. apply String.eqb_eq in E. now subst.
  - intros H. exists c. split; [exact H|apply String.eqb_refl].
Qed.

Lemma getitem_restrict_to (cols : list string) (df : DataFrame) (c : string) :
  In c cols -> getitem (restrict_to cols df) c = getitem df c.
Proof.
  intros Hc. induction df as [|[name s] df IH]; simpl; [reflexivity|].
  destruct (existsb (String.eqb name) cols) eqn:E; simpl.
  - now rewrite IH.
  - rewrite IH. destruct (String.eqb name c) eqn:En; [|reflexivity].
    apply String.eqb_eq in En. subst name.
    apply existsb_eqb_In in Hc. congruence.
Qed.

Lemma columns_restrict_to (cols : list string) (df : DataFrame) :
  columns (restrict_to cols df) = filter (fun c => existsb (String.eqb c) cols) (columns df).
Proof.
  unfold columns, restrict_to. induction df as [|[name s] df IH]; simpl; [reflexivity|].
  destruct (existsb (String.eqb name) cols); simpl; now rewrite IH.
Qed.

Lemma filter_filter {A : Type} (p q : A -> bool) (l : list A) :
  filter p (filter q l) = filter (fun x => q x && p x) l.
Proof.
  induction l as [|a l IH]; simpl; [reflexivity|].
  destruct (q a); simpl; [destruct (p a)|]; now rewrite IH.
Qed.

Lemma common_cols_restrict_to (ref target : DataFrame) :
  let cols := common_cols ref target in
  common_cols (restrict_to cols ref) (restrict_to cols target) = cols.
Proof.
  cbv zeta. unfold common_cols at 1. rewrite !columns_restrict_to, filter_filter.
  unfold common_cols at 3. f_equal. apply filter_ext_in. intros c Hc.
  destruct (existsb (String.eqb c) (columns target)) eqn:Et.
  - apply existsb_eqb_In in Et.
    assert (Hcc : In c (common_cols ref target)) by (apply common_cols_In; tauto).
    apply andb_true_iff. split; [now apply existsb_eqb_In|].
    apply existsb_eqb_In, filter_In. split; [exact Et|now apply existsb_eqb_In].
  - apply andb_false_iff. right.
    destruct (existsb (String.eqb c) (filter _ (columns target))) eqn:E; [|reflexivity].
    apply existsb_eqb_In, filter_In in E. destruct E as [E _].
    apply existsb_eqb_In in E. congruence.
Qed.

Section CommonColumns.

Variable np_log : Q -> Q.
Variable np_sqrt : Q -> Q.
Variable ks_pvalue : Q -> nat -> nat -> num.
Variable chi2_sf : num -> Z -> num.
Variable threshold : num.

Local Abbreviation detect_drift' := (detect_drift np_log np_sqrt ks_pvalue chi2_sf threshold).
Local Abbreviation column_outcome' :=
  (column_outcome np_log np_sqrt ks_pvalue chi2_sf threshold).

(** The test of a column reads the two frames through the column
    only. *)
Lemma column_outcome_ext (ref target ref' target' : DataFrame) (c : string) :
  getitem ref' c = getitem ref c -> getitem target' c = getitem target c ->
  column_outcome' ref' target' c = column_outcome' ref target c.
Proof.
  intros Hr Ht.
  unfold column_outcome, column_test, _ks_test, ks_test_body,
    _chi_square_test, chi_square_test_body.
  rewrite Hr, Ht. reflexivity.
Qed.

Lemma detect_drift_ext (ref target ref' target' : DataFrame) :
  common_cols ref' target' = common_cols ref target ->
  (forall c, In c (common_cols ref target) ->
             getitem ref' c = getitem ref c /\ getitem target' c = getitem target c) ->
  detect_drift' (PyFrame ref') (PyFrame target') = detect_drift' (PyFrame ref) (PyFrame target).
Proof.
  intros Hcols Hget.
  assert (Hout : forall c, In c (common_cols ref target) ->
                           column_outcome' ref' target' c = column_outcome' ref target c).
  { intros c Hc. destruct (Hget c Hc). now apply column_outcome_ext. }
  rewrite !detect_drift_frames. rewrite Hcols.
  assert (H1 : map (fun c => (c, fst (column_outcome' ref' target' c))) (common_cols ref target)
               = map (fun c => (c, fst (column_outcome' ref target c))) (common_cols ref target)).
  { apply map_ext_in. intros c Hc. now rewrite Hout. }
  assert (H2 : map (fun c => drift_score (fst (column_outcome' ref' target' c)))
                   (common_cols ref target)
               = map (fun c => drift_score (fst (column_outcome' ref target c)))
                     (common_cols ref target)).
  { apply map_ext_in. intros c Hc. now rewrite Hout. }
  assert (H3 : map (fun c => snd (column_outcome' ref' target' c)) (common_cols ref target)
               = map (fun c => snd (column_outcome' ref target c)) (common_cols ref target)).
  { apply map_ext_in. intros c Hc. now rewrite Hout. }
  rewrite H1, H2, H3. reflexivity.
Qed.

(** X13.  detect_drift reads the common columns only: the report and
    the lines logged are those obtained once the columns that only one
    of the two datasets has are removed from both. *)
Theorem detect_drift_ignores_other_columns (ref target : DataFrame) :
  let cols := common_cols ref target in
  detect_drift' (PyFrame (restrict_to cols ref)) (PyFrame (restrict_to cols target))
  = detect_drift' (PyFrame ref) (PyFrame target).
Proof.
  cbv zeta. apply detect_drift_ext.
  - apply common_cols_restrict_to.
  - intros c Hc. split; now apply getitem_restrict_to.
Qed.

End CommonColumns.

(* ================================================================= *)
(** * The threshold *)

Lemma ltb_leb_trans (p t t' : num) :
  ltb p t = true -> leb t t' = true -> ltb p t' = true.
Proof.
  destruct p as [a| | |], t as [b| | |], t' as [c| | |]; simpl; try congruence.
  intros H1 H2. apply Qlt_bool_iff in H1. apply Qle_bool_iff in H2.
  apply Qlt_bool_iff. lra.
Qed.

Lemma leb_ltb_trans (t t' x : num) :
  leb t t' = true -> ltb t' x = true -> ltb t x = true.
Proof.
  destruct t as [a| | |], t' as [b| | |], x as [c| | |]; simpl; try congruence.
  intros H1 H2. apply Qlt_bool_iff in H2. apply Qle_bool_iff in H1.
  apply Qlt_bool_iff. lra.
Qed.

Section Threshold.

Variable np_log : Q -> Q.
Variable np_sqrt : Q -> Q.
Variable ks_pvalue : Q -> nat -> nat -> num.
Variable chi2_sf : num -> Z -> num.
Variables threshold threshold' : num.
Hypothesis thresholds : leb threshold threshold' = true.

Lemma column_outcome_threshold (ref target : DataFrame) (c : string) :
  flagged_more
    (fst (column_outcome np_log np_sqrt ks_pvalue chi2_sf threshold ref target c))
    (fst (column_outcome np_log np_sqrt ks_pvalue chi2_sf threshold' ref target c)) /\
  snd (column_outcome np_log np_sqrt ks_pvalue chi2_sf threshold' ref target c)
  = snd (column_outcome np_log np_sqrt ks_pvalue chi2_sf threshold ref target c).
Proof.
  assert (Hsame : forall r, flagged_more r r) by (intros r; repeat split; auto).
  unfold column_outcome. destruct (getitem ref c) as [s|e] eqn:Hs; [|split; [apply Hsame|reflexivity]].
  unfold column_test. destruct (is_numeric_dtype s).
  - unfold _ks_test, ks_test_body. rewrite Hs. cbn [bind].
    destruct (getitem target c) as [s'|e]; [|split; [apply Hsame|reflexivity]]. cbn [bind].
    destruct (ks_2samp ks_pvalue (dropna s) (dropna s')) as [ks|e];
      [|split; [apply Hsame|reflexivity]].
    cbn [bind].
    destruct (to_floats (dropna s)); [|split; [apply Hsame|reflexivity]]. cbn [bind].
    destruct (to_floats (dropna s')); [|split; [apply Hsame|reflexivity]]. cbn [bind fst snd].
    split; [|reflexivity]. repeat split. cbn [has_drift].
    intros H. now apply ltb_leb_trans with (1 := H).
  - unfold _chi_square_test, chi_square_test_body. rewrite Hs. cbn [bind].
    destruct (getitem target c) as [s'|e]; [|split; [apply Hsame|reflexivity]]. cbn [bind].
    destruct (merge_outer _ _ _ _ _); [|split; [apply Hsame|reflexivity]]. cbn [bind].
    destruct (chisquare _ _ _); [|split; [apply Hsame|reflexivity]]. cbn [bind fst snd].
    split; [|reflexivity]. repeat split. cbn [has_drift].
    intros H. now apply ltb_leb_trans with (1 := H).
Qed.

Lemma flagged_count (rs rs' : list column_result) :
  Forall2 flagged_more rs rs' ->
  (List.length (filter has_drift rs) <= List.length (filter has_drift rs'))%nat.
Proof.
  induction 1 as [|r r' rs rs' Hr Hrs IH]; simpl; [lia|].
  destruct Hr as (_ & _ & _ & _ & Hr).
  destruct (has_drift r).
  - rewrite Hr by reflexivity. simpl. lia.
  - destruct (has_drift r'); simpl; lia.
Qed.

(** X14.  The threshold only decides the flags.  For two frames and
    two thresholds, the second not below the first: the two reports
    have results for the same columns, with the same scores and the
    same details, and the same overall score, and the same lines are
    logged; a column flagged under the first threshold is flagged under
    the second, so that columns_with_drift does not decrease; and
    drift detected under the second threshold is detected under the
    first. *)
Theorem threshold_decides_flags_only (ref target : DataFrame) :
  let run := fun t => detect_drift np_log np_sqrt ks_pvalue chi2_sf t
                        (PyFrame ref) (PyFrame target) in
  let report := fst (run threshold) in
  let report' := fst (run threshold') in
  overall_drift_score report' = overall_drift_score report /\
  dict_keys (column_drift report') = dict_keys (column_drift report) /\
  Forall2 flagged_more (dict_values (column_drift report)) (dict_values (column_drift report')) /\
  (forall c r, dict_get (column_drift report) c = Some r ->
               exists r', dict_get (column_drift report') c = Some r' /\ flagged_more r r') /\
  (List.length (filter has_drift (dict_values (column_drift report)))
   <= List.length (filter has_drift (dict_values (column_drift report'))))%nat /\
  (drift_detected report' = true -> drift_detected report = true) /\
  snd (run threshold') = snd (run threshold).
Proof.
  cbv beta zeta. rewrite !detect_drift_frames.
  cbn [fst snd overall_drift_score column_drift drift_detected].
  set (cols := common_cols ref target).
  assert (Hscores : map (fun c => drift_score
                                    (fst (column_outcome np_log np_sqrt ks_pvalue chi2_sf
                                            threshold' ref target c))) cols
                    = map (fun c => drift_score
                                      (fst (column_outcome np_log np_sqrt ks_pvalue chi2_sf
                                              threshold ref target c))) cols).
  { apply map_ext. intros c. now destruct (column_outcome_threshold ref target c)
      as [(_ & _ & H & _) _]. }
  assert (Hlog : map (fun c => snd (column_outcome np_log np_sqrt ks_pvalue chi2_sf
                                      threshold' ref target c)) cols
                 = map (fun c => snd (column_outcome np_log np_sqrt ks_pvalue chi2_sf
                                        threshold ref target c)) cols).
  { apply map_ext. intros c. now destruct (column_outcome_threshold ref target c). }
  assert (Hall : Forall2 flagged_more
                   (dict_values (map (fun c => (c, fst (column_outcome np_log np_sqrt ks_pvalue
                                                          chi2_sf threshold ref target c))) cols))
                   (dict_values (map (fun c => (c, fst (column_outcome np_log np_sqrt ks_pvalue
                                                          chi2_sf threshold' ref target c))) cols))).
  { unfold dict_values. rewrite !map_map. cbn [snd].
    generalize cols. intros l. induction l as [|c l IH]; simpl; constructor; [|exact IH].
    now destruct (column_outcome_threshold ref target c). }
  rewrite Hscores, Hlog.
  split; [reflexivity|]. split; [now rewrite !dict_keys_map|]. split; [exact Hall|].
  split; [|split; [now apply flagged_count|split; [|reflexivity]]].
  - intros c r Hget. rewrite dict_get_map in Hget. rewrite dict_get_map.
    destruct (in_dec string_dec c cols); [|discriminate].
    eexists. split; [reflexivity|]. inversion Hget; subst r.
    now destruct (column_outcome_threshold ref target c).
  - unfold gtb. intros H. now apply leb_ltb_trans with (2 := H).
Qed.

End Threshold.

(** The samples under the thresholds 0.05 and 0.9: the column x is
    flagged under the second one only. *)
Lemma threshold_decides_flags_only_witness :
  leb default_threshold (Fin (9 # 10)) = true /\
  let report := fst (detect_drift sample_log sample_sqrt sample_ks_pvalue sample_chi2_sf
                       default_threshold (PyFrame reference_sample) (PyFrame target_sample)) in
  let report' := fst (detect_drift sample_log sample_sqrt sample_ks_pvalue sample_chi2_sf
                        (Fin (9 # 10)) (PyFrame reference_sample) (PyFrame target_sample)) in
  overall_drift_score report' = overall_drift_score report /\
  (List.length (filter has_drift (dict_values (column_drift report)))
   <= List.length (filter has_drift (dict_values (column_drift report'))))%nat.
Proof.
  split; [reflexivity|]. cbv zeta.
  destruct (threshold_decides_flags_only sample_log sample_sqrt sample_ks_pvalue sample_chi2_sf
              default_threshold (Fin (9 # 10)) eq_refl reference_sample target_sample)
    as (H1 & _ & _ & _ & H2 & _).
  split; [exact H1|exact H2].
Defined.

(* ================================================================= *)
(** * The Kolmogorov-Smirnov score does not depend on the direction *)

Lemma Qmax_list_spec (d : Q) (ds : list Q) :
  (forall e, In e (d :: ds) -> e <= Qmax_list d ds) /\
  (exists e, In e (d :: ds) /\ Qmax_list d ds == e).
Proof.
  unfold Qmax_list. revert d. induction ds as [|a ds IH]; intros d; simpl.
  - split.
    + intros e [<-|[]]. lra.
    + exists d. split; [now left|reflexivity].
  - destruct (IH (Qmax d a)) as [Hge [e [He Heq]]]. split.
    + intros e' [<-|[<-|He']].
      * apply Qle_trans with (Qmax d a); [apply Q.le_max_l|]. apply Hge. now left.
      * apply Qle_trans with (Qmax d a); [apply Q.le_max_r|]. apply Hge. now left.
      * apply Hge. now right.
    + destruct He as [<-|He].
      * destruct (Q.max_spec d a) as [[_ E]|[_ E]].
        -- exists a. split; [right; now left|]. now rewrite Heq.
        -- exists d. split; [now left|]. now rewrite Heq.
      * exists e. split; [right; now right|exact Heq].
Qed.

Lemma Qmin_list_spec (d : Q) (ds : list Q) :
  (forall e, In e (d :: ds) -> Qmin_list d ds <= e) /\
  (exists e, In e (d :: ds) /\ Qmin_list d ds == e).
Proof.
  unfold Qmin_list. revert d. induction ds as [|a ds IH]; intros d; simpl.
  - split.
    + intros e [<-|[]]. lra.
    + exists d. split; [now left|reflexivity].
  - destruct (IH (Qmin d a)) as [Hle [e [He Heq]]]. split.
    + intros e' [<-|[<-|He']].
      * apply Qle_trans with (Qmin d a); [|apply Q.le_min_l]. apply Hle. now left.
      * apply Qle_trans with (Qmin d a); [|apply Q.le_min_r]. apply Hle. now left.
      * apply Hle. now right.
    + destruct He as [<-|He].
      * destruct (Q.min_spec d a) as [[_ E]|[_ E]].
        -- exists d. split; [now left|]. now rewrite Heq.
        -- exists a. split; [right; now left|]. now rewrite Heq.
      * exists e. split; [right; now right|exact Heq].
Qed.

Lemma filter_all {A : Type} (p : A -> bool) (l : list A) :
  (forall x, In x l -> p x = true) -> filter p l = l.
Proof.
  induction l as [|a l IH]; intros H; simpl; [reflexivity|].
  rewrite (H a) by now left. f_equal. apply IH. intros x Hx. apply H. now right.
Qed.

Lemma cdf_at_top (data : list Q) (v : Q) :
  data <> [] -> (forall e, In e data -> e <= v) -> cdf data v == 1.
Proof.
  intros Hne Hall. unfold cdf, searchsorted_right.
  rewrite filter_all.
  - assert (H : 0 < inject_Z (Z.of_nat (List.length data))).
    { destruct data; [congruence|]. change 0 with (inject_Z 0). rewrite <- Zlt_Qlt.
      simpl List.length. lia. }
    field. lra.
  - intros x Hx. simpl. apply Qle_bool_iff. now apply Hall.
Qed.

Lemma ks_statistic_symmetric (x y : list Q) :
  x <> [] -> y <> [] -> ks_statistic x y == ks_statistic y x.
Proof.
  intros Hx Hy. unfold ks_statistic.
  set (f := fun v => cdf x v - cdf y v).
  set (g := fun v => cdf y v - cdf x v).
  assert (Hfg : forall v, g v == - f v) by (intros v; unfold f, g; ring).
  assert (Hbound : forall v, -(1) <= f v <= 1).
  { intros v. unfold f. pose proof (cdf_unit x v). pose proof (cdf_unit y v). split; lra. }
  (* the two samples agree at their largest point *)
  assert (Hzero : exists v, In v (x ++ y) /\ f v == 0).
  { destruct (x ++ y) as [|a l] eqn:E.
    { destruct x; [congruence|discriminate]. }
    destruct (Qmax_list_spec a l) as [Hge [e [He Heq]]].
    exists e. split; [exact He|]. unfold f.
    assert (Htop : forall e', In e' (x ++ y) -> e' <= e).
    { intros e' He'. rewrite E in He'. rewrite <- Heq. now apply Hge. }
    rewrite (cdf_at_top x e Hx), (cdf_at_top y e Hy).
    - ring.
    - intros e' He'. apply Htop, in_or_app. now right.
    - intros e' He'. apply Htop, in_or_app. now left. }
  destruct Hzero as [v0 [Hv0 Hf0]].
  assert (Hswap : forall v, In v (y ++ x) <-> In v (x ++ y)).
  { intros v. rewrite !in_app_iff. tauto. }
  destruct (map f (x ++ y)) as [|d ds] eqn:Ef.
  { destruct x; [congruence|discriminate]. }
  destruct (map g (y ++ x)) as [|d' ds'] eqn:Eg.
  { destruct y; [congruence|discriminate]. }
  destruct (Qmax_list_spec d ds) as [HM [eM [HeM HMeq]]].
  destruct (Qmin_list_spec d ds) as [Hm [em [Hem Hmeq]]].
  destruct (Qmax_list_spec d' ds') as [HM' [eM' [HeM' HM'eq]]].
  destruct (Qmin_list_spec d' ds') as [Hm' [em' [Hem' Hm'eq]]].
  rewrite <- Ef in HM, HeM, Hm, Hem. rewrite <- Eg in HM', HeM', Hm', Hem'.
  set (M := Qmax_list d ds) in *. set (m := Qmin_list d ds) in *.
  set (M' := Qmax_list d' ds') in *. set (m' := Qmin_list d' ds') in *.
  assert (Hf_in : forall v, In v (x ++ y) -> m <= f v <= M).
  { intros v Hv. split; [apply Hm|apply HM]; apply in_map; exact Hv. }
  assert (Hg_in : forall v, In v (x ++ y) -> m' <= g v <= M').
  { intros v Hv. apply Hswap in Hv. split; [apply Hm'|apply HM']; apply in_map; exact Hv. }
  apply in_map_iff in HeM. destruct HeM as [vM [EM HvM]].
  apply in_map_iff in Hem. destruct Hem as [vm [Em Hvm]].
  apply in_map_iff in HeM'. destruct HeM' as [vM' [EM' HvM']].
  apply in_map_iff in Hem'. destruct Hem' as [vm' [Em' Hvm']].
  apply Hswap in HvM', Hvm'.
  pose proof (Hf_in v0 Hv0) as H0.
  pose proof (Hg_in vM HvM) as H1. pose proof (Hg_in vm Hvm) as H2.
  pose proof (Hf_in vM' HvM') as H3. pose proof (Hf_in vm' Hvm') as H4.
  pose proof (Hfg vM) as G1. pose proof (Hfg vm) as G2.
  pose proof (Hfg vM') as G3. pose proof (Hfg vm') as G4.
  pose proof (Hbound vm) as B1. pose proof (Hbound vM) as B2.
  subst eM em eM' em'.
  assert (HMm : M' == - m) by lra.
  assert (HmM : m' == - M) by lra.
  assert (Hm0 : m <= 0 <= M) by lra.
  assert (Hm1 : -(1) <= m /\ M <= 1) by lra.
  assert (Hc : clip01 (- m) == - m).
  { unfold clip01. rewrite Q.max_l by lra. apply Q.min_l. lra. }
  assert (Hc' : clip01 (- m') == M).
  { unfold clip01. rewrite HmM.
    setoid_replace (- - M) with M by ring.
    rewrite Q.max_l by lra. apply Q.min_l. lra. }
  rewrite Hc, Hc', HMm. apply Q.max_comm.
Qed.

Section Direction.

Variable np_log : Q -> Q.
Variable np_sqrt : Q -> Q.
Variable ks_pvalue : Q -> nat -> nat -> num.
Variable chi2_sf : num -> Z -> num.
Variable threshold : num.

Local Abbreviation detect_drift' := (detect_drift np_log np_sqrt ks_pvalue chi2_sf threshold).
Local Abbreviation column_outcome' :=
  (column_outcome np_log np_sqrt ks_pvalue chi2_sf threshold).

(** X15.  For a column that is numeric in both datasets, the score of
    the Kolmogorov-Smirnov test is the same when the two datasets are
    exchanged: both reports have a result for the column, by the KS
    Test, and the two drift scores are equal. *)
Theorem ks_score_is_symmetric (ref target : DataFrame) (c : string)
  (dt dt' : numeric_dtype) (vs vs' : list (option Q)) :
  getitem ref c = Returned (Numeric dt vs) ->
  getitem target c = Returned (Numeric dt' vs') ->
  exists r r',
    dict_get (column_drift (fst (detect_drift' (PyFrame ref) (PyFrame target)))) c = Some r /\
    dict_get (column_drift (fst (detect_drift' (PyFrame target) (PyFrame ref)))) c = Some r' /\
    test_type r = "KS Test"%string /\ test_type r' = "KS Test"%string /\
    num_eq (drift_score r) (drift_score r').
Proof.
  intros Hr Ht.
  pose proof (getitem_Returned_columns _ _ _ Hr) as Hcr.
  pose proof (getitem_Returned_columns _ _ _ Ht) as Hct.
  exists (fst (column_outcome' ref target c)), (fst (column_outcome' target ref c)).
  split; [apply common_column_recorded, common_cols_In; tauto|].
  split; [apply common_column_recorded, common_cols_In; tauto|].
  unfold column_outcome, column_test. rewrite Hr, Ht. cbn [is_numeric_dtype].
  destruct (ks_test_numeric_score np_log np_sqrt ks_pvalue threshold ref target c
              dt dt' vs vs' Hr Ht) as (Hty & _ & Hs & _).
  destruct (ks_test_numeric_score np_log np_sqrt ks_pvalue threshold target ref c
              dt' dt vs' vs Ht Hr) as (Hty' & _ & Hs' & _).
  split; [exact Hty|]. split; [exact Hty'|].
  rewrite Hs, Hs'.
  destruct (numbers vs) as [|a l] eqn:E, (numbers vs') as [|a' l'] eqn:E';
    try (simpl; exact I).
  simpl. apply ks_statistic_symmetric; discriminate.
Qed.

End Direction.

(** The sample column x: the score is 1/6 in both directions. *)
Lemma ks_score_is_symmetric_witness :
  getitem reference_sample "x"
    = Returned (Numeric Int64 [Some 1; Some 2; Some 3; Some 4; Some 5; Some 100]) /\
  getitem target_sample "x"
    = Returned (Numeric Int64 [Some 1; Some 2; Some 3; Some 4; Some 5; Some 7]) /\
  exists r r',
    dict_get (column_drift
                (fst (detect_drift sample_log sample_sqrt sample_ks_pvalue sample_chi2_sf
                        default_threshold (PyFrame reference_sample) (PyFrame target_sample))))
             "x" = Some r /\
    dict_get (column_drift
                (fst (detect_drift sample_log sample_sqrt sample_ks_pvalue sample_chi2_sf
                        default_threshold (PyFrame target_sample) (PyFrame reference_sample))))
             "x" = Some r' /\
    num_eq (drift_score r) (drift_score r').
Proof.
  split; [reflexivity|]. split; [reflexivity|].
  destruct (ks_score_is_symmetric sample_log sample_sqrt sample_ks_pvalue sample_chi2_sf
              default_threshold reference_sample target_sample "x" Int64 Int64 _ _
              eq_refl eq_refl) as (r & r' & H1 & H2 & _ & _ & H3).
  exists r, r'. split; [exact H1|]. split; [exact H2|exact H3].
Defined.

(* ================================================================= *)
(** * The bounds of check_duplicates *)

Lemma drop_duplicates_from_all (rs seen : list (list cell)) :
  List.length (drop_duplicates_from seen rs) = List.length rs ->
  NoDupA row_eq rs /\ forall r, InA row_eq r rs -> ~ InA row_eq r seen.
Proof.
  revert seen. induction rs as [|r rs IH]; intros seen Hlen; simpl in *.
  - split; [constructor|]. intros r H. inversion H.
  - destruct (existsb (row_eqb r) seen) eqn:E.
    + pose proof (drop_duplicates_from_length rs seen). lia.
    + simpl in Hlen. injection Hlen as Hlen.
      destruct (IH (r :: seen) Hlen) as [Hnd Hseen]. split.
      * constructor; [|exact Hnd]. intros Hin.
        apply InA_alt in Hin. destruct Hin as [r' [Heq Hr']].
        apply (Hseen r'); [apply In_InA; [apply row_eq_equivalence|exact Hr']|].
        constructor. unfold row_eq in *. now rewrite row_eqb_sym.
      * intros r' Hr' Hin. inversion Hr' as [? ? Heq|? ? Hr'']; subst.
        -- assert (Hex : existsb (row_eqb r) seen = true); [|congruence].
           apply existsb_row_eqb. revert Hin.
           apply InA_eqA; [apply row_eq_equivalence|exact Heq].
        -- apply (Hseen r' Hr''). now constructor 2.
Qed.

(** X16.  For every frame check_duplicates returns a report and logs
    nothing; duplicate_count and unique_rows lie between 0 and
    total_rows; a dataset with rows has at least one unique row, so
    that not all rows count as duplicates; duplicate_count is 0 exactly
    when no two rows of the dataset are equal; duplicate_percentage
    lies between 0 and 100. *)
Theorem check_duplicates_bounds (df : DataFrame) :
  exists r,
    check_duplicates (PyFrame df) = (Report r, []) /\
    (0 <= duplicate_count r <= total_rows r)%Z /\
    (0 <= unique_rows r <= total_rows r)%Z /\
    ((0 < total_rows r)%Z -> (1 <= unique_rows r)%Z /\ (duplicate_count r < total_rows r)%Z) /\
    (duplicate_count r = 0%Z <-> NoDupA row_eq (rows df)) /\
    0 <= duplicate_percentage r <= 100.
Proof.
  eexists. split; [reflexivity|]. simpl.
  pose proof (drop_duplicates_from_length (rows df) []) as Hle.
  fold (drop_duplicates (rows df)) in Hle. rewrite rows_length in Hle.
  assert (Hpos : (0 < len df)%nat -> (0 < List.length (drop_duplicates (rows df)))%nat).
  { intros H. rewrite <- rows_length in H.
    destruct (rows df) as [|r rs]; simpl in *; lia. }
  split; [lia|]. split; [lia|]. split; [lia|]. split.
  - split.
    + intros H.
      assert (Hlen : List.length (drop_duplicates_from [] (rows df)) = List.length (rows df)).
      { rewrite rows_length. unfold drop_duplicates in H, Hle. lia. }
      exact (proj1 (drop_duplicates_from_all _ _ Hlen)).
    + intros Hnd. unfold drop_duplicates.
      rewrite drop_duplicates_from_distinct, rows_length; [lia|exact Hnd|].
      intros r _ H. inversion H.
  - destruct (0 <? Z.of_nat (len df))%Z eqn:E; [|lra].
    apply Z.ltb_lt in E. apply round2_between.
    replace (Z.of_nat (len df) - Z.of_nat (List.length (drop_duplicates (rows df))))%Z
      with (Z.of_nat (len df - List.length (drop_duplicates (rows df)))) by lia.
    apply ratio_percentage; lia.
Qed.

(* ================================================================= *)
(** * Samples that do not overlap *)

Lemma cdf_below (data : list Q) (v : Q) :
  (forall e, In e data -> v < e) -> cdf data v == 0.
Proof.
  intros Hall. unfold cdf, searchsorted_right.
  rewrite filter_none.
  - simpl List.length. change (inject_Z (Z.of_nat 0)) with 0.
    unfold Qdiv. ring.
  - intros x Hx. simpl. specialize (Hall x Hx).
    destruct (Qle_bool x v) eqn:E; [|reflexivity].
    apply Qle_bool_iff in E. lra.
Qed.

Lemma ks_statistic_separated (x y : list Q) :
  x <> [] -> y <> [] ->
  (forall a b, In a x -> In b y -> a < b) ->
  ks_statistic x y == 1.
Proof.
  intros Hx Hy Hsep.
  pose proof (ks_statistic_unit x y) as [_ Hle].
  apply Qle_antisym; [exact Hle|].
  unfold ks_statistic.
  (* at the largest reference value the two distribution functions
     are 1 and 0 *)
  destruct x as [|a l]; [congruence|].
  destruct (Qmax_list_spec a l) as [Hge [e [He Heq]]].
  assert (H1 : cdf (a :: l) e == 1).
  { apply cdf_at_top; [discriminate|]. intros e' He'. rewrite <- Heq. now apply Hge. }
  assert (H0 : cdf y e == 0).
  { apply cdf_below. intros b Hb. now apply Hsep. }
  set (f := fun v => cdf (a :: l) v - cdf y v).
  assert (Hin : In (f e) (map f ((a :: l) ++ y))).
  { apply in_map, in_or_app. now left. }
  destruct (map f ((a :: l) ++ y)) as [|d ds] eqn:Ef; [contradiction|].
  destruct (Qmax_list_spec d ds) as [HM _].
  specialize (HM (f e) Hin).
  eapply Qle_trans; [|apply Q.le_max_r].
  unfold f in HM. lra.
Qed.

Section Separated.

Variable np_log : Q -> Q.
Variable np_sqrt : Q -> Q.
Variable ks_pvalue : Q -> nat -> nat -> num.
Variable chi2_sf : num -> Z -> num.
Variable threshold : num.

Local Abbreviation detect_drift' := (detect_drift np_log np_sqrt ks_pvalue chi2_sf threshold).
Local Abbreviation column_outcome' :=
  (column_outcome np_log np_sqrt ks_pvalue chi2_sf threshold).

(** X17.  For a column that is numeric in both datasets, with at least
    one non-missing value in each, and with every reference value below
    every target value or every target value below every reference
    value, the report gives the column the drift score 1, the largest
    score of the Kolmogorov-Smirnov test. *)
Theorem ks_score_of_separated_samples (ref target : DataFrame) (c : string)
  (dt dt' : numeric_dtype) (vs vs' : list (option Q)) :
  getitem ref c = Returned (Numeric dt vs) ->
  getitem target c = Returned (Numeric dt' vs') ->
  numbers vs <> [] -> numbers vs' <> [] ->
  (forall a b, In a (numbers vs) -> In b (numbers vs') -> a < b) \/
  (forall a b, In a (numbers vs) -> In b (numbers vs') -> b < a) ->
  exists r,
    dict_get (column_drift (fst (detect_drift' (PyFrame ref) (PyFrame target)))) c = Some r /\
    test_type r = "KS Test"%string /\ num_eq (drift_score r) (Fin 1).
Proof.
  intros Hr Ht Hne Hne' Hsep.
  pose proof (getitem_Returned_columns _ _ _ Hr) as Hcr.
  pose proof (getitem_Returned_columns _ _ _ Ht) as Hct.
  exists (fst (column_outcome' ref target c)).
  split; [apply common_column_recorded, common_cols_In; tauto|].
  unfold column_outcome, column_test. rewrite Hr. cbn [is_numeric_dtype].
  destruct (ks_test_numeric_score np_log np_sqrt ks_pvalue threshold ref target c
              dt dt' vs vs' Hr Ht) as (Hty & _ & Hs & _).
  split; [exact Hty|]. rewrite Hs.
  destruct (numbers vs) as [|a l] eqn:E; [congruence|].
  destruct (numbers vs') as [|a' l'] eqn:E'; [congruence|].
  simpl. destruct Hsep as [Hsep|Hsep].
  - apply ks_statistic_separated; [discriminate|discriminate|exact Hsep].
  - rewrite ks_statistic_symmetric by discriminate.
    apply ks_statistic_separated; [discriminate|discriminate|].
    intros b a0 Hb Ha. now apply Hsep.
Qed.

End Separated.

(** Reference values 1, 2, 3 against target values 10, 20. *)
Lemma ks_score_of_separated_samples_witness :
  let ref := [("v"%string, Numeric Int64 [Some 1; Some 2; None; Some 3])] in
  let target := [("v"%string, Numeric Float64 [Some 10; Some 20])] in
  exists r,
    dict_get (column_drift
                (fst (detect_drift sample_log sample_sqrt sample_ks_pvalue sample_chi2_sf
                        default_threshold (PyFrame ref) (PyFrame target)))) "v" = Some r /\
    num_eq (drift_score r) (Fin 1).
Proof.
  cbv zeta.
  destruct (ks_score_of_separated_samples sample_log sample_sqrt sample_ks_pvalue
              sample_chi2_sf default_threshold
              [("v"%string, Numeric Int64 [Some 1; Some 2; None; Some 3])]
              [("v"%string, Numeric Float64 [Some 10; Some 20])]
              "v" Int64 Float64 [Some 1; Some 2; None; Some 3] [Some 10; Some 20]
              eq_refl eq_refl) as (r & Hget & _ & Hscore).
  - discriminate.
  - discriminate.
  - left. intros a b Ha Hb. simpl in Ha, Hb.
    destruct Ha as [<-|[<-|[<-|[]]]], Hb as [<-|[<-|[]]]; reflexivity.
  - exists r. split; [exact Hget|exact Hscore].
Defined.

(* ================================================================= *)
(** * The rows counted by two reports *)

(** X18.  On a dataset with distinct column names and columns of one
    length, for every numeric column the count of the numeric summary
    of get_statistics, the count of missing values of
    check_missing_values and total_rows agree: count = total_rows -
    missing count, the number of non-missing values of the column. *)
Theorem counts_agree (np_sqrt : Q -> Q) (df : DataFrame) (column : string)
  (dt : numeric_dtype) (vs : list (option Q)) :
  well_formed df ->
  In (column, Numeric dt vs) df ->
  exists st records r info,
    get_statistics np_sqrt (PyFrame df) = (Report st, []) /\
    numeric_summary st = Some records /\
    check_missing_values (PyFrame df) = (Report r, []) /\
    dict_get (missing_columns r) column = Some info /\
    dict_get (nth 0 records []) column
    = Some (Fin (inject_Z (missing_total_rows r - missing_count info))) /\
    (missing_total_rows r - missing_count info)%Z = Z.of_nat (List.length (numbers vs)).
Proof.
  intros [Hnd Hlen] Hin.
  pose proof (check_missing_values_frame df Hnd) as Hbody. cbv zeta in Hbody.
  pose proof (get_statistics_frame np_sqrt df Hnd) as Hst.
  assert (Hc : In column (numeric_cols df)).
  { apply numeric_cols_In. eauto. }
  assert (Hs : len_series (Numeric dt vs) = len df).
  { rewrite Forall_forall in Hlen. exact (Hlen _ Hin). }
  pose proof (isna_sum_dropna (Numeric dt vs)) as Hsum.
  rewrite dropna_numeric_length in Hsum.
  assert (Hd : column_numbers df column = numbers vs).
  { unfold column_numbers. now rewrite (getitem_In df column _ Hnd Hin). }
  unfold get_statistics, check_missing_values. rewrite Hst, Hbody.
  exists {| numeric_summary :=
              Some (map (fun i =>
                           map (fun c => (c, nth i (describe_column np_sqrt
                                                      (column_numbers df c)) NaN))
                               (numeric_cols df))
                        (seq 0 8));
            categorical_columns := object_cols df;
            numeric_columns := numeric_cols df;
            categorical_summary :=
              map (fun c => (c, match getitem df c with
                                | Returned s => firstn 10 (value_counts s)
                                | Raised _ => []
                                end))
                  (firstn 5 (object_cols df)) |}.
  do 3 eexists. split.
  { destruct (numeric_cols df); [contradiction|reflexivity]. }
  split; [reflexivity|]. split; [reflexivity|].
  cbn beta iota delta [numeric_summary missing_columns missing_total_rows]. split.
  { rewrite dict_get_map_In by (eapply In_columns; eassumption).
    rewrite (getitem_In df column _ Hnd Hin). reflexivity. }
  cbn [missing_count]. split.
  - cbn [seq map nth]. rewrite dict_get_map_In by exact Hc.
    rewrite Hd. cbn [describe_column nth]. unfold of_nat. do 3 f_equal. lia.
  - lia.
Qed.

Lemma counts_agree_witness :
  well_formed reference_sample /\
  exists st records,
    get_statistics sample_sqrt (PyFrame reference_sample) = (Report st, []) /\
    numeric_summary st = Some records /\
    dict_get (nth 0 records []) "empty" = Some (Fin 0).
Proof.
  split; [exact well_formed_reference_sample|].
  destruct (counts_agree sample_sqrt reference_sample "empty" Float64
              [None; None; None; None; None; None] well_formed_reference_sample)
    as (st & records & r & info & Hst & Hrec & Hr & Hinfo & Hcount & _).
  - simpl. auto.
  - exists st, records. split; [exact Hst|]. split; [exact Hrec|].
    vm_compute in Hr. inversion Hr; subst r. vm_compute in Hinfo. inversion Hinfo; subst info.
    exact Hcount.
Defined.

(* ================================================================= *)
(** * A dataset whose rows were reshuffled *)

Lemma Permutation_filter_length {A : Type} (p : A -> bool) (l l' : list A) :
  Permutation l l' -> List.length (filter p l) = List.length (filter p l').
Proof.
  induction 1 as [|a l l' H IH|a b l|l l' l'' H1 IH1 H2 IH2]; simpl.
  - reflexivity.
  - destruct (p a); simpl; now rewrite IH.
  - destruct (p a), (p b); reflexivity.
  - now rewrite IH1.
Qed.

Lemma cdf_permuted (x y : list Q) (v : Q) : Permutation x y -> cdf x v = cdf y v.
Proof.
  intros H. unfold cdf, searchsorted_right.
  now rewrite (Permutation_filter_length _ x y H), (Permutation_length H).
Qed.

Lemma ks_statistic_permuted (x y : list Q) : Permutation x y -> ks_statistic x y == 0.
Proof.
  intros Hp. unfold ks_statistic.
  set (cddiffs := map (fun v => cdf x v - cdf y v) (x ++ y)).
  assert (H : Forall (fun d => 0 <= d <= 0) cddiffs).
  { apply Forall_forall. intros d Hd. apply in_map_iff in Hd.
    destruct Hd as [v [<- _]]. rewrite (cdf_permuted x y v Hp). lra. }
  destruct cddiffs as [|d ds]; [reflexivity|].
  inversion H as [|? ? Hd Hds]; subst.
  pose proof (Qmax_list_between 0 0 d ds Hd Hds) as Hmax.
  pose proof (Qmin_list_between 0 0 d ds Hd Hds) as Hmin.
  pose proof (clip01_unit (- Qmin_list d ds)) as [Hc0 _].
  assert (Hc : clip01 (- Qmin_list d ds) <= 0).
  { unfold clip01. eapply Qle_trans; [apply Q.le_min_l|]. apply Q.max_lub; lra. }
  apply Qle_antisym.
  - apply Q.max_lub; tauto.
  - eapply Qle_trans; [|apply Q.le_max_l]. exact Hc0.
Qed.

Lemma numbers_permuted (vs vs' : list (option Q)) :
  Permutation vs vs' -> Permutation (numbers vs) (numbers vs').
Proof. intros H. unfold numbers. now apply Permutation_flat_map. Qed.

Lemma occurrences_permuted (k : cell) (s s' : Series) :
  Permutation (cells s) (cells s') -> occurrences k s = occurrences k s'.
Proof.
  intros H. unfold occurrences. now rewrite (Permutation_filter_length _ _ _ H).
Qed.

Lemma occurrences_equiv (k x : cell) (s : Series) :
  cell_eqb k x = true -> occurrences k s = occurrences x s.
Proof.
  intros Hk. unfold occurrences. do 2 f_equal. apply filter_ext. intros c.
  destruct (cell_eqb x c) eqn:E1.
  - now apply cell_eqb_trans with (1 := Hk).
  - destruct (cell_eqb k c) eqn:E2; [|reflexivity].
    rewrite <- E1. symmetry. apply cell_eqb_trans with (2 := E2). now rewrite cell_eqb_sym.
Qed.

Lemma count_of_equiv (k x : cell) (t : list (cell * Z)) :
  cell_eqb k x = true -> count_of k t = count_of x t.
Proof.
  intros Hk. induction t as [|[k' n] t IH]; simpl; [reflexivity|].
  assert (E : cell_eqb k' k = cell_eqb k' x).
  { destruct (cell_eqb k' x) eqn:E1.
    - apply cell_eqb_trans with (1 := E1). now rewrite cell_eqb_sym.
    - destruct (cell_eqb k' k) eqn:E2; [|reflexivity].
      rewrite <- E1. symmetry. now apply cell_eqb_trans with (1 := E2). }
  rewrite E. destruct (cell_eqb k' x); [reflexivity|exact IH].
Qed.

(** The counts of a column are found again in the counts of a
    reshuffled column. *)
Lemma value_counts_permuted (s s' : Series) (e : cell * Z) :
  Permutation (cells s) (cells s') ->
  In e (value_counts s) -> count_of (fst e) (value_counts s') = Some (snd e).
Proof.
  intros Hp He. destruct e as [k n].
  destruct (value_counts_occurrences s k n He) as (Hk & Hn & H1). simpl.
  unfold occurrences in Hn.
  destruct (filter (cell_eqb k) (cells s)) as [|x l] eqn:Ef; [simpl in Hn; lia|].
  assert (Hx : In x (filter (cell_eqb k) (cells s))) by (rewrite Ef; now left).
  apply filter_In in Hx. destruct Hx as [Hx Hkx].
  assert (Hxn : x <> NA).
  { intros ->. now apply Hk, cell_eqb_NA. }
  destruct (value_counts_complete s' x (Permutation_in _ Hp Hx) Hxn) as [n' [Hc Hn']].
  rewrite (count_of_equiv k x _ Hkx), Hc. f_equal.
  rewrite Hn', <- (occurrences_equiv k x s' Hkx), <- (occurrences_permuted k s s' Hp).
  unfold occurrences. now rewrite Ef.
Qed.

Lemma merge_outer_permuted (on : string) (s s' : Series) :
  dtype_name s = dtype_name s' ->
  Permutation (cells s) (cells s') ->
  merge_outer on (dtype_name s) (dtype_name s') (value_counts s) (value_counts s') =
  Returned (map (fun e => {| key := fst e; count_ref := inject_Z (snd e);
                             count_target := inject_Z (snd e) |}) (value_counts s)).
Proof.
  intros Hty Hp. unfold merge_outer. rewrite Hty, eqb_reflx. cbn [negb andb].
  f_equal. rewrite flat_map_all_nil, app_nil_r.
  - apply map_ext_in. intros e He. now rewrite (value_counts_permuted s s' e Hp He).
  - intros e He. now rewrite (value_counts_permuted s' s e (Permutation_sym Hp) He).
Qed.

Section Reshuffled.

Variable np_log : Q -> Q.
Variable np_sqrt : Q -> Q.
Variable ks_pvalue : Q -> nat -> nat -> num.
Variable chi2_sf : num -> Z -> num.
Variable threshold : num.

Local Abbreviation detect_drift' := (detect_drift np_log np_sqrt ks_pvalue chi2_sf threshold).
Local Abbreviation column_outcome' :=
  (column_outcome np_log np_sqrt ks_pvalue chi2_sf threshold).

(** What the loop records for a column whose cells were reshuffled. *)
Lemma column_outcome_reshuffled (ref target : DataFrame) (c : string) (s s' : Series) :
  getitem ref c = Returned s -> getitem target c = Returned s' -> reshuffled s s' ->
  let r := fst (column_outcome' ref target c) in
  match s with
  | Numeric _ vs =>
      match numbers vs with
      | [] => drift_score r = NaN /\ error_note r = None
      | _ => is_zero (drift_score r)
      end
  | Object _ => is_zero (drift_score r)
  end.
Proof.
  intros Hr Ht Hp. cbv zeta. unfold column_outcome, column_test. rewrite Hr.
  destruct s as [dt vs|ws], s' as [dt' vs'|ws']; simpl in Hp; try contradiction;
    cbn [is_numeric_dtype].
  - destruct (ks_test_numeric_score np_log np_sqrt ks_pvalue threshold ref target c
                dt dt' vs vs' Hr Ht) as (_ & Herr & Hs & _).
    pose proof (numbers_permuted vs vs' Hp) as Hn.
    revert Hs Hn. destruct (numbers vs) as [|a l], (numbers vs') as [|a' l']; intros Hs Hn.
    + split; [exact Hs|exact Herr].
    + split; [exact Hs|exact Herr].
    + apply Permutation_sym, Permutation_nil in Hn. discriminate.
    + rewrite Hs. cbn [fst]. now apply ks_statistic_permuted.
  - unfold _chi_square_test, chi_square_test_body. rewrite Hr, Ht. cbn [bind].
    rewrite merge_outer_permuted; [|reflexivity|simpl; now apply Permutation_map].
    cbn [bind]. rewrite !map_map. cbn [count_target count_ref].
    destruct (value_counts_table (Object ws)) as [_ Hpos].
    destruct (chisquare_self chi2_sf (map (fun e => inject_Z (snd e)) (value_counts (Object ws))))
      as (stat & p & Hchi & Hz).
    { apply Forall_forall. intros q Hq. apply in_map_iff in Hq.
      destruct Hq as [e [<- He]]. rewrite Forall_forall in Hpos.
      specialize (Hpos e He). change 1 with (inject_Z 1). now rewrite <- Zle_Qle. }
    rewrite Hchi. cbn [bind fst snd drift_score]. exact Hz.
Qed.

(** X19.  Reshuffling the rows creates no drift: when every common
    column of the target dataset has the type of the reference column
    and holds its cells in another order, and the threshold is not
    negative, no drift is detected and the drift score of every column
    is 0 or nan.  When every common column that is numeric has a
    non-missing value, every drift score is 0 and the overall score is
    0.  A common numeric column without any non-missing value is tested
    without failure and gets the score nan, and the overall score is
    then nan. *)
Theorem reshuffled_rows_show_no_drift (ref target : DataFrame) :
  leb (Fin 0) threshold = true ->
  (forall c, In c (common_cols ref target) ->
             exists s s', getitem ref c = Returned s /\ getitem target c = Returned s' /\
                          reshuffled s s') ->
  let report := fst (detect_drift' (PyFrame ref) (PyFrame target)) in
  drift_detected report = false /\
  Forall (fun r => zero_or_nan (drift_score r)) (dict_values (column_drift report)) /\
  ((forall c dt vs,
       In c (common_cols ref target) ->
       getitem ref c = Returned (Numeric dt vs) -> numbers vs <> []) ->
   num_eq (overall_drift_score report) (Fin 0) /\
   Forall (fun r => num_eq (drift_score r) (Fin 0)) (dict_values (column_drift report))) /\
  (forall c dt vs,
      In c (common_cols ref target) ->
      getitem ref c = Returned (Numeric dt vs) -> numbers vs = [] ->
      overall_drift_score report = NaN /\
      exists r, dict_get (column_drift report) c = Some r /\
                drift_score r = NaN /\ error_note r = None).
Proof.
  intros Hthr Hcols. cbv zeta.
  pose proof (common_column_recorded np_log np_sqrt ks_pvalue chi2_sf threshold ref target)
    as Hrec.
  rewrite detect_drift_frames in *.
  cbn [fst overall_drift_score drift_detected column_drift] in *.
  set (scores := map (fun c => drift_score (fst (column_outcome' ref target c)))
                     (common_cols ref target)).
  assert (Hvalues : forall P : column_result -> Prop,
             (forall c, In c (common_cols ref target) ->
                        P (fst (column_outcome' ref target c))) ->
             Forall P (dict_values (map (fun c => (c, fst (column_outcome' ref target c)))
                                        (common_cols ref target)))).
  { intros P HP. unfold dict_values. rewrite map_map. cbn [snd].
    apply Forall_forall. intros r Hr. apply in_map_iff in Hr.
    destruct Hr as [c [<- Hc]]. now apply HP. }
  assert (Hcol : forall c, In c (common_cols ref target) ->
                           zero_or_nan (drift_score (fst (column_outcome' ref target c)))).
  { intros c Hc. destruct (Hcols c Hc) as (s & s' & Hr & Ht & Hp).
    pose proof (column_outcome_reshuffled ref target c s s' Hr Ht Hp) as H. cbv zeta in H.
    destruct s as [dt vs|ws]; [|left; exact H].
    destruct (numbers vs); [right; tauto|left; exact H]. }
  assert (Hscores : Forall zero_or_nan scores).
  { apply Forall_forall. intros x Hx. apply in_map_iff in Hx.
    destruct Hx as [c [<- Hc]]. now apply Hcol. }
  assert (Hoverall : zero_or_nan match scores with [] => Fin 0 | _ => np_mean scores end).
  { destruct scores as [|x l] eqn:E; [left; simpl; reflexivity|].
    apply np_mean_zero_or_nan; [congruence|exact Hscores]. }
  split; [|split; [|split]].
  - destruct Hoverall as [Hz|Hn].
    + unfold is_zero in Hz.
      destruct (match scores with [] => Fin 0 | _ => np_mean scores end) as [q| | |];
        simpl in Hz; try contradiction.
      unfold gtb. destruct threshold as [t| | |]; simpl in *; try congruence.
      unfold Qlt_bool. apply negb_false_iff, Qle_bool_iff.
      apply Qle_bool_iff in Hthr. lra.
    + rewrite Hn. unfold gtb. destruct threshold; reflexivity.
  - apply Hvalues. exact Hcol.
  - intros Hvals.
    assert (Hzero : forall c, In c (common_cols ref target) ->
                              is_zero (drift_score (fst (column_outcome' ref target c)))).
    { intros c Hc. destruct (Hcols c Hc) as (s & s' & Hr & Ht & Hp).
      pose proof (column_outcome_reshuffled ref target c s s' Hr Ht Hp) as H. cbv zeta in H.
      destruct s as [dt vs|ws]; [|exact H].
      specialize (Hvals c dt vs Hc Hr). destruct (numbers vs); [congruence|exact H]. }
    split.
    + destruct scores as [|x l] eqn:E; [simpl; reflexivity|].
      apply np_mean_zero; [congruence|]. rewrite <- E.
      apply Forall_forall. intros y Hy. apply in_map_iff in Hy.
      destruct Hy as [c [<- Hc]]. now apply Hzero.
    + apply Hvalues. exact Hzero.
  - intros c dt vs Hc Hg He.
    destruct (Hcols c Hc) as (s & s' & Hr & Ht & Hp).
    pose proof (column_outcome_reshuffled ref target c s s' Hr Ht Hp) as H. cbv zeta in H.
    rewrite Hg in Hr. inversion Hr; subst s. rewrite He in H.
    destruct H as [Hs Herr].
    assert (Hin : In NaN scores).
    { rewrite <- Hs. unfold scores.
      exact (in_map (fun c => drift_score (fst (column_outcome' ref target c))) _ _ Hc). }
    split.
    + destruct scores as [|x l] eqn:E; [contradiction|]. now apply np_mean_nan.
    + eexists. split; [apply Hrec; exact Hc|]. split; assumption.
Qed.

End Reshuffled.

(** The sample without an empty column against its rows in reverse
    order: every numeric column has a value, and the overall score is
    0. *)
Lemma reshuffled_rows_show_no_drift_witness :
  let target := map (fun c => (fst c,
                               match snd c with
                               | Numeric dt vs => Numeric dt (rev vs)
                               | Object vs => Object (rev vs)
                               end)) reference_complete in
  let report := fst (detect_drift sample_log sample_sqrt sample_ks_pvalue sample_chi2_sf
                       default_threshold (PyFrame reference_complete) (PyFrame target)) in
  leb (Fin 0) default_threshold = true /\
  drift_detected report = false /\ num_eq (overall_drift_score report) (Fin 0).
Proof.
  cbv zeta. split; [reflexivity|].
  destruct (reshuffled_rows_show_no_drift sample_log sample_sqrt sample_ks_pvalue
              sample_chi2_sf default_threshold reference_complete
              (map (fun c => (fst c,
                              match snd c with
                              | Numeric dt vs => Numeric dt (rev vs)
                              | Object vs => Object (rev vs)
                              end)) reference_complete) eq_refl)
    as (Hd & _ & Hz & _).
  - intros c Hc. simpl in Hc.
    destruct Hc as [<-|[<-|[<-|[]]]];
      (do 2 eexists; split; [reflexivity|]; split; [reflexivity|]; apply Permutation_rev).
  - split; [exact Hd|]. apply Hz.
    intros c dt vs _ Hg. unfold reference_complete in Hg. cbn [getitem] in Hg.
    destruct (String.eqb "x" c); [inversion Hg; subst; vm_compute; discriminate|].
    destruct (String.eqb "cat" c); [discriminate|].
    destruct (String.eqb "constant" c); discriminate.
Defined.
